(** * ClawdBody: provisioning orchestrator, status projection and key masking

    A shallow embedding of
      - src/lib/aws-setup-process.ts            (runAWSSetupProcess)
      - src/app/api/setup/anthropic-key/route.ts (GET, PUT, DELETE, and the
        reprovision POST handler with runReprovisionProcess that shares the
        file)
      - src/app/api/setup/status/route.ts        (GET)
      - src/app/api/vms/[id]/route.ts            (GET, PATCH, DELETE)
      - src/app/api/terminal/connect/route.ts    (the output buffer of POST)
      - src/lib/ai-providers.ts

    A [string] is a sequence of characters with codes below 256, one for
    each UTF-16 code unit of the JavaScript string.

    Asynchronous code is written in a state-and-exception monad over a
    [World]: the two Prisma tables the code touches, and a chronological
    trace of the externally visible events (provider and remote-setup calls,
    timer sleeps, table writes).  The answers of the outside world (provider
    API, remote command results, environment variables) are collected in an
    environment record and are universally quantified in the theorems. *)

From Stdlib Require Import ZArith Lia Ascii String.
From stdpp Require Import gmap strings list fin_maps pretty.

Local Open Scope string_scope.
Local Open Scope Z_scope.
Local Open Scope list_scope.

(** ** JavaScript values and strings *)

(** Scalars held by table columns and JSON bodies. *)
Inductive Val :=
  | VNull
  | VBool (b : bool)
  | VStr (s : string)
  | VNum (z : Z).

Global Instance Val_eq_dec : EqDecision Val.
Proof. solve_decision. Defined.

(** JavaScript truthiness, as used by [if (x)], [!x], [a || b], [a && b]. *)
Definition truthy (v : Val) : bool :=
  match v with
  | VNull => false
  | VBool b => b
  | VStr s => negb (String.eqb s "")
  | VNum z => negb (z =? 0)
  end.

(** [a || b] on values. *)
Definition orElse (a b : Val) : Val := if truthy a then a else b.

(** The string held by a string-typed column ([null] reads as empty). *)
Definition str_of (v : Val) : string :=
  match v with VStr s => s | _ => "" end.

(** Interpolation of a value inside a template literal. *)
Definition template (v : Val) : string :=
  match v with
  | VNull => "null"
  | VBool true => "true"
  | VBool false => "false"
  | VStr s => s
  | VNum z => pretty z
  end.

(** [s || d] on strings: the empty string is falsy. *)
Definition strOr (s d : string) : string := if String.eqb s "" then d else s.

(** [s.includes(sub)]. *)
Fixpoint includes (s sub : string) : bool :=
  String.prefix sub s
  || match s with
     | EmptyString => false
     | String _ s' => includes s' sub
     end.

(** [s.slice(0, n)] and [s.slice(-n)]. *)
Definition slice_head (n : nat) (s : string) : string := String.substring 0 n s.
Definition slice_tail (n : nat) (s : string) : string :=
  String.substring (String.length s - n) n s.

(** A piece of text between double quotes, inside a shell command. *)
Definition quoted (s : string) : string :=
  let q := String (ascii_of_nat 34) EmptyString in q +:+ s +:+ q.

(** The white space and the line terminators of ECMAScript among the
    characters of a [string]: U+0009 to U+000D, U+0020 and U+00A0. *)
Definition isWhiteSpace (c : ascii) : bool :=
  Ascii.is_space c || Ascii.eqb c (ascii_of_nat 160).

(** [s.trim()]. *)
Fixpoint trimStart (s : string) : string :=
  match s with
  | String c s' => if isWhiteSpace c then trimStart s' else s
  | EmptyString => EmptyString
  end.

Definition trim (s : string) : string :=
  String.rev (trimStart (String.rev (trimStart s))).

(** ** Thrown values

    What a [catch] clause may receive.  [message] and [Error_Message] are
    the empty string when the property is absent (both are falsy, which is
    all the handlers test); [rendered] is [String(error)]. *)
Record Thrown := mkThrown {
  instanceofError : bool;
  message : string;
  Error_Message : string;
  Code : option string;
  rendered : string
}.

(** [new Error(msg)]. *)
Definition newError (msg : string) : Thrown :=
  {| instanceofError := true; message := msg; Error_Message := "";
     Code := None; rendered := "Error: " +:+ msg |}.

(** ** Tables

    A row maps column names to values; an unset nullable column reads as
    [null], as in the objects Prisma returns. *)
Abbreviation Row := (gmap string Val).

Definition col (r : Row) (k : string) : Val := default VNull (r !! k).

(** An object literal: keys in source order.  A key whose value is
    [undefined] is left out (Prisma ignores it, and so does the
    [!== undefined] test of [updateStatus]). *)
Abbreviation Obj := (list (string * Val)).

Definition field (k : string) (v : Val) : Obj := [(k, v)].
Definition field_opt (k : string) (v : option string) : Obj :=
  match v with Some s => [(k, VStr s)] | None => [] end.

(** The row after [update({ data })]. *)
Definition patch (data : Obj) (r : Row) : Row :=
  foldl (λ acc kv, <[kv.1 := kv.2]> acc) r data.

Inductive Table := SetupStateT | VMT.

Global Instance Table_eq_dec : EqDecision Table.
Proof. solve_decision. Defined.

(** [setupState] is keyed by [userId], [vM] by [id]. *)
Record Store := mkStore {
  setupState : gmap string Row;
  vM : gmap string Row
}.

Definition table (t : Table) (s : Store) : gmap string Row :=
  match t with SetupStateT => setupState s | VMT => vM s end.

Definition setTable (t : Table) (m : gmap string Row) (s : Store) : Store :=
  match t with
  | SetupStateT => {| setupState := m; vM := vM s |}
  | VMT => {| setupState := setupState s; vM := m |}
  end.

(** ** Events and the asynchronous monad *)

Inductive Event :=
  | Call (fn : string) (args : list Val)
  | Sleep (ms : Z)
  | Write (t : Table) (key : string) (data : Obj).

Global Instance Event_eq_dec : EqDecision Event.
Proof. solve_decision. Defined.

Record World := mkWorld {
  db : Store;
  trace : list Event
}.

Inductive Outcome (A : Type) :=
  | Returned (a : A)
  | Threw (e : Thrown).
Arguments Returned {A} a.
Arguments Threw {A} e.

Definition Async (A : Type) : Type := World → Outcome A * World.

Definition ret {A} (a : A) : Async A := λ w, (Returned a, w).

Definition throw {A} (e : Thrown) : Async A := λ w, (Threw e, w).

Definition bind {A B} (m : Async A) (k : A → Async B) : Async B :=
  λ w, match m w with
       | (Returned a, w') => k a w'
       | (Threw e, w') => (Threw e, w')
       end.

Notation "'let!' x ':=' m 'in' k" := (bind m (λ x, k))
  (at level 10, x name, m at level 100, k at level 200).
Notation "m ;;; k" := (bind m (λ _, k))
  (at level 100, k at level 200, right associativity).

(** [try { m } catch (e) { h e }]. *)
Definition tryCatch {A} (m : Async A) (h : Thrown → Async A) : Async A :=
  λ w, match m w with
       | (Returned a, w') => (Returned a, w')
       | (Threw e, w') => h e w'
       end.

(** [try { m } finally { f }], for a [finally] block that cannot throw. *)
Definition tryFinally {A} (m : Async A) (f : Async unit) : Async A :=
  λ w, match m w with
       | (o, w') => (o, snd (f w'))
       end.

Definition emit (ev : Event) : Async unit :=
  λ w, (Returned tt, {| db := db w; trace := trace w ++ [ev] |}).

(** An awaited call into a collaborator: the call is recorded, and the
    environment decides whether it resolves or rejects. *)
Definition call {A} (fn : string) (args : list Val) (r : Outcome A) : Async A :=
  emit (Call fn args) ;;; (λ w, (r, w)).

(** [await new Promise(resolve => setTimeout(resolve, ms))]. *)
Definition sleep (ms : Z) : Async unit := emit (Sleep ms).

(** The outcome of [m] as a value: the shape of a [try] block whose
    [catch] goes on with the enclosing code. *)
Definition reify {A} (m : Async A) : Async (Outcome A) :=
  λ w, match m w with (o, w') => (Returned o, w') end.

(** A synchronous call that returns or throws, such as [decrypt]. *)
Definition liftOutcome {A} (o : Outcome A) : Async A := λ w, (o, w).

(** [prisma.vM.findFirst({ where: { id, userId } })]. *)
Definition ownedVM (s : Store) (id userId : string) : option Row :=
  match vM s !! id with
  | Some r => if decide (col r "userId" = VStr userId) then Some r else None
  | None => None
  end.

Definition findFirstVM (id userId : string) : Async (option Row) :=
  λ w, (Returned (ownedVM (db w) id userId), w).

(** [prisma.<table>.findUnique({ where })]. *)
Definition findUnique (t : Table) (key : string) : Async (option Row) :=
  λ w, (Returned (table t (db w) !! key), w).

(** Prisma's rejection of an [update] whose [where] matches no record. *)
Definition recordNotFound : Thrown :=
  newError "Record to update not found.".

(** The store after [prisma.<table>.update({ where, data })] has found the
    record. *)
Definition written (s : Store) (t : Table) (key : string) (data : Obj) : Store :=
  match table t s !! key with
  | Some r => setTable t (<[key := patch data r]> (table t s)) s
  | None => s
  end.

(** [prisma.<table>.update({ where, data })]. *)
Definition update (t : Table) (key : string) (data : Obj) : Async unit :=
  λ w, match table t (db w) !! key with
       | Some _ =>
           (Returned tt,
            {| db := written (db w) t key data;
               trace := trace w ++ [Write t key data] |})
       | None => (Threw recordNotFound, w)
       end.

(** ** HTTP responses *)

Record Response := mkResponse {
  httpStatus : Z;
  body : gmap string Val
}.

(** [NextResponse.json(obj)] and [NextResponse.json(obj, { status })]. *)
Definition json (o : Obj) : Response :=
  {| httpStatus := 200; body := patch o ∅ |}.
Definition jsonStatus (o : Obj) (st : Z) : Response :=
  {| httpStatus := st; body := patch o ∅ |}.

(** An optional string that must be truthy to count: [if (vmId)],
    [session?.user?.id], [process.env.X]. *)
Definition present (o : option string) : option string :=
  match o with
  | Some u => if String.eqb u "" then None else Some u
  | None => None
  end.

Definition sessionUser (session : option string) : option string :=
  present session.

(** The value sent for an optional string argument. *)
Definition arg_opt (o : option string) : Val :=
  match o with Some s => VStr s | None => VNull end.

(** ** GET /api/setup/anthropic-key *)

Module KeyStatus.
Section WithDecrypt.

(** [decrypt] of [@/lib/encryption]: it returns the plaintext or throws. *)
Variable decrypt : string → Outcome string.

(** The mask of lines 35-37: first 12 and last 4 characters around three
    dots when the key is longer than 16 characters. *)
Definition maskKey (decryptedKey : string) : string :=
  if (16 <? String.length decryptedKey)%nat
  then slice_head 12 decryptedKey +:+ "..." +:+ slice_tail 4 decryptedKey
  else "***".

Definition noKey : Response :=
  json (field "hasKey" (VBool false) ++ field "maskedKey" VNull).

(** [session] is the outcome of [getServerSession]. *)
Definition GET (session : Outcome (option string)) (s : Store) : Response :=
  match session with
  | Threw _ => jsonStatus (field "error" (VStr "Failed to get API key status")) 500
  | Returned sess =>
      match sessionUser sess with
      | None => jsonStatus (field "error" (VStr "Unauthorized")) 401
      | Some uid =>
          match setupState s !! uid with
          | None => noKey
          | Some row =>
              if truthy (col row "claudeApiKey") then
                match decrypt (str_of (col row "claudeApiKey")) with
                | Returned decryptedKey =>
                    json (field "hasKey" (VBool true)
                          ++ field "maskedKey" (VStr (maskKey decryptedKey)))
                | Threw _ => noKey
                end
              else noKey
          end
      end
  end.

End WithDecrypt.
End KeyStatus.

(** ** Writing progress: [updateStatus]

    Both pipelines define the same closure: the legacy record of the user
    is updated with all the fields, and the sandbox record (when a sandbox id
    was given) with those of a fixed list of columns, if any is present. *)

(** [updates.k], when it is not [undefined]. *)
Fixpoint lookupKey (k : string) (o : Obj) : option Val :=
  match o with
  | [] => None
  | (k', v) :: o' => if String.eqb k k' then Some v else lookupKey k o'
  end.

(** [vmUpdates], built column by column in the order of the [if]s. *)
Definition pick (columns : list string) (updates : Obj) : Obj :=
  flat_map (λ k, match lookupKey k updates with
                 | Some v => [(k, v)]
                 | None => []
                 end) columns.

Definition updateStatusWith (columns : list string)
    (userId : string) (vmId : option string) (updates : Obj) : Async unit :=
  update SetupStateT userId updates ;;;
  match present vmId with
  | Some v =>
      let vmUpdates := pick columns updates in
      if (0 <? length vmUpdates)%nat then update VMT v vmUpdates else ret tt
  | None => ret tt
  end.

(** [error instanceof Error ? error.message : 'Unknown error occurred']. *)
Definition failedMessage (error : Thrown) : string :=
  if instanceofError error then message error else "Unknown error occurred".

(** ** src/lib/ai-providers.ts *)

Module AIProviders.

Record AIModel := mkModel {
  model_id : string;
  model_name : string;
  description : string;
  contextLength : string;
  recommended : bool
}.

Record AIProviderConfig := mkConfig {
  id : string;
  name : string;
  displayName : string;
  envVar : string;
  apiKeyPrefix : string;
  apiKeyPlaceholder : string;
  getApiKeyUrl : string;
  defaultModel : string;
  models : list AIModel;
  baseUrl : option string
}.

(** Lines 33-85. *)
Definition anthropic : AIProviderConfig :=
  {| id := "anthropic"; name := "anthropic"; displayName := "Anthropic";
     envVar := "ANTHROPIC_API_KEY"; apiKeyPrefix := "sk-ant-";
     apiKeyPlaceholder := "sk-ant-api03-...";
     getApiKeyUrl := "https://console.anthropic.com/settings/keys";
     defaultModel := "claude-sonnet-4-20250514";
     models :=
       [mkModel "claude-sonnet-4-20250514" "Claude Sonnet 4"
          "Latest balanced model" "200k" true;
        mkModel "claude-opus-4-20250514" "Claude Opus 4"
          "Most capable model" "200k" false;
        mkModel "claude-3-5-sonnet-20241022" "Claude 3.5 Sonnet"
          "Previous generation" "200k" false];
     baseUrl := None |}.

Definition openai : AIProviderConfig :=
  {| id := "openai"; name := "openai"; displayName := "OpenAI";
     envVar := "OPENAI_API_KEY"; apiKeyPrefix := "sk-";
     apiKeyPlaceholder := "sk-proj-...";
     getApiKeyUrl := "https://platform.openai.com/api-keys";
     defaultModel := "gpt-4o";
     models :=
       [mkModel "gpt-4o" "GPT-4o" "Latest multimodal model" "128k" true;
        mkModel "gpt-4o-mini" "GPT-4o Mini" "Fast and affordable" "128k" false;
        mkModel "gpt-4-turbo" "GPT-4 Turbo" "Previous generation" "128k" false;
        mkModel "o1" "o1" "Reasoning model" "200k" false;
        mkModel "o1-mini" "o1-mini" "Fast reasoning model" "128k" false];
     baseUrl := Some "https://api.openai.com/v1" |}.

Definition kimi : AIProviderConfig :=
  {| id := "kimi"; name := "kimi"; displayName := "Kimi (Moonshot)";
     envVar := "MOONSHOT_API_KEY"; apiKeyPrefix := "";
     apiKeyPlaceholder := "sk-...";
     getApiKeyUrl := "https://platform.moonshot.ai/console/api-keys";
     defaultModel := "kimi-k2.5";
     models :=
       [mkModel "kimi-k2.5" "Kimi K2.5" "Multimodal, thinking & agent tasks"
          "256k" true;
        mkModel "kimi-k2-turbo-preview" "Kimi K2 Turbo" "High-speed K2 version"
          "256k" false;
        mkModel "kimi-k2-thinking" "Kimi K2 Thinking" "Long-term reasoning"
          "256k" false;
        mkModel "kimi-k2-thinking-turbo" "Kimi K2 Thinking Turbo" "Fast reasoning"
          "256k" false;
        mkModel "moonshot-v1-128k" "Moonshot V1 128k" "Long context model"
          "128k" false];
     baseUrl := Some "https://api.moonshot.ai/v1" |}.

(** The names every object literal inherits from [Object.prototype]:
    [AI_PROVIDERS[name]] is then a function, or the prototype itself, which
    is truthy and has none of the properties of a configuration that the
    functions below read. *)
Definition inheritedNames : list string :=
  ["constructor"; "__proto__"; "hasOwnProperty"; "isPrototypeOf";
   "propertyIsEnumerable"; "toLocaleString"; "toString"; "valueOf";
   "__defineGetter__"; "__defineSetter__"; "__lookupGetter__";
   "__lookupSetter__"].

(** What [getAIProvider] returns: a configuration, or an inherited value. *)
Inductive Provider :=
  | Config (config : AIProviderConfig)
  | Inherited.

(** [getAIProvider] (lines 90-97). *)
Definition getAIProvider (providerId : string) : Provider :=
  if String.eqb providerId "anthropic" then Config anthropic
  else if String.eqb providerId "openai" then Config openai
  else if String.eqb providerId "kimi" then Config kimi
  else if bool_decide (providerId ∈ inheritedNames) then Inherited
  else Config anthropic.

(** A property read [provider.f], and how a template literal renders it. *)
Definition read {A} (provider : Provider) (f : AIProviderConfig → A) : option A :=
  match provider with
  | Config config => Some (f config)
  | Inherited => None
  end.

Definition render (v : option string) : string := default "undefined" v.

(** [getApiKeyField] (lines 102-112). *)
Definition getApiKeyField (providerId : string) : string :=
  if String.eqb providerId "openai" then "openaiApiKey"
  else if String.eqb providerId "kimi" then "kimiApiKey"
  else "claudeApiKey".

(** [getApiKeyForProvider] (lines 117-131); [providerId] is absent or a
    string. *)
Definition getApiKeyForProvider (setupState : Row) (providerId : option string)
    : Val :=
  let provider :=
    orElse (arg_opt providerId)
      (orElse (col setupState "aiProvider") (VStr "anthropic")) in
  if bool_decide (provider = VStr "openai") then
    orElse (col setupState "openaiApiKey") VNull
  else if bool_decide (provider = VStr "kimi") then
    orElse (col setupState "kimiApiKey") VNull
  else orElse (col setupState "claudeApiKey") VNull.

(** [generateAuthProfiles] (lines 136-166): the profiles by name. *)
Definition generateAuthProfiles (providerId : string) : list (string * Obj) :=
  let provider := getAIProvider providerId in
  if String.eqb providerId "openai" then
    [("openai:default",
      field "provider" (VStr "openai") ++ field "mode" (VStr "api_key"))]
  else if String.eqb providerId "kimi" then
    [("openai:default",
      field "provider" (VStr "openai") ++ field "mode" (VStr "api_key")
      ++ field_opt "baseUrl" (mjoin (read provider baseUrl)))]
  else
    [("anthropic:default",
      field "provider" (VStr "anthropic") ++ field "mode" (VStr "api_key"))].

Definition newline : string := String (ascii_of_nat 10) EmptyString.

(** [generateEnvExport] (lines 171-181). *)
Definition generateEnvExport (providerId apiKey : string) : string :=
  let provider := getAIProvider providerId in
  if String.eqb providerId "kimi" then
    "export OPENAI_API_KEY='" +:+ apiKey +:+ "'" +:+ newline
    +:+ "export OPENAI_BASE_URL='" +:+ render (mjoin (read provider baseUrl))
    +:+ "'"
  else
    "export " +:+ render (read provider envVar) +:+ "='" +:+ apiKey +:+ "'".

(** [getDefaultModelConfig] (lines 187-200). *)
Definition getDefaultModelConfig (providerId : string) : string :=
  let provider := getAIProvider providerId in
  if String.eqb providerId "openai" then
    "openai:default:" +:+ render (read provider defaultModel)
  else if String.eqb providerId "kimi" then
    "openai:default:" +:+ render (read provider defaultModel)
  else
    "anthropic:default:" +:+ render (read provider defaultModel).

(** [validateApiKeyFormat] (lines 205-219): [valid]; the prefix is only
    logged. *)
Definition validateApiKeyFormat (providerId apiKey : string) : bool * option string :=
  if String.eqb apiKey "" || (String.length (trim apiKey) =? 0)%nat then
    (false, Some "API key is required")
  else (true, None).

(** [getAllProviders] (lines 224-226). *)
Definition getAllProviders : list AIProviderConfig := [anthropic; openai; kimi].

End AIProviders.

(** ** Reprovisioning: POST handler and [runReprovisionProcess] *)

Module Reprovision.

Record Project := mkProject { project_id : string; project_name : string }.

(** The fields of a computer the pipeline reads ([computer] is [any]). *)
Record Computer := mkComputer {
  computer_id : string;
  computer_name : string;
  computer_url : option string
}.

(** What the Orgo client, the remote setup and the process environment
    answer during one run.  [createComputer] and [listComputers] are indexed
    by the attempt of the creation loop (0, 1, 2); [bash] by the three
    diagnostic commands; [output] of a command may be [undefined]. *)
Record Env := mkEnv {
  deleteComputer : Outcome unit;
  listProjects : Outcome (list Project);
  createProject : Outcome Project;
  createComputer : nat → Outcome Computer;
  listComputers : nat → Outcome (list Computer);
  waitForReady : Outcome unit;
  installPython : Outcome bool;
  bash : nat → Outcome (option string);
  installOrgoPythonSDK : Outcome unit;
  installClawdbot : Outcome (bool * option string);
  setupClawdbotTelegram : Outcome bool;
  startClawdbotGateway : Outcome bool;
  storeAIApiKey : Outcome unit;
  TELEGRAM_BOT_TOKEN : option string;
  TELEGRAM_USER_ID : option string;
  NEXTAUTH_URL : option string
}.

Definition vmColumns : list string :=
  ["status"; "vmCreated"; "clawdbotInstalled"; "telegramConfigured";
   "gatewayStarted"; "orgoProjectId"; "orgoComputerId"; "orgoComputerUrl";
   "errorMessage"].

Definition updateStatus := updateStatusWith vmColumns.

Section Process.

(** [sanitizeName] of [@/lib/orgo]. *)
Variable sanitizeName : string → string.

Variable E : Env.
Variables (userId aiApiKey projectName : string).
Variables (oldComputerId vmId : option string).
Variables (orgoRam orgoCpu : Z).
Variable aiProvider : string.

(** Step 1 (lines 339-349): best-effort delete of the old computer. *)
Definition deleteOld : Async unit :=
  match present oldComputerId with
  | Some old =>
      tryCatch (call "deleteComputer" [VStr old] (deleteComputer E))
               (λ _, ret tt)
  | None => ret tt
  end.

(** Lines 361-371: get or create the project. *)
Definition resolveProject : Async Project :=
  let! projects := call "listProjects" [] (listProjects E) in
  let project :=
    default (mkProject "" projectName)
            (find (λ p, String.eqb (project_name p) projectName) projects) in
  if String.eqb (project_id project) "" then
    tryCatch (call "createProject" [VStr projectName] (createProject E))
             (λ _, ret (mkProject "" projectName))
  else ret project.

(** Lines 375-382: the computer is named after the sandbox record. *)
Definition resolveComputerName : Async string :=
  match present vmId with
  | Some v =>
      let! existingVM := findUnique VMT v in
      match existingVM with
      | Some row =>
          if truthy (col row "name")
          then ret (sanitizeName (str_of (col row "name")))
          else ret (sanitizeName projectName)
      | None => ret (sanitizeName projectName)
      end
  | None => ret (sanitizeName projectName)
  end.

(** [error instanceof Error ? error : new Error(String(error))]. *)
Definition asError (error : Thrown) : Thrown :=
  if instanceofError error then error else newError (rendered error).

Definition isTimeout (lastError : Thrown) : bool :=
  includes (message lastError) "timed out"
  || includes (message lastError) "ETIMEDOUT".

(** Lines 403-413: after a time-out, look for a computer of that name. *)
Definition discover (project : Project) (computerName : string)
    (attempt : nat) : Async (option Computer) :=
  tryCatch
    (sleep 5000 ;;;
     let! computers :=
       call "listComputers" [VStr (strOr (project_name project) projectName)]
            (listComputers E attempt) in
     ret (find (λ c, String.eqb (computer_name c) computerName) computers))
    (λ _, ret None).

(** The [while (retries > 0)] loop of lines 389-421, run for the
    [attempt]-th time with [retries] left.  It yields [computer] and
    [lastError]. *)
Fixpoint createLoop (project : Project) (computerName : string)
    (retries attempt : nat) (lastError : option Thrown)
    : Async (option Computer * option Thrown) :=
  match retries with
  | O => ret (None, lastError)
  | S retries' =>
      let projectIdOrName := strOr (project_id project) (project_name project) in
      let! r := reify (call "createComputer"
                         [VStr projectIdOrName; VStr computerName;
                          VStr "linux"; VNum orgoRam; VNum orgoCpu]
                         (createComputer E attempt)) in
      match r with
      | Returned computer => ret (Some computer, lastError)
      | Threw error =>
          let lastError' := asError error in
          let! existingComputer :=
            (if isTimeout lastError'
             then discover project computerName attempt
             else ret None) in
          match existingComputer with
          | Some computer => ret (Some computer, Some lastError')
          | None =>
              (if (0 <? retries')%nat then sleep 3000 else ret tt) ;;;
              createLoop project computerName retries' (S attempt)
                         (Some lastError')
          end
      end
  end.

(** Lines 453-465: a failed Python install is reported with diagnostics. *)
Definition outputOr (r : option string) : string :=
  strOr (trim (default "" r)) "unknown".

Definition pythonDiagnostics (computer : Computer) : Async string :=
  tryCatch
    (let! osResult :=
       call "bash" [VStr (computer_id computer);
                    VStr ("cat /etc/os-release 2>/dev/null | head -3 || echo " +:+ quoted "Unknown OS")]
            (bash E 0) in
     let! aptResult :=
       call "bash" [VStr (computer_id computer);
                    VStr ("apt-get --version 2>&1 | head -1 || echo " +:+ quoted "apt not found")]
            (bash E 1) in
     let! pythonResult :=
       call "bash" [VStr (computer_id computer);
                    VStr ("python3 --version 2>&1 || echo " +:+ quoted "python3 not found")]
            (bash E 2) in
     ret ("OS: " +:+ outputOr osResult +:+ ", apt: " +:+ outputOr aptResult
          +:+ ", python: " +:+ outputOr pythonResult))
    (λ _, ret "").

(** Lines 451-477: Python, SDKs, Clawdbot. *)
Definition install (computer : Computer) : Async (option string) :=
  let! pythonSuccess := call "installPython" [] (installPython E) in
  (if pythonSuccess then ret tt
   else
     let! diagnosticInfo := pythonDiagnostics computer in
     throw (newError
       ("Failed to install Python and essential tools on VM. Diagnostics: "
        +:+ diagnosticInfo))) ;;;
  call "installOrgoPythonSDK" [] (installOrgoPythonSDK E) ;;;
  let! clawdbotResult := call "installClawdbot" [] (installClawdbot E) in
  if fst clawdbotResult then
    updateStatus userId vmId (field "clawdbotInstalled" (VBool true)) ;;;
    ret (snd clawdbotResult)
  else throw (newError "Failed to install Clawdbot").

(** Lines 479-504: Telegram and gateway, or the API key alone. *)
Definition messaging (clawdbotVersion : option string) : Async unit :=
  match present (TELEGRAM_BOT_TOKEN E) with
  | Some telegramBotToken =>
      let! telegramSuccess :=
        call "setupClawdbotTelegram"
             [VStr aiApiKey; VStr aiProvider; VStr telegramBotToken;
              arg_opt (TELEGRAM_USER_ID E); arg_opt clawdbotVersion;
              VNum 30; VStr userId;
              VStr (strOr (default "" (NEXTAUTH_URL E)) "http://localhost:3000")]
             (setupClawdbotTelegram E) in
      updateStatus userId vmId (field "telegramConfigured" (VBool telegramSuccess)) ;;;
      if telegramSuccess then
        let! gatewaySuccess :=
          call "startClawdbotGateway"
               [VStr aiApiKey; VStr telegramBotToken; VStr aiProvider]
               (startClawdbotGateway E) in
        updateStatus userId vmId (field "gatewayStarted" (VBool gatewaySuccess))
      else ret tt
  | None =>
      call "storeAIApiKey" [VStr aiApiKey; VStr aiProvider] (storeAIApiKey E)
  end.

(** Lines 339-382: what precedes the creation loop.  It yields the
    project and the name of the computer to create. *)
Definition prelude : Async (Project * string) :=
  deleteOld ;;;
  updateStatus userId vmId
    (field "orgoComputerId" (VStr "") ++ field "orgoComputerUrl" (VStr "")
     ++ field "vmStatus" (VStr "creating")) ;;;
  let! project := resolveProject in
  updateStatus userId vmId (field "orgoProjectId" (VStr (project_id project))) ;;;
  let! computerName := resolveComputerName in
  ret (project, computerName).

(** Lines 427-508: what follows once [computer] is set. *)
Definition withComputer (computer : Computer) : Async unit :=
  updateStatus userId vmId
    (field "orgoComputerId" (VStr (computer_id computer))
     ++ field_opt "orgoComputerUrl" (computer_url computer)
     ++ field "vmStatus" (VStr "starting")) ;;;
  tryCatch (call "waitForReady"
                 [VStr (computer_id computer); VNum 30; VNum 5000]
                 (waitForReady E))
           (λ _, ret tt) ;;;
  sleep 15000 ;;;
  updateStatus userId vmId
    (field "vmCreated" (VBool true) ++ field "vmStatus" (VStr "running")) ;;;
  updateStatus userId vmId (field "status" (VStr "configuring_vm")) ;;;
  let! clawdbotVersion := install computer in
  messaging clawdbotVersion ;;;
  updateStatus userId vmId (field "status" (VStr "ready")).

(** The [try] block of lines 336-508. *)
Definition tryBlock : Async unit :=
  let! named := prelude in
  let! created := createLoop (fst named) (snd named) 3 0 None in
  match fst created with
  | None =>
      throw (default (newError "Failed to create new computer after retries")
                     (snd created))
  | Some computer => withComputer computer
  end.

(** The [catch] clause of lines 510-516. *)
Definition onError (error : Thrown) : Async unit :=
  updateStatus userId vmId
    (field "status" (VStr "failed")
     ++ field "errorMessage" (VStr (failedMessage error))).

Definition runReprovisionProcess : Async unit :=
  tryCatch tryBlock onError.

End Process.

Section Handler.

Variable sanitizeName : string → string.
Variable decrypt : string → Outcome string.

(** The arguments of the detached [runReprovisionProcess] call. *)
Record Job := mkJob {
  job_userId : string;
  job_aiApiKey : string;
  job_orgoApiKey : string;
  job_projectName : string;
  job_oldComputerId : option string;
  job_vmId : option string;
  job_orgoRam : Z;
  job_orgoCpu : Z;
  job_aiProvider : string
}.

(** [${getAIProvider(aiProvider).displayName}] (line 227). *)
Definition displayName (providerId : string) : string :=
  AIProviders.render
    (AIProviders.read (AIProviders.getAIProvider providerId)
       AIProviders.displayName).

(** The column read by the [switch] of lines 212-223. *)
Definition apiKeyColumn (aiProvider : string) : string :=
  if String.eqb aiProvider "openai" then "openaiApiKey"
  else if String.eqb aiProvider "kimi" then "kimiApiKey"
  else "claudeApiKey".

(** The reset written at lines 232-256. *)
Definition resetData : Obj :=
  field "status" (VStr "provisioning") ++ field "errorMessage" VNull
  ++ field "vmCreated" (VBool false) ++ field "clawdbotInstalled" (VBool false)
  ++ field "telegramConfigured" (VBool false)
  ++ field "gatewayStarted" (VBool false).

Definition numOr (v : Val) (d : Z) : Z :=
  match orElse v (VNum d) with VNum z => z | _ => d end.

Definition refuse (msg : string) (st : Z) : Async (Response * option Job) :=
  ret (jsonStatus (field "error" (VStr msg)) st, None).

(** POST of lines 164-285.  [session] is the outcome of
    [getServerSession], [bodyVmId] the [vmId] of the request body.  The
    result is the response, and the job that was launched if any. *)
Definition POST (session : Outcome (option string)) (bodyVmId : option string)
    : Async (Response * option Job) :=
  tryCatch
    (let! sess := liftOutcome session in
     match sessionUser sess with
     | None => refuse "Unauthorized" 401
     | Some uid =>
       let vmId := present bodyVmId in
       let! found := findUnique SetupStateT uid in
       match found with
       | None => refuse "No setup state found" 404
       | Some setupState =>
         let! vm := match vmId with
                    | Some v => findFirstVM v uid
                    | None => ret None
                    end in
         let vmcol k := match vm with Some r => col r k | None => VNull end in
         let vmProvider := orElse (vmcol "provider") (col setupState "vmProvider") in
         if negb (bool_decide (vmProvider = VStr "orgo")) then
           refuse "Reprovision is only supported for Orgo VMs" 400
         else if negb (truthy (col setupState "orgoApiKey")) then
           refuse "Orgo API key not found. Please set up your VM again." 400
         else
           let aiProvider :=
             str_of (orElse (col setupState "aiProvider") (VStr "anthropic")) in
           let stored := col setupState (apiKeyColumn aiProvider) in
           let! aiApiKey :=
             (if truthy stored
              then let! k := liftOutcome (decrypt (str_of stored)) in ret (Some k)
              else ret None) in
           match present aiApiKey with
           | None =>
               refuse (displayName aiProvider
                       +:+ " API key not found. Please set up your VM again.") 400
           | Some aiApiKey =>
               update SetupStateT uid resetData ;;;
               match vmId with
               | Some v => update VMT v resetData
               | None => ret tt
               end ;;;
               let! orgoApiKey :=
                 liftOutcome (decrypt (str_of (col setupState "orgoApiKey"))) in
               ret (json (field "success" (VBool true)
                          ++ field "message" (VStr "Reprovisioning started")),
                    Some {| job_userId := uid;
                            job_aiApiKey := aiApiKey;
                            job_orgoApiKey := orgoApiKey;
                            job_projectName :=
                              str_of (orElse (vmcol "orgoProjectName")
                                        (orElse (col setupState "orgoProjectName")
                                                (VStr "claude-brain")));
                            job_oldComputerId :=
                              present (Some (str_of
                                (orElse (vmcol "orgoComputerId")
                                        (col setupState "orgoComputerId"))));
                            job_vmId := vmId;
                            job_orgoRam := numOr (vmcol "orgoRam") 4;
                            job_orgoCpu := numOr (vmcol "orgoCpu") 2;
                            job_aiProvider := aiProvider |})
           end
       end
     end)
    (λ error,
       ret (jsonStatus
              (field "error"
                 (VStr (if instanceofError error then message error
                        else "Failed to start reprovision"))) 500,
            None)).

Definition runJob (E : Env) (j : Job) : Async unit :=
  runReprovisionProcess sanitizeName E (job_userId j) (job_aiApiKey j)
    (job_projectName j) (job_oldComputerId j) (job_vmId j)
    (job_orgoRam j) (job_orgoCpu j) (job_aiProvider j).

(** A request followed by the detached run it launched, whose rejection
    is only logged. *)
Definition request (E : Env) (session : Outcome (option string))
    (bodyVmId : option string) : Async Response :=
  let! r := POST session bodyVmId in
  match snd r with
  | Some j => tryCatch (runJob E j) (λ _, ret tt) ;;; ret (fst r)
  | None => ret (fst r)
  end.

End Handler.
End Reprovision.

(** ** Provisioning on AWS: [runAWSSetupProcess] *)

Module AWS.

(** [{ id, name, publicIp? }]. *)
Record Instance := mkInstance {
  instance_id : string;
  instance_name : string;
  instance_publicIp : option string
}.

(** What the AWS client, the remote setup, the clock and the process
    environment answer during one run.  [getInstance] is indexed by the
    number of earlier [getInstance] calls of the run.
    [verifyClawdbotInstalled] is the winner of the [Promise.race] of lines
    190-195: [None] when the three-second timer resolves first, otherwise
    the settled verification, [(installed, version)]. *)
Record Env := mkEnv {
  getInstance : nat → Outcome (option string);
  createInstance : Outcome (Instance * string);
  Date_now : Z;
  verifyClawdbotInstalled : option (Outcome (bool * option string));
  installPython : Outcome bool;
  installAnthropicSDK : Outcome unit;
  installClawdbot : Outcome (bool * option string);
  setupClawdbotTelegram : Outcome bool;
  startClawdbotGateway : Outcome bool;
  CLAWDBODY_AWS_CUSTOM_AMI_ID : option string;
  TELEGRAM_BOT_TOKEN : option string;
  TELEGRAM_USER_ID : option string;
  NEXTAUTH_URL : option string
}.

Definition vmColumns : list string :=
  ["status"; "vmCreated"; "clawdbotInstalled"; "telegramConfigured";
   "gatewayStarted"; "awsInstanceId"; "awsInstanceName"; "awsPublicIp";
   "awsPrivateKey"; "errorMessage"].

Definition updateStatus := updateStatusWith vmColumns.

Definition defaultVersion : string := "2026.1.22".

Section Process.

(** [sanitizeName] of [@/lib/orgo]; [encrypt] and [decrypt] of
    [@/lib/encryption]. *)
Variable sanitizeName : string → string.
Variable encrypt : string → string.
Variable decrypt : string → Outcome string.

Variable E : Env.
Variables (userId llmApiKey llmProvider llmModel : string).
Variables (awsRegion awsInstanceType : string).
Variables (telegramBotToken telegramUserId vmId : option string).

(** [existingVM?.awsInstanceId && existingVM.vmCreated] (line 95). *)
Definition reusable (existingVM : option Row) : bool :=
  match existingVM with
  | Some row => truthy (col row "awsInstanceId") && truthy (col row "vmCreated")
  | None => false
  end.

(** Lines 96-118: the sandbox record already has an instance. *)
Definition reuseInstance (row : Row) : Async (Instance * string) :=
  let awsInstanceId := str_of (col row "awsInstanceId") in
  let! awsInstance := call "getInstance" [VStr awsInstanceId] (getInstance E 0) in
  let instance :=
    {| instance_id := awsInstanceId;
       instance_name := str_of (orElse (col row "awsInstanceName") (col row "name"));
       instance_publicIp :=
         if truthy (col row "awsPublicIp")
         then Some (str_of (col row "awsPublicIp"))
         else awsInstance |} in
  let! privateKey :=
    (if truthy (col row "awsPrivateKey")
     then liftOutcome (decrypt (str_of (col row "awsPrivateKey")))
     else ret "") in
  updateStatus userId vmId
    (field "status" (VStr "configuring_vm")
     ++ field "awsInstanceId" (VStr (instance_id instance))
     ++ field "awsInstanceName" (VStr (instance_name instance))
     ++ field_opt "awsPublicIp" (instance_publicIp instance)
     ++ field "vmStatus" (VStr "running")
     ++ field "vmCreated" (VBool true)) ;;;
  ret (instance, privateKey).

(** Lines 120-154: a new instance is created. *)
Definition createNew (existingVM : option Row) : Async (Instance * string) :=
  updateStatus userId vmId
    (field "status" (VStr "provisioning") ++ field "vmStatus" (VStr "creating")) ;;;
  let vmName := match existingVM with Some row => col row "name" | None => VNull end in
  let instanceName :=
    if truthy vmName then sanitizeName (str_of vmName)
    else "clawdbot-" +:+ pretty (Date_now E) in
  let! createResult :=
    call "createInstance" [VStr instanceName; VStr awsInstanceType; VStr awsRegion]
         (createInstance E) in
  let instance := fst createResult in
  let privateKey := snd createResult in
  updateStatus userId vmId
    (field "awsInstanceId" (VStr (instance_id instance))
     ++ field "awsInstanceName" (VStr (instance_name instance))
     ++ field_opt "awsPublicIp" (instance_publicIp instance)
     ++ field "awsPrivateKey" (VStr (encrypt privateKey))
     ++ field "vmStatus" (VStr "starting")) ;;;
  sleep (match present (CLAWDBODY_AWS_CUSTOM_AMI_ID E) with
       | Some _ => 15000
       | None => 30000
       end) ;;;
  let! updatedInstance :=
    call "getInstance" [VStr (instance_id instance)] (getInstance E 0) in
  updateStatus userId vmId
    (field_opt "awsPublicIp" updatedInstance
     ++ field "vmCreated" (VBool true)
     ++ field "vmStatus" (VStr "running")) ;;;
  ret (instance, privateKey).

(** Lines 68-161, up to the construction of [AWSVMSetup]: the instance,
    its private key and the address used for SSH. *)
Definition acquire : Async (Instance * string * option string) :=
  let! _setupState := findUnique SetupStateT userId in
  let! existingVM := match present vmId with
                     | Some v => findUnique VMT v
                     | None => ret None
                     end in
  let! acquired :=
    (match existingVM with
     | Some row => if reusable existingVM then reuseInstance row
                   else createNew existingVM
     | None => createNew existingVM
     end) in
  let instance := fst acquired in
  updateStatus userId vmId (field "status" (VStr "configuring_vm")) ;;;
  let! instancePublicIp :=
    (match present (instance_publicIp instance) with
     | Some ip => ret (Some ip)
     | None => call "getInstance" [VStr (instance_id instance)] (getInstance E 1)
     end) in
  ret (acquired, instancePublicIp).

(** Lines 180-213: with a custom AMI nothing is installed. *)
Definition customAmi : Async (bool * option string) :=
  updateStatus userId vmId (field "clawdbotInstalled" (VBool true)) ;;;
  emit (Call "verifyClawdbotInstalled" []) ;;;
  match verifyClawdbotInstalled E with
  | Some (Returned verifyResult) =>
      ret (true, Some (strOr (default "" (snd verifyResult)) defaultVersion))
  | Some (Threw _) => ret (true, Some defaultVersion)
  | None => ret (true, Some defaultVersion)
  end.

(** Lines 214-231: the full installation. *)
Definition fullInstall : Async (bool * option string) :=
  let! pythonSuccess := call "installPython" [] (installPython E) in
  if pythonSuccess then
    call "installAnthropicSDK" [] (installAnthropicSDK E) ;;;
    let! clawdbotResult := call "installClawdbot" [] (installClawdbot E) in
    if fst clawdbotResult then
      updateStatus userId vmId (field "clawdbotInstalled" (VBool true)) ;;;
      ret clawdbotResult
    else throw (newError "Failed to install Clawdbot")
  else throw (newError "Failed to install Python and essential tools on VM").

(** [telegramBotToken || process.env.TELEGRAM_BOT_TOKEN] (line 234). *)
Definition finalTelegramToken : option string :=
  match present telegramBotToken with
  | Some t => Some t
  | None => present (TELEGRAM_BOT_TOKEN E)
  end.

Definition finalTelegramUserId : option string :=
  match present telegramUserId with
  | Some t => Some t
  | None => TELEGRAM_USER_ID E
  end.

(** Lines 233-262: Telegram and gateway, when a token is there. *)
Definition messaging (clawdbotResult : bool * option string) : Async unit :=
  match finalTelegramToken with
  | Some token =>
      let clawdbotVersion := strOr (default "" (snd clawdbotResult)) defaultVersion in
      let! telegramSuccess :=
        call "setupClawdbotTelegram"
             [VStr llmApiKey; VStr llmProvider; VStr llmModel; VStr token;
              arg_opt finalTelegramUserId; VStr clawdbotVersion; VNum 30;
              VStr userId;
              VStr (strOr (default "" (NEXTAUTH_URL E)) "http://localhost:3000")]
             (setupClawdbotTelegram E) in
      updateStatus userId vmId (field "telegramConfigured" (VBool telegramSuccess)) ;;;
      if telegramSuccess then
        let! gatewaySuccess :=
          call "startClawdbotGateway" [VStr llmApiKey; VStr llmProvider; VStr token]
               (startClawdbotGateway E) in
        updateStatus userId vmId (field "gatewayStarted" (VBool gatewaySuccess))
      else ret tt
  | None => ret tt
  end.

(** Lines 173-265: what follows the construction of [AWSVMSetup]. *)
Definition configure : Async unit :=
  let! clawdbotResult :=
    (match present (CLAWDBODY_AWS_CUSTOM_AMI_ID E) with
   | Some _ => customAmi
   | None => fullInstall
   end) in
  messaging clawdbotResult ;;;
  updateStatus userId vmId (field "status" (VStr "ready")).

(** Lines 270-273. *)
Definition isFreeTierError (error : Thrown) : bool :=
  let errorMessage :=
    strOr (message error) (strOr (Error_Message error) (rendered error)) in
  includes errorMessage "not eligible for Free Tier"
  || includes errorMessage "Free Tier"
  || (bool_decide (Code error = Some "InvalidParameterCombination")
      && includes errorMessage "Free Tier").

(** The [catch] clause of lines 267-286. *)
Definition onError (error : Thrown) : Async unit :=
  if isFreeTierError error then
    updateStatus userId vmId
      (field "status" (VStr "requires_payment")
       ++ field "errorMessage" (VStr ("BILLING_REQUIRED:" +:+ awsInstanceType)))
  else
    updateStatus userId vmId
      (field "status" (VStr "failed")
       ++ field "errorMessage" (VStr (failedMessage error))).

(** The [try] block of lines 67-265. *)
Definition tryBlock : Async unit :=
  let! _acquired := acquire in
  configure.

(** The [finally] clause: [awsVMSetup] is set once [acquire] is over. *)
Definition cleanup : Async unit := emit (Call "cleanup" []).

Definition runAWSSetupProcess : Async unit :=
  let! acquired := reify acquire in
  match acquired with
  | Threw error => onError error
  | Returned _ => tryFinally (tryCatch configure onError) cleanup
  end.

End Process.
End AWS.


(** ** GET /api/setup/status *)

Module Status.

(** [vm.k] in a template literal or a JSON body. *)
Definition consoleUrl (awsRegion awsInstanceId : Val) : string :=
  "https://" +:+ template awsRegion
  +:+ ".console.aws.amazon.com/ec2/home?region=" +:+ template awsRegion
  +:+ "#InstanceDetails:instanceId=" +:+ template awsInstanceId.

(** Lines 41-72: the answer for one sandbox record, found under [vmId]. *)
Definition vmResponse (vmId : string) (vm : Row) : Obj :=
  field "status" (col vm "status")
  ++ field "vmCreated" (col vm "vmCreated")
  ++ field "repoCreated" (VBool false)
  ++ field "repoCloned" (col vm "repoCloned")
  ++ field "gitSyncConfigured" (col vm "gitSyncConfigured")
  ++ field "clawdbotInstalled" (col vm "clawdbotInstalled")
  ++ field "telegramConfigured" (VBool false)
  ++ field "gatewayStarted" (col vm "gatewayStarted")
  ++ field "errorMessage" (col vm "errorMessage")
  ++ field "vmProvider" (col vm "provider")
  ++ field "vmId" (VStr vmId)
  ++ field "vmName" (col vm "name")
  ++ (if decide (col vm "provider" = VStr "aws") then
        field "awsInstanceId" (col vm "awsInstanceId")
        ++ field "awsInstanceType" (col vm "awsInstanceType")
        ++ field "awsPublicIp" (col vm "awsPublicIp")
        ++ field "awsRegion" (col vm "awsRegion")
        ++ (if truthy (col vm "awsInstanceId") && truthy (col vm "awsRegion")
            then field "awsConsoleUrl"
                   (VStr (consoleUrl (col vm "awsRegion") (col vm "awsInstanceId")))
            else [])
      else if decide (col vm "provider" = VStr "orgo") then
        field "orgoComputerId" (col vm "orgoComputerId")
        ++ field "orgoComputerUrl" (col vm "orgoComputerUrl")
        ++ field "orgoProjectId" (col vm "orgoProjectId")
        ++ field "orgoProjectName" (col vm "orgoProjectName")
      else []).

(** Lines 80-92: no legacy record yet. *)
Definition pendingResponse : Obj :=
  field "status" (VStr "pending")
  ++ field "vmCreated" (VBool false)
  ++ field "repoCreated" (VBool false)
  ++ field "repoCloned" (VBool false)
  ++ field "gitSyncConfigured" (VBool false)
  ++ field "clawdbotInstalled" (VBool false)
  ++ field "telegramConfigured" (VBool false)
  ++ field "gatewayStarted" (VBool false)
  ++ field "vmProvider" VNull.

(** Lines 95-122: the answer from the legacy record. *)
Definition legacyResponse (setupState : Row) : Obj :=
  field "status" (col setupState "status")
  ++ field "vmCreated" (col setupState "vmCreated")
  ++ field "repoCreated" (col setupState "repoCreated")
  ++ field "repoCloned" (col setupState "repoCloned")
  ++ field "gitSyncConfigured" (col setupState "gitSyncConfigured")
  ++ field "clawdbotInstalled" (col setupState "clawdbotInstalled")
  ++ field "telegramConfigured" (col setupState "telegramConfigured")
  ++ field "gatewayStarted" (col setupState "gatewayStarted")
  ++ field "vaultRepoUrl" (col setupState "vaultRepoUrl")
  ++ field "errorMessage" (col setupState "errorMessage")
  ++ field "vmProvider" (col setupState "vmProvider")
  ++ (if decide (col setupState "vmProvider" = VStr "aws") then
        field "awsInstanceId" (col setupState "awsInstanceId")
        ++ field "awsInstanceName" (col setupState "awsInstanceName")
        ++ field "awsPublicIp" (col setupState "awsPublicIp")
        ++ field "awsRegion" (col setupState "awsRegion")
        ++ (if truthy (col setupState "awsInstanceId")
               && truthy (col setupState "awsRegion")
            then field "awsConsoleUrl"
                   (VStr (consoleUrl (col setupState "awsRegion")
                                     (col setupState "awsInstanceId")))
            else [])
      else
        field "orgoComputerId" (col setupState "orgoComputerId")
        ++ field "orgoComputerUrl" (col setupState "orgoComputerUrl")).

(** [session] is the outcome of [getServerSession], [vmIdParam] is
    [searchParams.get('vmId')]. *)
Definition GET (session : Outcome (option string)) (vmIdParam : option string)
    (s : Store) : Response :=
  match session with
  | Threw _ => jsonStatus (field "error" (VStr "Failed to get status")) 500
  | Returned sess =>
      match sessionUser sess with
      | None => jsonStatus (field "error" (VStr "Unauthorized")) 401
      | Some uid =>
          match present vmIdParam with
          | Some vmId =>
              match ownedVM s vmId uid with
              | Some vm => json (vmResponse vmId vm)
              | None => jsonStatus (field "error" (VStr "VM not found")) 404
              end
          | None =>
              match setupState s !! uid with
              | None => json pendingResponse
              | Some row => json (legacyResponse row)
              end
          end
      end
  end.

End Status.


(** * Further endpoints *)

(** ** JSON request bodies *)

(** What [request.json()] resolves to.  Numbers are kept as integers: the
    handlers read only their type and their truthiness. *)
#[local] Unset Elimination Schemes.
Inductive Json :=
  | JNull
  | JBool (b : bool)
  | JNum (z : Z)
  | JStr (s : string)
  | JArr (items : list Json)
  | JObj (members : list (string * Json)).
#[local] Set Elimination Schemes.

(** The members a destructuring pattern or a property read sees: none for
    a primitive or an array, and [null] cannot be read at all (a
    [TypeError]).  The member names read by the handlers are none of those
    that [Object.prototype] defines. *)
Definition members_of (j : Json) : option (list (string * Json)) :=
  match j with
  | JNull => None
  | JObj members => Some members
  | _ => Some []
  end.

(** [JSON.parse] keeps the last of two members of the same name. *)
Fixpoint member (k : string) (members : list (string * Json)) : option Json :=
  match members with
  | [] => None
  | (k', v) :: rest =>
      match member k rest with
      | Some v' => Some v'
      | None => if String.eqb k k' then Some v else None
      end
  end.

(** ** PUT and DELETE /api/setup/anthropic-key *)

Module KeyWrite.
Section WithEncrypt.

(** [encrypt] of [@/lib/encryption]: it returns the ciphertext or throws. *)
Variable encrypt : string → Outcome string.

(** [prisma.setupState.upsert] of lines 85-93. *)
Definition upsert (s : Store) (userId encryptedKey : string) : Store :=
  match setupState s !! userId with
  | Some _ => written s SetupStateT userId (field "claudeApiKey" (VStr encryptedKey))
  | None =>
      setTable SetupStateT
        (<[userId := patch (field "userId" (VStr userId)
                            ++ field "claudeApiKey" (VStr encryptedKey)
                            ++ field "status" (VStr "pending")) ∅]>
           (setupState s)) s
  end.

Definition failedToSave : Response :=
  jsonStatus (field "error" (VStr "Failed to save API key")) 500.

(** PUT of lines 63-111.  [session] is the outcome of [getServerSession],
    [requestBody] the outcome of [request.json()]. *)
Definition PUT (session : Outcome (option string)) (requestBody : Outcome Json)
    (s : Store) : Response * Store :=
  match session with
  | Threw _ => (failedToSave, s)
  | Returned sess =>
      match sessionUser sess with
      | None => (jsonStatus (field "error" (VStr "Unauthorized")) 401, s)
      | Some uid =>
          match requestBody with
          | Threw _ => (failedToSave, s)
          | Returned parsed =>
              match members_of parsed with
              | None => (failedToSave, s)
              | Some members =>
                  match member "claudeApiKey" members with
                  | Some (JStr claudeApiKey) =>
                      if String.eqb claudeApiKey "" then
                        (jsonStatus (field "error" (VStr "API key is required")) 400, s)
                      else if negb (String.prefix "sk-ant-" claudeApiKey) then
                        (jsonStatus
                           (field "error" (VStr "Invalid Anthropic API key format"))
                           400, s)
                      else
                        match encrypt claudeApiKey with
                        | Threw _ => (failedToSave, s)
                        | Returned encryptedKey =>
                            (json (field "success" (VBool true)
                                   ++ field "maskedKey"
                                        (VStr (KeyStatus.maskKey claudeApiKey))),
                             upsert s uid encryptedKey)
                        end
                  | _ => (jsonStatus (field "error" (VStr "API key is required")) 400, s)
                  end
              end
          end
      end
  end.

(** DELETE of lines 117-146. *)
Definition DELETE (session : Outcome (option string)) (s : Store)
    : Response * Store :=
  match session with
  | Threw _ => (jsonStatus (field "error" (VStr "Failed to delete API key")) 500, s)
  | Returned sess =>
      match sessionUser sess with
      | None => (jsonStatus (field "error" (VStr "Unauthorized")) 401, s)
      | Some uid =>
          match setupState s !! uid with
          | None => (json (field "success" (VBool true)), s)
          | Some _ =>
              (json (field "success" (VBool true)),
               written s SetupStateT uid (field "claudeApiKey" VNull))
          end
      end
  end.

End WithEncrypt.
End KeyWrite.

(** ** The body of the reprovision request *)

Module ReprovisionRequest.

(** The truthiness of a parsed value. *)
Definition jsonTruthy (j : Json) : bool :=
  match j with
  | JNull => false
  | JBool b => b
  | JNum z => negb (z =? 0)
  | JStr s => negb (String.eqb s "")
  | JArr _ => true
  | JObj _ => true
  end.

(** What lines 173-174 make of the request body:
    [const body = await request.json().catch(() => ({}))] and
    [const vmId = body.vmId].  A body that parses to [null] cannot be read;
    a falsy [vmId] is not used by any of the tests [if (vmId)] and becomes
    [null] at line 269, like an absent one. *)
Inductive BodyVmId :=
  | VmId (vmId : option string)
  | NullBody
  | OtherVmId.

Definition readVmId (requestBody : Outcome Json) : BodyVmId :=
  let body := match requestBody with
              | Returned parsed => parsed
              | Threw _ => JObj []
              end in
  match members_of body with
  | None => NullBody
  | Some members =>
      match member "vmId" members with
      | None => VmId None
      | Some (JStr v) => VmId (Some v)
      | Some other => if jsonTruthy other then OtherVmId else VmId None
      end
  end.

Section WithDecrypt.

Variable decrypt : string → Outcome string.

(** The message of the [TypeError] that reading a property of [null]
    throws; its text is the engine's. *)
Variable typeErrorMessage : string.

(** POST of lines 164-285 on the request body.  A truthy [vmId] that is not
    a string reaches Prisma as it is, and what Prisma answers to it is not
    in the source: such a request has no embedding ([None]). *)
Definition POST (session : Outcome (option string)) (requestBody : Outcome Json)
    : option (Async (Response * option Reprovision.Job)) :=
  match session with
  | Returned sess =>
      match sessionUser sess with
      | Some _ =>
          match readVmId requestBody with
          | VmId vmId => Some (Reprovision.POST decrypt session vmId)
          | NullBody =>
              Some (Reprovision.refuse typeErrorMessage 500)
          | OtherVmId => None
          end
      | None => Some (Reprovision.POST decrypt session None)
      end
  | Threw _ => Some (Reprovision.POST decrypt session None)
  end.

End WithDecrypt.
End ReprovisionRequest.

(** ** /api/vms/[id] *)

Module VMs.

(** The bodies of the answers: [{ error }], [{ vm }], [{ success: true, vm }]
    and [{ success: true }]. *)
Inductive Body :=
  | Error (error : string)
  | Found (vm : Row)
  | Updated (vm : Row)
  | Success.

Record Reply := mkReply { replyStatus : Z; replyBody : Body }.

(** The [catch] clause of the three handlers. *)
Definition failure (error : Thrown) (fallback : string) : Reply :=
  mkReply 500 (Error (if instanceofError error then message error else fallback)).

Definition unauthorized : Reply := mkReply 401 (Error "Unauthorized").
Definition notFound : Reply := mkReply 404 (Error "VM not found").

(** GET of lines 9-39. *)
Definition GET (session : Outcome (option string)) (id : string) (s : Store)
    : Reply :=
  match session with
  | Threw error => failure error "Failed to get VM"
  | Returned sess =>
      match sessionUser sess with
      | None => unauthorized
      | Some uid =>
          match ownedVM s id uid with
          | None => notFound
          | Some vm => mkReply 200 (Found vm)
          end
      end
  end.

Section WithPrisma.

(** [prisma.vM.update({ where: { id }, data: body })] of lines 69-72 for a
    record that exists: the data come from the request as they are, so what
    Prisma makes of them (which columns, which nested writes, which
    rejections) is left to the environment. *)
Variable prismaUpdate : Store → string → Json → Outcome (Row * Store).


End WithPrisma.

(** DELETE of lines 87-122. *)
Definition DELETE (session : Outcome (option string)) (id : string) (s : Store)
    : Reply * Store :=
  match session with
  | Threw error => (failure error "Failed to delete VM", s)
  | Returned sess =>
      match sessionUser sess with
      | None => (unauthorized, s)
      | Some uid =>
          match ownedVM s id uid with
          | None => (notFound, s)
          | Some _ => (mkReply 200 Success, setTable VMT (delete id (vM s)) s)
          end
      end
  end.

End VMs.

(** ** POST /api/terminal/connect: the output buffers *)

Module Terminal.

(** [sessionOutputBuffers]: the outputs kept for each session id. *)
Abbreviation Buffers := (gmap string (list string)) (only parsing).

Section WithOutput.

(** What the shell hands to the callback, and [JSON.stringify] on it. *)
Variable Output : Type.
Variable stringify : Output → string.

(** [buffer.push(x); if (buffer.length > 1000) buffer.shift()]
    (lines 117-121). *)
Definition pushOutput (buffer : list string) (x : string) : list string :=
  let pushed := buffer ++ [x] in
  if (1000 <? length pushed)%nat then tail pushed else pushed.

(** The callback given to [startShell] for the session [sessionId]
    (lines 114-123). *)
Definition onOutput (sessionId : string) (buffers : Buffers) (output : Output)
    : Buffers :=
  match buffers !! sessionId with
  | Some buffer => <[sessionId := pushOutput buffer (stringify output)]> buffers
  | None => buffers
  end.

End WithOutput.
End Terminal.

(** * Reasoning about runs *)

(** ** Replaying a trace on a store *)

Definition applyEvent (s : Store) (ev : Event) : Store :=
  match ev with
  | Write t key data => written s t key data
  | _ => s
  end.

Definition replay (s : Store) (evs : list Event) : Store :=
  foldl applyEvent s evs.

(** The world after the events [evs] happened. *)
Definition ext (w : World) (evs : list Event) : World :=
  {| db := replay (db w) evs; trace := trace w ++ evs |}.

(** A run that starts on store [s]. *)
Definition start (s : Store) : World := {| db := s; trace := [] |}.

(** The record of a table, and a column of it. *)
Definition rowAt (s : Store) (t : Table) (key : string) : Row :=
  default ∅ (table t s !! key).

Definition colAt (s : Store) (t : Table) (key column : string) : Val :=
  col (rowAt s t key) column.

(** The records a run writes to exist: the legacy record of the user, and
    the sandbox record when a sandbox id is given. *)
Definition hasRecords (userId : string) (vmId : option string) (s : Store) : Prop :=
  is_Some (setupState s !! userId)
  ∧ match present vmId with
    | Some v => is_Some (vM s !! v)
    | None => True
    end.

(** The writes of one [updateStatus] call when the records exist. *)
Definition statusWrites (columns : list string) (userId : string)
    (vmId : option string) (updates : Obj) : list Event :=
  Write SetupStateT userId updates
  :: match present vmId with
     | Some v =>
         if (0 <? length (pick columns updates))%nat
         then [Write VMT v (pick columns updates)]
         else []
     | None => []
     end.

(** ** Weakest preconditions *)

Definition wp {A} (m : Async A) (Q : Outcome A → World → Prop) (w : World) : Prop :=
  Q (m w).1 (m w).2.

(** Every event that [m] adds to the trace satisfies [P], and the store
    changes by these events only. *)
Definition evolves {A} (P : Event → bool) (m : Async A) : Prop :=
  ∀ w, ∃ evs, (m w).2 = ext w evs ∧ forallb P evs = true.

(** The number of calls of [fn] in a trace. *)
Definition isCall (fn : string) (ev : Event) : bool :=
  match ev with
  | Call fn' _ => String.eqb fn fn'
  | _ => false
  end.

Definition calls (fn : string) (evs : list Event) : nat :=
  length (filter (λ ev, isCall fn ev = true) evs).

(** The value a write gives to a column, if any. *)
Definition sets (column : string) (ev : Event) : option Val :=
  match ev with
  | Write _ _ data => lookupKey column (reverse data)
  | _ => None
  end.

Definition writesTo (t : Table) (key : string) (ev : Event) : bool :=
  match ev with
  | Write t' key' _ => bool_decide (t = t') && String.eqb key key'
  | _ => false
  end.

(** ** Properties of events *)

(** A write that gives the column, if it gives it at all, the value [true]. *)
Definition onlyTrue (column : string) (ev : Event) : bool :=
  match sets column ev with
  | Some v => bool_decide (v = VBool true)
  | None => true
  end.

(** The event does not take [vmCreated] or [clawdbotInstalled] back. *)
Definition keepsCore (ev : Event) : bool :=
  onlyTrue "vmCreated" ev && onlyTrue "clawdbotInstalled" ev.

(** An event that is not a write. *)
Definition quiet (ev : Event) : bool :=
  match ev with
  | Write _ _ _ => false
  | _ => true
  end.

(** The state of a record after the reset of a reprovision request. *)
Definition resetState (s : Store) (t : Table) (key : string) : Prop :=
  colAt s t key "status" = VStr "provisioning"
  ∧ colAt s t key "errorMessage" = VNull
  ∧ colAt s t key "vmCreated" = VBool false
  ∧ colAt s t key "clawdbotInstalled" = VBool false
  ∧ colAt s t key "telegramConfigured" = VBool false
  ∧ colAt s t key "gatewayStarted" = VBool false.

(** The writes of an accepted reprovision request. *)
Definition resetWrites (j : Reprovision.Job) : list Event :=
  Write SetupStateT (Reprovision.job_userId j) Reprovision.resetData
  :: match Reprovision.job_vmId j with
     | Some v => [Write VMT v Reprovision.resetData]
     | None => []
     end.

(** The last value that the events [evs] give to a column of a record. *)
Definition setAt (t : Table) (key column : string) (ev : Event) : option Val :=
  if writesTo t key ev then sets column ev else None.

Fixpoint lastSet (t : Table) (key column : string) (evs : list Event) : option Val :=
  match evs with
  | [] => None
  | ev :: evs' =>
      match lastSet t key column evs' with
      | Some v => Some v
      | None => setAt t key column ev
      end
  end.

(** The provider-specific keys of a status answer. *)
Definition awsColumns : list string :=
  ["awsInstanceId"; "awsInstanceType"; "awsPublicIp"; "awsRegion"].
Definition orgoColumns : list string :=
  ["orgoComputerId"; "orgoComputerUrl"; "orgoProjectId"; "orgoProjectName"].

(** ** Events of the reprovision run *)

(** The event is not a creation call. *)
Definition noCreate (ev : Event) : bool := negb (isCall "createComputer" ev).

(** The event creates nothing and at most clears the stored handle. *)
Definition clearsOnly (ev : Event) : bool :=
  noCreate ev
  && match sets "orgoComputerId" ev with
     | Some v => bool_decide (v = VStr "")
     | None => true
     end.


(** A call made to get or create the project. *)
Definition projectCall (ev : Event) : bool :=
  isCall "listProjects" ev || isCall "createProject" ev.

Section ReprovisionTerms.
Import Reprovision.
Variable E : Env.
Variable projectName : string.
Variable oldComputerId : option string.
Variables (orgoRam orgoCpu : Z).

(** The arguments of the creation call (lines 388-392) and of the listing
    call (line 402). *)
Definition createArgs (project : Project) (computerName : string) : list Val :=
  [VStr (strOr (project_id project) (project_name project)); VStr computerName;
   VStr "linux"; VNum orgoRam; VNum orgoCpu].

Definition listArgs (project : Project) : list Val :=
  [VStr (strOr (project_name project) projectName)].

(** The attempt [j] fails and finds no computer to adopt. *)
Definition failsAt (computerName : string) (j : nat) : Prop :=
  ∃ e, createComputer E j = Threw e
       ∧ (isTimeout (asError e) = false
          ∨ (∃ x, listComputers E j = Threw x)
          ∨ (∃ cs, listComputers E j = Returned cs
                   ∧ find (λ c, String.eqb (computer_name c) computerName) cs = None)).

(** The error that [lastError] holds after attempt [j]. *)
Definition errorAt (j : nat) : option Thrown :=
  match createComputer E j with
  | Threw e => Some (asError e)
  | Returned _ => None
  end.

(** No creation call follows anything but the three-second sleep. *)
Fixpoint spaced (prev : option Event) (evs : list Event) : bool :=
  match evs with
  | [] => true
  | ev :: evs' =>
      (if isCall "createComputer" ev
       then match prev with
            | None => true
            | Some p => bool_decide (p = Sleep 3000)
            end
       else true)
      && spaced (Some ev) evs'
  end.

(** What the deletion step adds to the trace (lines 340-349). *)
Definition deleteEvents : list Event :=
  match present oldComputerId with
  | Some old => [Call "deleteComputer" [VStr old]]
  | None => []
  end.

(** The updates of lines 352-356 and of lines 426-430. *)
Definition clearData : Obj :=
  field "orgoComputerId" (VStr "") ++ field "orgoComputerUrl" (VStr "")
  ++ field "vmStatus" (VStr "creating").

Definition handleData (c : Computer) : Obj :=
  field "orgoComputerId" (VStr (computer_id c))
  ++ field_opt "orgoComputerUrl" (computer_url c)
  ++ field "vmStatus" (VStr "starting").

End ReprovisionTerms.

(** ** Events of the AWS run *)

(** The event is not a call to [createInstance]. *)
Definition noInstance (ev : Event) : bool := negb (isCall "createInstance" ev).

(** The event hands the model-provider key to nothing on the sandbox. *)
Definition keyless (ev : Event) : bool :=
  negb (isCall "storeAIApiKey" ev)
  && negb (isCall "setupClawdbotTelegram" ev)
  && negb (isCall "startClawdbotGateway" ev).

Section AWSTerms.
Import AWS.
Variable sanitizeName : string → string.
Variable decrypt : string → Outcome string.
Variable E : Env.
Variables (awsRegion awsInstanceType : string).
Variable vmId : option string.

(** The sandbox record the run reads at line 76. *)
Definition existing (s : Store) : option Row :=
  match present vmId with
  | Some v => vM s !! v
  | None => None
  end.

(** What the [catch] clause writes for the error it is given. *)
Definition errorData (e : Thrown) : Obj :=
  if isFreeTierError e then
    field "status" (VStr "requires_payment")
    ++ field "errorMessage" (VStr ("BILLING_REQUIRED:" +:+ awsInstanceType))
  else
    field "status" (VStr "failed")
    ++ field "errorMessage" (VStr (failedMessage e)).

(** The first update of the creation branch (line 121), the name given to
    a new instance (line 124) and the arguments of the creation call. *)
Definition provisioningData : Obj :=
  field "status" (VStr "provisioning") ++ field "vmStatus" (VStr "creating").

Definition instanceName (existingVM : option Row) : string :=
  let vmName := match existingVM with Some row => col row "name" | None => VNull end in
  if truthy vmName then sanitizeName (str_of vmName)
  else "clawdbot-" +:+ pretty (Date_now E).

Definition createInstanceArgs (s : Store) : list Val :=
  [VStr (instanceName (existing s)); VStr awsInstanceType; VStr awsRegion].

(** The instance of lines 102-106 and the update of lines 111-118. *)
Definition storedInstance (row : Row) (awsInstance : option string) : Instance :=
  {| instance_id := str_of (col row "awsInstanceId");
     instance_name := str_of (orElse (col row "awsInstanceName") (col row "name"));
     instance_publicIp :=
       if truthy (col row "awsPublicIp")
       then Some (str_of (col row "awsPublicIp"))
       else awsInstance |}.

Definition reuseData (instance : Instance) : Obj :=
  field "status" (VStr "configuring_vm")
  ++ field "awsInstanceId" (VStr (instance_id instance))
  ++ field "awsInstanceName" (VStr (instance_name instance))
  ++ field_opt "awsPublicIp" (instance_publicIp instance)
  ++ field "vmStatus" (VStr "running")
  ++ field "vmCreated" (VBool true).

(** The stored private key, decrypted (line 109). *)
Definition storedKey (row : Row) : Outcome string :=
  if truthy (col row "awsPrivateKey")
  then decrypt (str_of (col row "awsPrivateKey"))
  else Returned "".

End AWSTerms.

(** ** The guard of the ready write *)

(** The write sets [status] to ready. *)
Definition setsReady (ev : Event) : bool :=
  bool_decide (sets "status" ev = Some (VStr "ready")).

(** The event takes back neither core flag and does not declare the
    sandbox ready. *)
Definition neutral (ev : Event) : bool := keepsCore ev && negb (setsReady ev).

(** The event is neutral and writes neither core flag. *)
Definition plain (ev : Event) : bool :=
  neutral ev
  && negb (bool_decide (is_Some (sets "vmCreated" ev)))
  && negb (bool_decide (is_Some (sets "clawdbotInstalled" ev))).

(** After the events [evs], run from the store [s], the column of the
    record is true, and one of the events wrote it so. *)
Definition established (s : Store) (t : Table) (key column : string)
    (evs : list Event) : Prop :=
  colAt (replay s evs) t key column = VBool true
  ∧ ∃ ev, ev ∈ evs ∧ setAt t key column ev = Some (VBool true).

(** Every write of status ready in the trace finds both core flags
    established on the record it writes to. *)
Definition readyGuard (s : Store) (evs : list Event) : Prop :=
  ∀ pre t key data post,
    evs = pre ++ Write t key data :: post →
    setsReady (Write t key data) = true →
    established s t key "vmCreated" pre
    ∧ established s t key "clawdbotInstalled" pre.

(** The update gives the column the value true, on both records. *)
Definition hasTrue (columns : list string) (column : string) (data : Obj) : bool :=
  bool_decide (lookupKey column (reverse data) = Some (VBool true))
  && bool_decide (lookupKey column (reverse (pick columns data)) = Some (VBool true)).

Section TrackingTerms.
Variable s : Store.
Variable userId : string.
Variable vmId : option string.

(** The column is established on the legacy record and, when the run has a
    sandbox id, on the sandbox record. *)
Definition flagged (column : string) (T : list Event) : Prop :=
  established s SetupStateT userId column T
  ∧ ∀ x, present vmId = Some x → established s VMT x column T.

(** The world is the store [s] after a trace that keeps the guard; [v] and
    [b] say which of the two core flags are known to be established. *)
Definition tracked (v b : bool) (w : World) : Prop :=
  ∃ T, w = ext (start s) T
       ∧ readyGuard s T
       ∧ (v = true → flagged "vmCreated" T)
       ∧ (b = true → flagged "clawdbotInstalled" T).

(** From a tracked world the computation leads to a tracked world, where
    [v'] and [b'] are established if it returns. *)
Definition tracks {A} (v b v' b' : bool) (m : Async A) : Prop :=
  ∀ w, tracked v b w →
       wp m (λ o w', match o with
                     | Returned _ => tracked v' b' w'
                     | Threw _ => tracked false false w'
                     end) w.

End TrackingTerms.

(** ** More terms of the answers and of the runs *)

(** The core columns that the status answer copies from the legacy
    record, and the columns it adds for an AWS record. *)
Definition legacyCore : list string :=
  ["status"; "vmCreated"; "repoCreated"; "repoCloned"; "gitSyncConfigured";
   "clawdbotInstalled"; "telegramConfigured"; "gatewayStarted"; "vaultRepoUrl";
   "errorMessage"].
Definition legacyAws : list string :=
  ["awsInstanceId"; "awsInstanceName"; "awsPublicIp"; "awsRegion"].
Definition legacyOrgo : list string := ["orgoComputerId"; "orgoComputerUrl"].

(** The diagnostic text of lines 455-463: the three outputs when the three
    commands return, nothing when one of them throws. *)
Definition diagnostics (E : Reprovision.Env) : string :=
  match Reprovision.bash E 0, Reprovision.bash E 1, Reprovision.bash E 2 with
  | Returned osResult, Returned aptResult, Returned pythonResult =>
      "OS: " +:+ Reprovision.outputOr osResult
      +:+ ", apt: " +:+ Reprovision.outputOr aptResult
      +:+ ", python: " +:+ Reprovision.outputOr pythonResult
  | _, _, _ => ""
  end.

(** ** Events of both runs *)

(** The event neither starts the gateway nor writes [gatewayStarted]. *)
Definition noGateway (ev : Event) : bool :=
  negb (isCall "startClawdbotGateway" ev)
  && negb (bool_decide (is_Some (sets "gatewayStarted" ev))).

(** The event installs nothing on the sandbox. *)
Definition noInstall (ev : Event) : bool :=
  negb (isCall "installPython" ev)
  && negb (isCall "installAnthropicSDK" ev)
  && negb (isCall "installClawdbot" ev).

(** The event is not the clean-up of the SSH connection. *)
Definition noCleanup (ev : Event) : bool := negb (isCall "cleanup" ev).

(** * Worked inputs *)

Module Examples.

(** A key of 19 characters whose characters 12 to 14 are dots. *)
Definition dottedKey : string := "sk-ant-12345...abcd".

(** An ordinary key. *)
Definition plainKey : string := "sk-ant-api03-ABCDEFGHIJKL".

Definition decryptTo (key : string) : string → Outcome string := λ _, Returned key.

Definition storeWithKey : Store :=
  {| setupState := {[ "u1" := {[ "claudeApiKey" := VStr "ciphertext" ]} ]};
     vM := ∅ |}.

(** A sandbox record on AWS whose instance is not created yet. *)
Definition awsPendingVM : Row :=
  {[ "userId" := VStr "u1"; "name" := VStr "box"; "provider" := VStr "aws";
     "status" := VStr "provisioning"; "awsRegion" := VStr "us-east-1" ]}.

Definition storeWithPendingVM : Store :=
  {| setupState := ∅; vM := {[ "vm1" := awsPendingVM ]} |}.

Definition decryptPlain : string → Outcome string := λ c, Returned ("plain:" +:+ c).

(** A legacy record on Orgo whose last run failed. *)
Definition orgoRow : Row :=
  {[ "vmProvider" := VStr "orgo"; "orgoApiKey" := VStr "enc-orgo";
     "claudeApiKey" := VStr "enc-claude"; "status" := VStr "failed";
     "orgoComputerId" := VStr "r-old"; "vmCreated" := VBool true;
     "errorMessage" := VStr "boom" ]}.

Definition orgoStore : Store :=
  {| setupState := {[ "U2" := orgoRow ]}; vM := ∅ |}.

(** A legacy record on AWS after a run that configured Telegram. *)
Definition configuredRow : Row :=
  {[ "vmProvider" := VStr "aws"; "status" := VStr "ready";
     "vmCreated" := VBool true; "clawdbotInstalled" := VBool true;
     "telegramConfigured" := VBool true; "gatewayStarted" := VBool true ]}.

Definition configuredStore : Store :=
  {| setupState := {[ "u1" := configuredRow ]}; vM := ∅ |}.

(** An AWS environment where everything succeeds. *)
Definition awsOk : AWS.Env :=
  {| AWS.getInstance := λ _, Returned (Some "1.2.3.4");
     AWS.createInstance := Returned (AWS.mkInstance "i-1" "box" None, "pem");
     AWS.Date_now := 0;
     AWS.verifyClawdbotInstalled := None;
     AWS.installPython := Returned true;
     AWS.installAnthropicSDK := Returned tt;
     AWS.installClawdbot := Returned (true, Some "1.0");
     AWS.setupClawdbotTelegram := Returned true;
     AWS.startClawdbotGateway := Returned true;
     AWS.CLAWDBODY_AWS_CUSTOM_AMI_ID := None;
     AWS.TELEGRAM_BOT_TOKEN := None;
     AWS.TELEGRAM_USER_ID := None;
     AWS.NEXTAUTH_URL := None |}.

(** The same, with a Telegram token whose setup fails. *)
Definition awsTelegramFails : AWS.Env :=
  {| AWS.getInstance := AWS.getInstance awsOk;
     AWS.createInstance := AWS.createInstance awsOk;
     AWS.Date_now := 0;
     AWS.verifyClawdbotInstalled := None;
     AWS.installPython := Returned true;
     AWS.installAnthropicSDK := Returned tt;
     AWS.installClawdbot := Returned (true, Some "1.0");
     AWS.setupClawdbotTelegram := Returned false;
     AWS.startClawdbotGateway := Returned true;
     AWS.CLAWDBODY_AWS_CUSTOM_AMI_ID := None;
     AWS.TELEGRAM_BOT_TOKEN := Some "token";
     AWS.TELEGRAM_USER_ID := None;
     AWS.NEXTAUTH_URL := None |}.

(** A run of the AWS pipeline for user [u1], without sandbox id. *)
Definition awsRun (E : AWS.Env) : Async unit :=
  AWS.runAWSSetupProcess (λ n, n) (λ k, k) (λ c, Returned c) E
    "u1" "sk-ant-key" "anthropic" "claude" "us-east-1" "t3.micro"
    None None None.

(** A run of the AWS pipeline for user [u1] and a sandbox id. *)
Definition awsRunOn (E : AWS.Env) (vmId : option string) : Async unit :=
  AWS.runAWSSetupProcess (λ n, n) (λ k, k) (λ c, Returned c) E
    "u1" "sk-ant-key" "anthropic" "claude" "us-east-1" "t3.micro"
    None None vmId.

(** An AWS environment that differs from [awsOk] in what the creation call
    answers. *)
Definition awsCreating (answer : Outcome (AWS.Instance * string)) : AWS.Env :=
  {| AWS.getInstance := AWS.getInstance awsOk;
     AWS.createInstance := answer;
     AWS.Date_now := 0;
     AWS.verifyClawdbotInstalled := None;
     AWS.installPython := Returned true;
     AWS.installAnthropicSDK := Returned tt;
     AWS.installClawdbot := Returned (true, Some "1.0");
     AWS.setupClawdbotTelegram := Returned true;
     AWS.startClawdbotGateway := Returned true;
     AWS.CLAWDBODY_AWS_CUSTOM_AMI_ID := None;
     AWS.TELEGRAM_BOT_TOKEN := None;
     AWS.TELEGRAM_USER_ID := None;
     AWS.NEXTAUTH_URL := None |}.

(** The account may not use the instance type; the region is out of
    capacity. *)
Definition freeTierError : Thrown :=
  newError "The specified instance type is not eligible for Free Tier.".

Definition capacityError : Thrown := newError "Insufficient capacity".

(** A legacy record on AWS before the first run. *)
Definition awsFreshStore : Store :=
  {| setupState :=
       {[ "u1" := {[ "vmProvider" := VStr "aws"; "status" := VStr "pending" ]} ]};
     vM := ∅ |}.

(** A sandbox record whose instance exists already. *)
Definition awsProvisionedVM : Row :=
  {[ "userId" := VStr "u1"; "name" := VStr "box"; "provider" := VStr "aws";
     "status" := VStr "failed"; "awsInstanceId" := VStr "i-0abc";
     "awsPrivateKey" := VStr "enc-pem"; "vmCreated" := VBool true ]}.

Definition awsProvisionedStore : Store :=
  {| setupState := {[ "u1" := {[ "vmProvider" := VStr "aws" ]} ]};
     vM := {[ "vm1" := awsProvisionedVM ]} |}.

(** An Orgo environment that is given the answers of the deletion, of the
    creation attempts and of the listings; everything else succeeds. *)
Definition orgoEnv (deleted : Outcome unit)
    (created : nat → Outcome Reprovision.Computer)
    (listed : nat → Outcome (list Reprovision.Computer)) : Reprovision.Env :=
  {| Reprovision.deleteComputer := deleted;
     Reprovision.listProjects :=
       Returned [Reprovision.mkProject "p-1" "claude-brain"];
     Reprovision.createProject :=
       Returned (Reprovision.mkProject "p-1" "claude-brain");
     Reprovision.createComputer := created;
     Reprovision.listComputers := listed;
     Reprovision.waitForReady := Returned tt;
     Reprovision.installPython := Returned true;
     Reprovision.bash := λ _, Returned None;
     Reprovision.installOrgoPythonSDK := Returned tt;
     Reprovision.installClawdbot := Returned (true, Some "1.0");
     Reprovision.setupClawdbotTelegram := Returned true;
     Reprovision.startClawdbotGateway := Returned true;
     Reprovision.storeAIApiKey := Returned tt;
     Reprovision.TELEGRAM_BOT_TOKEN := None;
     Reprovision.TELEGRAM_USER_ID := None;
     Reprovision.NEXTAUTH_URL := None |}.

Definition newComputer : Reprovision.Computer :=
  Reprovision.mkComputer "r-new" "claude-brain" (Some "https://orgo.example/r-new").


(** The deletion of the old computer fails. *)
Definition orgoDeleteFails : Reprovision.Env :=
  orgoEnv (Threw (newError "computer not found"))
    (λ _, Returned newComputer) (λ _, Returned []).


(** Every creation attempt is refused. *)
Definition orgoRefuses : Reprovision.Env :=
  orgoEnv (Returned tt)
    (λ attempt, Threw (newError ("quota exceeded, attempt " +:+ pretty attempt)))
    (λ _, Returned []).

(** A reprovisioning run for user [U2], whose old computer is [r-old]. *)
Definition reprovisionRun (E : Reprovision.Env) : Async unit :=
  Reprovision.runReprovisionProcess (λ n, n) E "U2" "sk-ant-key" "claude-brain"
    (Some "r-old") None 4 2 "anthropic".

(** A sandbox record of another user, and a store that holds it beside the
    legacy record of [U2]. *)
Definition foreignVM : Row :=
  {[ "userId" := VStr "U7"; "name" := VStr "theirs"; "provider" := VStr "orgo";
     "status" := VStr "ready"; "vmCreated" := VBool true ]}.

Definition sharedStore : Store :=
  {| setupState := {[ "U2" := orgoRow ]}; vM := {[ "vm9" := foreignVM ]} |}.

(** An Orgo environment in which Python cannot be installed; the output of
    the first diagnostic command starts with a no-break space, and the third
    command answers nothing. *)
Definition orgoPythonFails : Reprovision.Env :=
  {| Reprovision.deleteComputer := Returned tt;
     Reprovision.listProjects :=
       Returned [Reprovision.mkProject "p-1" "claude-brain"];
     Reprovision.createProject :=
       Returned (Reprovision.mkProject "p-1" "claude-brain");
     Reprovision.createComputer := λ _, Returned newComputer;
     Reprovision.listComputers := λ _, Returned [];
     Reprovision.waitForReady := Returned tt;
     Reprovision.installPython := Returned false;
     Reprovision.bash :=
       λ i, Returned (match i with
                      | O => Some (String (ascii_of_nat 160) " Alpine Linux ")
                      | S O => Some "apt not found"
                      | _ => None
                      end);
     Reprovision.installOrgoPythonSDK := Returned tt;
     Reprovision.installClawdbot := Returned (true, Some "1.0");
     Reprovision.setupClawdbotTelegram := Returned true;
     Reprovision.startClawdbotGateway := Returned true;
     Reprovision.storeAIApiKey := Returned tt;
     Reprovision.TELEGRAM_BOT_TOKEN := None;
     Reprovision.TELEGRAM_USER_ID := None;
     Reprovision.NEXTAUTH_URL := None |}.

(** An Orgo environment with a Telegram token whose set-up fails. *)
Definition orgoTelegramFails : Reprovision.Env :=
  {| Reprovision.deleteComputer := Returned tt;
     Reprovision.listProjects :=
       Returned [Reprovision.mkProject "p-1" "claude-brain"];
     Reprovision.createProject :=
       Returned (Reprovision.mkProject "p-1" "claude-brain");
     Reprovision.createComputer := λ _, Returned newComputer;
     Reprovision.listComputers := λ _, Returned [];
     Reprovision.waitForReady := Returned tt;
     Reprovision.installPython := Returned true;
     Reprovision.bash := λ _, Returned None;
     Reprovision.installOrgoPythonSDK := Returned tt;
     Reprovision.installClawdbot := Returned (true, Some "1.0");
     Reprovision.setupClawdbotTelegram := Returned false;
     Reprovision.startClawdbotGateway := Returned true;
     Reprovision.storeAIApiKey := Returned tt;
     Reprovision.TELEGRAM_BOT_TOKEN := Some "token";
     Reprovision.TELEGRAM_USER_ID := None;
     Reprovision.NEXTAUTH_URL := None |}.

(** An AWS environment with a custom image whose verification throws. *)
Definition awsCustomImage : AWS.Env :=
  {| AWS.getInstance := AWS.getInstance awsOk;
     AWS.createInstance := AWS.createInstance awsOk;
     AWS.Date_now := 0;
     AWS.verifyClawdbotInstalled := Some (Threw (newError "ssh: connection refused"));
     AWS.installPython := Returned true;
     AWS.installAnthropicSDK := Returned tt;
     AWS.installClawdbot := Returned (true, Some "1.0");
     AWS.setupClawdbotTelegram := Returned true;
     AWS.startClawdbotGateway := Returned true;
     AWS.CLAWDBODY_AWS_CUSTOM_AMI_ID := Some "ami-0123456789";
     AWS.TELEGRAM_BOT_TOKEN := None;
     AWS.TELEGRAM_USER_ID := None;
     AWS.NEXTAUTH_URL := None |}.

(** A legacy record on AWS that holds an instance, and no sandbox record. *)
Definition awsLegacyProvisionedStore : Store :=
  {| setupState :=
       {[ "u1" := {[ "vmProvider" := VStr "aws"; "status" := VStr "failed";
                     "awsInstanceId" := VStr "i-0abc";
                     "awsPrivateKey" := VStr "enc-pem";
                     "vmCreated" := VBool true ]} ]};
     vM := ∅ |}.

End Examples.

(** ** Basic facts *)

Lemma ext_nil w : ext w [] = w.
Proof. destruct w. unfold ext. simpl. by rewrite app_nil_r. Qed.

Lemma ext_ext w evs1 evs2 : ext (ext w evs1) evs2 = ext w (evs1 ++ evs2).
Proof. unfold ext, replay. simpl. by rewrite foldl_app, app_assoc. Qed.

Lemma replay_app s evs1 evs2 :
  replay s (evs1 ++ evs2) = replay (replay s evs1) evs2.
Proof. apply foldl_app. Qed.

Lemma db_ext w evs : db (ext w evs) = replay (db w) evs.
Proof. reflexivity. Qed.

Lemma trace_ext w evs : trace (ext w evs) = trace w ++ evs.
Proof. reflexivity. Qed.

Lemma start_ext s evs : trace (ext (start s) evs) = evs.
Proof. reflexivity. Qed.

Lemma lookupKey_snoc k (l : Obj) k' v :
  lookupKey k (l ++ [(k', v)])
  = match lookupKey k l with
    | Some x => Some x
    | None => if String.eqb k k' then Some v else None
    end.
Proof.
  induction l as [|[k2 v2] l IHl]; simpl; [done|].
  destruct (String.eqb k k2); [done|apply IHl].
Qed.

(** A column after an update: the last value given to it in the literal,
    or the old one. *)
Lemma lookup_patch (data : Obj) (r : Row) (k : string) :
  patch data r !! k
  = match lookupKey k (reverse data) with
    | Some v => Some v
    | None => r !! k
    end.
Proof.
  unfold patch. revert r. induction data as [|[k' v] data IH]; intros r.
  - reflexivity.
  - simpl. rewrite IH, reverse_cons, lookupKey_snoc.
    destruct (lookupKey k (reverse data)); [done|].
    destruct (String.eqb_spec k k') as [->|Hne].
    + by rewrite lookup_insert_eq.
    + by rewrite lookup_insert_ne.
Qed.

Lemma col_patch (data : Obj) (r : Row) (k : string) :
  col (patch data r) k = default (col r k) (lookupKey k (reverse data)).
Proof.
  unfold col. rewrite lookup_patch. by destruct (lookupKey k (reverse data)).
Qed.

Lemma table_setTable t m s : table t (setTable t m s) = m.
Proof. by destruct t. Qed.

Lemma table_setTable_ne t t' m s : t ≠ t' → table t (setTable t' m s) = table t s.
Proof. by destruct t, t'. Qed.

Lemma table_written s t key data t' key' :
  table t' (written s t key data) !! key'
  = if decide (t' = t ∧ key' = key)
    then patch data <$> table t s !! key
    else table t' s !! key'.
Proof.
  unfold written. case_decide as Hd.
  - destruct Hd as [-> ->]. destruct (table t s !! key) eqn:Hr.
    + rewrite table_setTable. by rewrite lookup_insert_eq.
    + by rewrite Hr.
  - destruct (table t s !! key) eqn:Hr; [|done].
    destruct (decide (t' = t)) as [->|Hne].
    + rewrite table_setTable. rewrite lookup_insert_ne; [done|]. naive_solver.
    + by rewrite table_setTable_ne.
Qed.

Lemma written_is_Some s t key data t' key' :
  is_Some (table t' s !! key') → is_Some (table t' (written s t key data) !! key').
Proof.
  intros [r Hr]. rewrite table_written. case_decide as Hd.
  - destruct Hd as [-> ->]. rewrite Hr. by eexists.
  - rewrite Hr. by eexists.
Qed.

Lemma replay_is_Some s evs t key :
  is_Some (table t s !! key) → is_Some (table t (replay s evs) !! key).
Proof.
  revert s. induction evs as [|ev evs IH]; intros s Hs; [done|].
  simpl. apply IH. destruct ev; simpl; try done. by apply written_is_Some.
Qed.

Lemma hasRecords_replay userId vmId s evs :
  hasRecords userId vmId s → hasRecords userId vmId (replay s evs).
Proof.
  unfold hasRecords. intros [H1 H2]. split.
  - by apply (replay_is_Some s evs SetupStateT).
  - destruct (present vmId); [|done]. by apply (replay_is_Some s evs VMT).
Qed.

Lemma hasRecords_ext userId vmId w evs :
  hasRecords userId vmId (db w) → hasRecords userId vmId (db (ext w evs)).
Proof. apply hasRecords_replay. Qed.

(** A column of a record after one write. *)
Lemma colAt_written s t key data t' key' k :
  is_Some (table t s !! key) →
  colAt (written s t key data) t' key' k
  = if decide (t' = t ∧ key' = key)
    then default (colAt s t' key' k) (lookupKey k (reverse data))
    else colAt s t' key' k.
Proof.
  intros [r Hr]. unfold colAt, rowAt. rewrite table_written.
  case_decide as Hd; [|done]. destruct Hd as [-> ->].
  rewrite Hr. simpl. apply col_patch.
Qed.

(** [updateStatus] when the records exist. *)
Lemma updateStatusWith_run columns userId vmId updates w :
  hasRecords userId vmId (db w) →
  updateStatusWith columns userId vmId updates w
  = (Returned tt, ext w (statusWrites columns userId vmId updates)).
Proof.
  intros [[r Hr] Hvm]. unfold updateStatusWith, statusWrites, bind, update.
  simpl. rewrite Hr. destruct (present vmId) as [v|].
  - destruct (0 <? length (pick columns updates))%nat.
    + simpl. destruct Hvm as [rv Hrv].
      pose proof (written_is_Some (db w) SetupStateT userId updates VMT v) as Hw.
      simpl in Hw. destruct Hw as [rv' Hrv']; [by eexists|]. rewrite Hrv'.
      unfold ext. simpl. by rewrite <- app_assoc.
    + reflexivity.
  - reflexivity.
Qed.

(** ** Rules for [wp] *)

Lemma wp_ret {A} (a : A) Q w : Q (Returned a) w → wp (ret a) Q w.
Proof. done. Qed.

Lemma wp_throw {A} e (Q : Outcome A → World → Prop) w :
  Q (Threw e) w → wp (throw e) Q w.
Proof. done. Qed.

Lemma wp_bind {A B} (m : Async A) (k : A → Async B) Q w :
  wp m (λ o w', match o with
                | Returned a => wp (k a) Q w'
                | Threw e => Q (Threw e) w'
                end) w →
  wp (bind m k) Q w.
Proof. unfold wp, bind. by destruct (m w) as [[a|e] w']. Qed.

Lemma wp_tryCatch {A} (m : Async A) h Q w :
  wp m (λ o w', match o with
                | Returned a => Q (Returned a) w'
                | Threw e => wp (h e) Q w'
                end) w →
  wp (tryCatch m h) Q w.
Proof. unfold wp, tryCatch. by destruct (m w) as [[a|e] w']. Qed.

Lemma wp_tryFinally {A} (m : Async A) f Q w :
  wp m (λ o w', wp f (λ _ w'', Q o w'') w') w →
  wp (tryFinally m f) Q w.
Proof. unfold wp, tryFinally. by destruct (m w) as [o w']. Qed.

Lemma wp_reify {A} (m : Async A) Q w :
  wp m (λ o w', Q (Returned o) w') w → wp (reify m) Q w.
Proof. unfold wp, reify. by destruct (m w) as [o w']. Qed.

Lemma wp_emit fn args Q w :
  Q (Returned tt) (ext w [Call fn args]) → wp (emit (Call fn args)) Q w.
Proof. done. Qed.

Lemma wp_sleep ms Q w : Q (Returned tt) (ext w [Sleep ms]) → wp (sleep ms) Q w.
Proof. done. Qed.

Lemma wp_call {A} fn args (r : Outcome A) Q w :
  Q r (ext w [Call fn args]) → wp (call fn args r) Q w.
Proof. done. Qed.

Lemma wp_liftOutcome {A} (r : Outcome A) Q w : Q r w → wp (liftOutcome r) Q w.
Proof. done. Qed.

Lemma wp_findUnique t key Q w :
  Q (Returned (table t (db w) !! key)) w → wp (findUnique t key) Q w.
Proof. done. Qed.

Lemma wp_findFirstVM id userId Q w :
  Q (Returned (ownedVM (db w) id userId)) w → wp (findFirstVM id userId) Q w.
Proof. done. Qed.

Lemma wp_update t key data Q w :
  is_Some (table t (db w) !! key) →
  Q (Returned tt) (ext w [Write t key data]) →
  wp (update t key data) Q w.
Proof. intros [r Hr] HQ. unfold wp, update. by rewrite Hr. Qed.

Lemma wp_updateStatusWith columns userId vmId updates Q w :
  hasRecords userId vmId (db w) →
  Q (Returned tt) (ext w (statusWrites columns userId vmId updates)) →
  wp (updateStatusWith columns userId vmId updates) Q w.
Proof. intros H HQ. unfold wp. by rewrite updateStatusWith_run. Qed.

Lemma wp_mono {A} (m : Async A) (Q Q' : Outcome A → World → Prop) w :
  wp m Q w → (∀ o w', Q o w' → Q' o w') → wp m Q' w.
Proof. unfold wp. auto. Qed.

(** ** Rules for [evolves] *)

Lemma forallb_app_true {A} (P : A → bool) l1 l2 :
  forallb P l1 = true → forallb P l2 = true → forallb P (l1 ++ l2) = true.
Proof. intros H1 H2. rewrite forallb_app, H1, H2. done. Qed.

Lemma evolves_ret {A} P (a : A) : evolves P (ret a).
Proof. intros w. exists []. by rewrite ext_nil. Qed.

Lemma evolves_throw {A} P e : evolves P (@throw A e).
Proof. intros w. exists []. by rewrite ext_nil. Qed.

Lemma evolves_liftOutcome {A} P (r : Outcome A) : evolves P (liftOutcome r).
Proof. intros w. exists []. by rewrite ext_nil. Qed.

Lemma evolves_findUnique P t key : evolves P (findUnique t key).
Proof. intros w. exists []. by rewrite ext_nil. Qed.

Lemma evolves_findFirstVM P id userId : evolves P (findFirstVM id userId).
Proof. intros w. exists []. by rewrite ext_nil. Qed.

Lemma evolves_bind {A B} P (m : Async A) (k : A → Async B) :
  evolves P m → (∀ a, evolves P (k a)) → evolves P (bind m k).
Proof.
  intros Hm Hk w. destruct (Hm w) as (evs1 & E1 & F1). unfold bind.
  destruct (m w) as [[a|e] w']; simpl in *; subst w'.
  - destruct (Hk a (ext w evs1)) as (evs2 & E2 & F2).
    exists (evs1 ++ evs2). rewrite E2, ext_ext. auto using forallb_app_true.
  - by exists evs1.
Qed.

Lemma evolves_tryCatch {A} P (m : Async A) h :
  evolves P m → (∀ e, evolves P (h e)) → evolves P (tryCatch m h).
Proof.
  intros Hm Hh w. destruct (Hm w) as (evs1 & E1 & F1). unfold tryCatch.
  destruct (m w) as [[a|e] w']; simpl in *; subst w'.
  - by exists evs1.
  - destruct (Hh e (ext w evs1)) as (evs2 & E2 & F2).
    exists (evs1 ++ evs2). rewrite E2, ext_ext. auto using forallb_app_true.
Qed.

Lemma evolves_tryFinally {A} P (m : Async A) f :
  evolves P m → evolves P f → evolves P (tryFinally m f).
Proof.
  intros Hm Hf w. destruct (Hm w) as (evs1 & E1 & F1). unfold tryFinally.
  destruct (m w) as [o w']; simpl in *; subst w'.
  destruct (Hf (ext w evs1)) as (evs2 & E2 & F2).
  exists (evs1 ++ evs2). rewrite E2, ext_ext. auto using forallb_app_true.
Qed.

Lemma evolves_reify {A} P (m : Async A) : evolves P m → evolves P (reify m).
Proof.
  intros Hm w. destruct (Hm w) as (evs1 & E1 & F1). unfold reify.
  destruct (m w) as [o w']. by exists evs1.
Qed.

Lemma evolves_emit (P : Event → bool) fn args :
  P (Call fn args) = true → evolves P (emit (Call fn args)).
Proof. intros H w. exists [Call fn args]. simpl. by rewrite H. Qed.

Lemma evolves_sleep (P : Event → bool) ms :
  P (Sleep ms) = true → evolves P (sleep ms).
Proof. intros H w. exists [Sleep ms]. simpl. by rewrite H. Qed.

Lemma evolves_call {A} (P : Event → bool) fn args (r : Outcome A) :
  P (Call fn args) = true → evolves P (call fn args r).
Proof. intros H w. exists [Call fn args]. simpl. by rewrite H. Qed.

Lemma evolves_update (P : Event → bool) t key data :
  P (Write t key data) = true → evolves P (update t key data).
Proof.
  intros H w. unfold update. destruct (table t (db w) !! key) eqn:Hr.
  - exists [Write t key data]. simpl. by rewrite H.
  - exists []. by rewrite ext_nil.
Qed.

Lemma evolves_updateStatusWith (P : Event → bool) columns userId vmId updates :
  P (Write SetupStateT userId updates) = true →
  (∀ v, P (Write VMT v (pick columns updates)) = true) →
  evolves P (updateStatusWith columns userId vmId updates).
Proof.
  intros H1 H2. unfold updateStatusWith.
  apply evolves_bind; [by apply evolves_update|]. intros _.
  destruct (present vmId); [|apply evolves_ret].
  destruct (0 <? _)%nat; [by apply evolves_update|apply evolves_ret].
Qed.

Lemma evolves_weaken {A} (P P' : Event → bool) (m : Async A) :
  (∀ ev, P ev = true → P' ev = true) → evolves P m → evolves P' m.
Proof.
  intros HP Hm w. destruct (Hm w) as (evs & E1 & F1). exists evs. split; [done|].
  rewrite forallb_forall in *. auto.
Qed.

Lemma wp_evolves {A} (P : Event → bool) (m : Async A) (Q : Outcome A → World → Prop) w :
  evolves P m →
  (∀ o evs, forallb P evs = true → Q o (ext w evs)) →
  wp m Q w.
Proof.
  intros Hm HQ. destruct (Hm w) as (evs & E1 & F1). unfold wp.
  rewrite E1. by apply HQ.
Qed.

(** ** Columns after a replay *)

Lemma writesTo_spec t key t' key' data :
  writesTo t key (Write t' key' data) = true ↔ t = t' ∧ key = key'.
Proof.
  simpl. rewrite andb_true_iff, bool_decide_eq_true, String.eqb_eq. done.
Qed.

Lemma colAt_applyEvent s ev t key k :
  is_Some (table t s !! key) →
  colAt (applyEvent s ev) t key k = default (colAt s t key k) (setAt t key k ev).
Proof.
  intros Hrow. unfold setAt. destruct ev as [fn args|ms|t' key' data]; try done.
  simpl applyEvent. destruct (writesTo t key (Write t' key' data)) eqn:Hw.
  - apply writesTo_spec in Hw as [<- <-]. rewrite colAt_written by done.
    by rewrite decide_True.
  - destruct (table t' s !! key') eqn:Hr.
    + rewrite colAt_written by (by eexists). rewrite decide_False; [done|].
      intros [-> ->]. rewrite <- not_true_iff_false in Hw. apply Hw.
      by apply writesTo_spec.
    + unfold written. by rewrite Hr.
Qed.

Lemma colAt_replay s evs t key k :
  is_Some (table t s !! key) →
  colAt (replay s evs) t key k = default (colAt s t key k) (lastSet t key k evs).
Proof.
  revert s. induction evs as [|ev evs IH]; intros s Hrow; [done|].
  simpl. rewrite IH.
  - destruct (lastSet t key k evs); [done|]. by apply colAt_applyEvent.
  - destruct ev; simpl; try done. by apply written_is_Some.
Qed.

Lemma lastSet_app t key k evs1 evs2 :
  lastSet t key k (evs1 ++ evs2)
  = match lastSet t key k evs2 with
    | Some v => Some v
    | None => lastSet t key k evs1
    end.
Proof.
  induction evs1 as [|ev evs1 IH]; simpl.
  - by destruct (lastSet t key k evs2).
  - rewrite IH. by destruct (lastSet t key k evs2).
Qed.

(** Events that do not set a column leave it as it is. *)
Lemma lastSet_none t key k evs :
  forallb (λ ev, negb (bool_decide (is_Some (setAt t key k ev)))) evs = true →
  lastSet t key k evs = None.
Proof.
  induction evs as [|ev evs IH]; [done|]. simpl. rewrite andb_true_iff.
  intros [H1 H2]. rewrite IH by done.
  apply negb_true_iff, bool_decide_eq_false in H1.
  destruct (setAt t key k ev); [|done]. destruct H1. by eexists.
Qed.

Lemma calls_app fn evs1 evs2 :
  calls fn (evs1 ++ evs2) = (calls fn evs1 + calls fn evs2)%nat.
Proof. unfold calls. by rewrite filter_app, length_app. Qed.

Lemma calls_none fn evs :
  forallb (λ ev, negb (isCall fn ev)) evs = true → calls fn evs = 0%nat.
Proof.
  unfold calls. induction evs as [|ev evs IH]; [done|]. simpl.
  rewrite andb_true_iff. intros [H1 H2]. apply negb_true_iff in H1.
  rewrite filter_cons, decide_False by (by rewrite H1). by apply IH.
Qed.

(** ** Tactics *)

Ltac has_records :=
  repeat apply hasRecords_ext; first [assumption | done].

Ltac split_field_opt :=
  repeat match goal with
         | |- context [field_opt _ ?o] =>
             lazymatch o with
             | Some _ => fail
             | None => fail
             | _ => destruct o
             end
         | |- context [VBool ?b] => is_var b; destruct b
         end.

Ltac evolve_side :=
  intros;
  first
    [ match goal with
      | H : ∀ _, ?P _ = true |- ?P _ = true => apply H
      end
    | split_field_opt; reflexivity ].

Ltac evolve_step :=
  lazymatch goal with
  | |- evolves _ (ret _) => apply evolves_ret
  | |- evolves _ (throw _) => apply evolves_throw
  | |- evolves _ (liftOutcome _) => apply evolves_liftOutcome
  | |- evolves _ (findUnique _ _) => apply evolves_findUnique
  | |- evolves _ (findFirstVM _ _) => apply evolves_findFirstVM
  | |- evolves _ (emit _) => apply evolves_emit; evolve_side
  | |- evolves _ (sleep _) => apply evolves_sleep; evolve_side
  | |- evolves _ (call _ _ _) => apply evolves_call; evolve_side
  | |- evolves _ (update _ _ _) => apply evolves_update; evolve_side
  | |- evolves _ (updateStatusWith _ _ _ _) =>
      apply evolves_updateStatusWith; evolve_side
  | |- evolves _ (tryCatch _ _) => apply evolves_tryCatch; [|intros ?]
  | |- evolves _ (tryFinally _ _) => apply evolves_tryFinally
  | |- evolves _ (reify _) => apply evolves_reify
  | |- evolves _ (bind _ _) => apply evolves_bind; [|intros ?]
  | |- evolves _ (match ?x with _ => _ end) => destruct x
  end.

Ltac evolve := repeat evolve_step.

(** One step of symbolic execution; a result of the environment that a
    hypothesis fixes is rewritten. *)
Ltac wp_step :=
  lazymatch goal with
  | |- wp (ret _) _ _ => apply wp_ret
  | |- wp (throw _) _ _ => apply wp_throw
  | |- wp (bind _ _) _ _ => apply wp_bind
  | |- wp (tryCatch _ _) _ _ => apply wp_tryCatch
  | |- wp (tryFinally _ _) _ _ => apply wp_tryFinally
  | |- wp (reify _) _ _ => apply wp_reify
  | |- wp (emit (Call _ _)) _ _ => apply wp_emit
  | |- wp (sleep _) _ _ => apply wp_sleep
  | |- wp (call _ _ _) _ _ => apply wp_call
  | |- wp (liftOutcome _) _ _ => apply wp_liftOutcome
  | |- wp (findUnique _ _) _ _ => apply wp_findUnique
  | |- wp (findFirstVM _ _) _ _ => apply wp_findFirstVM
  | |- wp (updateStatusWith _ _ _ _) _ _ =>
      apply wp_updateStatusWith; [has_records|]
  | |- wp (update _ _ _) _ _ => apply wp_update; [|]
  | |- context [match ?x with _ => _ end] =>
      match goal with
      | H : x = _ |- _ => rewrite H
      end
  end; cbv beta iota; cbn [fst snd].

Ltac wp_run := repeat wp_step.

(** ** Strings *)

Lemma length_append (a b : string) :
  String.length (a +:+ b) = (String.length a + String.length b)%nat.
Proof. induction a as [|c a IH]; simpl; [done|]. by rewrite IH. Qed.

Lemma get_Some_lt (s : string) (n : nat) :
  is_Some (String.get n s) ↔ (n < String.length s)%nat.
Proof.
  revert n. induction s as [|c s IH]; intros n; simpl.
  - split; [by intros [? ?]|lia].
  - destruct n as [|n]; [split; [lia|by eexists]|]. rewrite IH. lia.
Qed.

Lemma length_substring (n m : nat) (s : string) :
  (n + m ≤ String.length s)%nat → String.length (String.substring n m s) = m.
Proof.
  revert n m. induction s as [|c s IH]; intros n m; simpl.
  - destruct n, m; simpl; lia.
  - destruct n as [|n]; [destruct m as [|m]|]; simpl; intros H; [done| |].
    + rewrite (IH 0%nat m); [done|lia].
    + apply IH. lia.
Qed.

Lemma includes_get (s sub : string) :
  includes s sub = true →
  ∃ o, ∀ i, (i < String.length sub)%nat → String.get (o + i) s = String.get i sub.
Proof.
  assert (Hpre : ∀ s, String.prefix sub s = true →
            ∀ i, (i < String.length sub)%nat → String.get (0 + i) s = String.get i sub).
  { intros s' H i Hi. apply String.prefix_correct in H.
    transitivity (String.get i (String.substring 0 (String.length sub) s')).
    - rewrite String.substring_correct1 by done. by rewrite Nat.add_0_r.
    - by rewrite H. }
  induction s as [|c s IH].
  - change (includes "" sub) with (String.prefix sub "" || false).
    rewrite orb_false_r. intros H. exists 0%nat. by apply Hpre.
  - change (includes (String c s) sub)
      with (String.prefix sub (String c s) || includes s sub).
    rewrite orb_true_iff. intros [H|H].
    + exists 0%nat. by apply Hpre.
    + destruct (IH H) as [o Ho]. exists (S o). intros i Hi. simpl. by apply Ho.
Qed.

(** ** The key mask *)

Section KeyMask.
Import KeyStatus.

Lemma maskKey_long key :
  (16 < String.length key)%nat →
  maskKey key = slice_head 12 key +:+ "..." +:+ slice_tail 4 key.
Proof. intros H. unfold maskKey. by rewrite (proj2 (Nat.ltb_lt _ _) H). Qed.

Lemma maskKey_short key :
  (String.length key ≤ 16)%nat → maskKey key = "***".
Proof. intros H. unfold maskKey. by rewrite (proj2 (Nat.ltb_ge _ _) H). Qed.

Lemma maskKey_length key :
  (16 < String.length key)%nat → String.length (maskKey key) = 19%nat.
Proof.
  intros H. rewrite maskKey_long by done. rewrite !length_append.
  unfold slice_head, slice_tail. rewrite !length_substring by lia. done.
Qed.

Lemma maskKey_dots key j :
  (16 < String.length key)%nat → (12 ≤ j < 15)%nat →
  String.get j (maskKey key) = Some "."%char.
Proof.
  intros H Hj. rewrite maskKey_long by done.
  replace j with ((j - 12) + String.length (slice_head 12 key))%nat
    by (unfold slice_head; rewrite length_substring by lia; lia).
  rewrite <- String.append_correct2.
  rewrite <- String.append_correct1 by (simpl; lia).
  destruct (j - 12)%nat as [|[|[|?]]] eqn:E; try done. lia.
Qed.

Lemma maskKey_hides key :
  (16 < String.length key)%nat →
  ((19 < String.length key)%nat
   ∨ ∃ i, (12 ≤ i < String.length key - 4)%nat ∧ String.get i key ≠ Some "."%char) →
  includes (maskKey key) key = false.
Proof.
  intros Hlen Hhid. apply not_true_is_false. intros Hinc.
  apply includes_get in Hinc as [o Ho].
  assert (o + String.length key ≤ 19)%nat as Hfit.
  { pose proof (Ho (String.length key - 1)%nat ltac:(lia)) as Hlast.
    assert (is_Some (String.get (o + (String.length key - 1)) (maskKey key))) as Hs.
    { rewrite Hlast. apply get_Some_lt. lia. }
    apply get_Some_lt in Hs. rewrite maskKey_length in Hs by done. lia. }
  destruct Hhid as [Hbig|(i & Hi & Hdot)]; [lia|].
  apply Hdot. rewrite <- Ho by lia. apply maskKey_dots; [done|lia].
Qed.

End KeyMask.

(** * The two read-only endpoints *)

Lemma body_json (o : Obj) (k : string) :
  body (json o) !! k = lookupKey k (reverse o).
Proof.
  unfold json. simpl. rewrite lookup_patch, lookup_empty.
  by destruct (lookupKey k (reverse o)).
Qed.

Lemma present_Some (u : string) : u ≠ "" → present (Some u) = Some u.
Proof. intros H. simpl. by destruct (String.eqb_spec u ""). Qed.

(** C10, as amended.  For an authenticated user: when a key is stored and
    decrypts to [key], the answer has [hasKey = true] and [maskedKey] is the
    first 12 characters, three dots and the last 4 characters of [key] if
    [key] is longer than 16 characters, and three stars otherwise; the
    answer does not contain [key] when [key] is longer than the 19 characters
    of a mask, or when one of the characters the mask leaves out is not a
    dot.  When nothing is stored, or decryption throws, the answer has
    [hasKey = false] and [maskedKey = null]. *)
Theorem key_status_mask (decrypt : string → Outcome string) (s : Store) (uid : string) :
  uid ≠ "" →
  let resp := KeyStatus.GET decrypt (Returned (Some uid)) s in
  let stored := colAt s SetupStateT uid "claudeApiKey" in
  (∀ key, truthy stored = true → decrypt (str_of stored) = Returned key →
     body resp !! "hasKey" = Some (VBool true)
     ∧ body resp !! "maskedKey" = Some (VStr (KeyStatus.maskKey key))
     ∧ ((16 < String.length key)%nat →
          KeyStatus.maskKey key = slice_head 12 key +:+ "..." +:+ slice_tail 4 key
          ∧ ((19 < String.length key)%nat
              ∨ (∃ i, (12 ≤ i < String.length key - 4)%nat
                      ∧ String.get i key ≠ Some "."%char) →
             includes (KeyStatus.maskKey key) key = false))
     ∧ ((String.length key ≤ 16)%nat → KeyStatus.maskKey key = "***"))
  ∧ (truthy stored = false ∨ (∃ e, decrypt (str_of stored) = Threw e) →
     body resp !! "hasKey" = Some (VBool false)
     ∧ body resp !! "maskedKey" = Some VNull).
Proof.
  intros Huid resp stored. subst resp stored.
  unfold KeyStatus.GET, KeyStatus.noKey, sessionUser, colAt, rowAt.
  rewrite present_Some by done. change (table SetupStateT s) with (setupState s).
  destruct (setupState s !! uid) as [row|] eqn:Hrow; cbn [from_option]; unfold id; split.
  - intros key Ht Hd. rewrite Ht, Hd, !body_json. repeat split.
    + by apply maskKey_long.
    + by apply maskKey_hides.
    + by apply maskKey_short.
  - intros Hno. destruct (truthy (col row "claudeApiKey")) eqn:Ht.
    + destruct Hno as [?|[e He]]; [done|]. rewrite He. by rewrite !body_json.
    + by rewrite !body_json.
  - intros key Ht. done.
  - intros _. by rewrite !body_json.
Qed.


Section ReadOnlyExamples.
Import Examples.

Lemma key_status_mask_witness :
  "u1" ≠ ""
  ∧ body (KeyStatus.GET (decryptTo plainKey) (Returned (Some "u1")) storeWithKey)
      !! "maskedKey" = Some (VStr "sk-ant-api03...IJKL").
Proof.
  split; [done|].
  pose proof (key_status_mask (decryptTo plainKey) storeWithKey "u1") as H.
  destruct H as [H _]; [done|].
  destruct (H plainKey) as (_ & Hm & _); [reflexivity..|]. exact Hm.
Defined.

(** A stored key longer than 16 characters that the answer returns whole. *)
Lemma key_status_leak :
  (16 < String.length dottedKey)%nat
  ∧ body (KeyStatus.GET (decryptTo dottedKey) (Returned (Some "u1")) storeWithKey)
      !! "maskedKey" = Some (VStr dottedKey).
Proof. split; [simpl; lia|reflexivity]. Qed.

Lemma key_status_leak_includes :
  includes (KeyStatus.maskKey dottedKey) dottedKey = true.
Proof. reflexivity. Qed.


(** The sandbox record of [storeWithPendingVM] is on AWS, and the answer has
    no console URL. *)
Lemma status_console_url_absent :
  col awsPendingVM "provider" = VStr "aws"
  ∧ body (Status.GET (Returned (Some "u1")) (Some "vm1") storeWithPendingVM)
      !! "awsConsoleUrl" = None.
Proof. split; reflexivity. Qed.

End ReadOnlyExamples.

(** C9, as amended.  For an authenticated owner and a sandbox id that
    resolves to one of their records, the answer carries the stored status,
    vmCreated, clawdbotInstalled, gatewayStarted, errorMessage, provider,
    id and name; the AWS instance id, type, public IP and region are present
    exactly when the provider is aws; the console URL is present exactly when
    the provider is aws and both the instance id and the region are set; the
    Orgo fields are present exactly when the provider is orgo. *)
Theorem status_projection (s : Store) (uid vmId : string) (vm : Row) :
  uid ≠ "" → vmId ≠ "" → ownedVM s vmId uid = Some vm →
  let resp := Status.GET (Returned (Some uid)) (Some vmId) s in
  let isAws := bool_decide (col vm "provider" = VStr "aws") in
  let isOrgo := bool_decide (col vm "provider" = VStr "orgo") in
  httpStatus resp = 200
  ∧ body resp !! "status" = Some (col vm "status")
  ∧ body resp !! "vmCreated" = Some (col vm "vmCreated")
  ∧ body resp !! "clawdbotInstalled" = Some (col vm "clawdbotInstalled")
  ∧ body resp !! "gatewayStarted" = Some (col vm "gatewayStarted")
  ∧ body resp !! "errorMessage" = Some (col vm "errorMessage")
  ∧ body resp !! "vmProvider" = Some (col vm "provider")
  ∧ body resp !! "vmId" = Some (VStr vmId)
  ∧ body resp !! "vmName" = Some (col vm "name")
  ∧ (∀ k, k ∈ awsColumns →
       body resp !! k = if isAws then Some (col vm k) else None)
  ∧ body resp !! "awsConsoleUrl"
    = (if isAws && truthy (col vm "awsInstanceId") && truthy (col vm "awsRegion")
       then Some (VStr (Status.consoleUrl (col vm "awsRegion") (col vm "awsInstanceId")))
       else None)
  ∧ (∀ k, k ∈ orgoColumns →
       body resp !! k = if isOrgo then Some (col vm k) else None).
Proof.
  intros Huid Hvm Hown resp isAws isOrgo. subst resp isAws isOrgo.
  unfold Status.GET, sessionUser. rewrite !present_Some by done. rewrite Hown.
  split; [done|]. rewrite !body_json. unfold Status.vmResponse.
  assert (Hex : col vm "provider" = VStr "aws" → col vm "provider" ≠ VStr "orgo")
    by (by intros ->).
  repeat split.
  all: try (intros k Hk; rewrite body_json; unfold awsColumns, orgoColumns in Hk;
            repeat (apply elem_of_cons in Hk as [->|Hk]);
            [..|by apply elem_of_nil in Hk]).
  all: destruct (decide (col vm "provider" = VStr "aws")) as [Ha|Ha];
       [rewrite ?(bool_decide_eq_true_2 _ Ha)|rewrite ?(bool_decide_eq_false_2 _ Ha)];
       try (destruct (decide (col vm "provider" = VStr "orgo")) as [Ho|Ho];
            [rewrite ?(bool_decide_eq_true_2 _ Ho)|rewrite ?(bool_decide_eq_false_2 _ Ho)]);
       try (exfalso; by apply Hex);
       try destruct (truthy (col vm "awsInstanceId"));
       try destruct (truthy (col vm "awsRegion"));
       reflexivity.
Qed.

Lemma status_projection_witness :
  "u1" ≠ "" ∧ "vm1" ≠ ""
  ∧ body (Status.GET (Returned (Some "u1")) (Some "vm1") Examples.storeWithPendingVM)
      !! "status" = Some (VStr "provisioning").
Proof.
  split; [done|]. split; [done|].
  pose proof (status_projection Examples.storeWithPendingVM "u1" "vm1"
                Examples.awsPendingVM) as H.
  destruct H as (_ & Hs & _); [done..|]. exact Hs.
Defined.

(** * The pipelines *)

(** ** More rules *)

Lemma wp_update_cases t key data Q w :
  (is_Some (table t (db w) !! key) → Q (Returned tt) (ext w [Write t key data])) →
  (table t (db w) !! key = None → Q (Threw recordNotFound) w) →
  wp (update t key data) Q w.
Proof.
  intros H1 H2. unfold wp, update. destruct (table t (db w) !! key) eqn:Hr.
  - apply H1. by eexists.
  - by apply H2.
Qed.

(** A call whose rejection is caught and ignored. *)
Lemma wp_call_ignored fn args (r : Outcome unit) Q w :
  Q (Returned tt) (ext w [Call fn args]) →
  wp (tryCatch (call fn args r) (λ _, ret tt)) Q w.
Proof.
  intros H. unfold wp, tryCatch, call, bind, emit, ret. simpl.
  by destruct r as [[]|].
Qed.

Lemma lastSet_quiet t key k evs :
  forallb quiet evs = true → lastSet t key k evs = None.
Proof.
  intros H. apply lastSet_none. rewrite forallb_forall in *.
  intros ev Hev. specialize (H ev Hev). by destruct ev.
Qed.

Lemma forallb_weaken {A} (P P' : A → bool) l :
  (∀ x, P x = true → P' x = true) → forallb P l = true → forallb P' l = true.
Proof. rewrite !forallb_forall. auto. Qed.

Lemma calls_free fn (P : Event → bool) evs :
  (∀ ev, P ev = true → isCall fn ev = false) →
  forallb P evs = true → calls fn evs = 0%nat.
Proof.
  intros HP H. apply calls_none. rewrite forallb_forall in *.
  intros ev Hev. by rewrite (HP ev (H ev Hev)).
Qed.

Lemma setAt_same t key k data :
  setAt t key k (Write t key data) = lookupKey k (reverse data).
Proof.
  unfold setAt. simpl. by rewrite bool_decide_eq_true_2, String.eqb_refl.
Qed.

Lemma setAt_other_table t t' key key' k data :
  t ≠ t' → setAt t key k (Write t' key' data) = None.
Proof. intros H. unfold setAt. simpl. by rewrite bool_decide_eq_false_2. Qed.

(** What one [updateStatus] call gives to a column of the legacy record,
    and of the sandbox record. *)
Lemma lastSet_statusWrites_legacy columns userId vmId k updates :
  lastSet SetupStateT userId k (statusWrites columns userId vmId updates)
  = lookupKey k (reverse updates).
Proof.
  unfold statusWrites. destruct (present vmId) as [v|]; [destruct (0 <? _)%nat|];
    cbn [lastSet]; rewrite ?setAt_other_table by done; cbv iota; apply setAt_same.
Qed.

Lemma lastSet_statusWrites_vm columns userId vmId v k updates :
  present vmId = Some v →
  lastSet VMT v k (statusWrites columns userId vmId updates)
  = lookupKey k (reverse (pick columns updates)).
Proof.
  intros Hv. unfold statusWrites. rewrite Hv.
  destruct (0 <? _)%nat eqn:Hlen; cbn [lastSet].
  - rewrite setAt_same. by destruct (lookupKey _ _).
  - rewrite setAt_other_table by done. apply Nat.ltb_ge in Hlen.
    by destruct (pick columns updates); [|simpl in Hlen; lia].
Qed.

(** ** The creation loop adds calls and sleeps only *)

Lemma createLoop_evolves (P : Event → bool) E projectName orgoRam orgoCpu
    project computerName :
  (∀ args, P (Call "createComputer" args) = true) →
  (∀ args, P (Call "listComputers" args) = true) →
  (∀ ms, P (Sleep ms) = true) →
  ∀ retries attempt lastError,
  evolves P (Reprovision.createLoop E projectName orgoRam orgoCpu project
               computerName retries attempt lastError).
Proof.
  intros H1 H2 H3. induction retries as [|r IH]; intros attempt lastError; simpl.
  - evolve.
  - unfold Reprovision.discover. evolve; auto.
Qed.

Ltac unfold_reprovision :=
  unfold Reprovision.runReprovisionProcess, Reprovision.tryBlock,
    Reprovision.prelude, Reprovision.withComputer, Reprovision.onError,
    Reprovision.deleteOld, Reprovision.resolveProject,
    Reprovision.resolveComputerName, Reprovision.install,
    Reprovision.messaging, Reprovision.pythonDiagnostics,
    Reprovision.updateStatus.

Ltac unfold_aws :=
  unfold AWS.runAWSSetupProcess, AWS.tryBlock, AWS.acquire, AWS.configure,
    AWS.onError, AWS.cleanup, AWS.reuseInstance, AWS.createNew, AWS.customAmi,
    AWS.fullInstall, AWS.messaging, AWS.updateStatus.

Ltac evolve_all :=
  evolve; try (apply createLoop_evolves; intros; reflexivity).

(** ** No run takes [vmCreated] or [clawdbotInstalled] back *)

Lemma reprovision_keepsCore sn E userId aiApiKey projectName old vmId ram cpu prov :
  evolves keepsCore
    (Reprovision.runReprovisionProcess sn E userId aiApiKey projectName old vmId
       ram cpu prov).
Proof. unfold_reprovision. evolve_all. Qed.

Lemma aws_keepsCore sn enc dec E userId k p m region ty tok tuid vmId :
  evolves keepsCore
    (AWS.runAWSSetupProcess sn enc dec E userId k p m region ty tok tuid vmId).
Proof. unfold_aws. evolve_all. Qed.

(** ** The reprovision request *)

Section Request.
Import Reprovision.

Ltac refused := intros ? ? ?; discriminate.

Lemma POST_accepted decrypt session bodyVmId w :
  wp (POST decrypt session bodyVmId)
     (λ o w', ∀ resp j, o = Returned (resp, Some j) →
        job_vmId j = present bodyVmId
        ∧ is_Some (setupState (db w) !! job_userId j)
        ∧ (∀ v, job_vmId j = Some v → is_Some (vM (db w) !! v))
        ∧ w' = ext w (resetWrites j)) w.
Proof.
  unfold POST, refuse. apply wp_tryCatch, wp_bind, wp_liftOutcome.
  destruct session as [sess|e]; [|apply wp_ret; refused].
  destruct (sessionUser sess) as [uid|]; [|apply wp_ret; refused].
  apply wp_bind, wp_findUnique. simpl table.
  destruct (setupState (db w) !! uid) as [setupState|] eqn:Hrow;
    [|apply wp_ret; refused].
  apply wp_bind.
  assert (Hvm : ∀ Q : Outcome (option Row) → World → Prop,
            (∀ r, Q (Returned r) w) →
            wp (match present bodyVmId with
                | Some v => findFirstVM v uid
                | None => ret None
                end) Q w).
  { intros Q HQ.
    destruct (present bodyVmId); [apply wp_findFirstVM|apply wp_ret]; apply HQ. }
  apply Hvm. intros vm. clear Hvm.
  destruct (negb (bool_decide _)); [apply wp_ret; refused|].
  destruct (negb (truthy _)); [apply wp_ret; refused|].
  apply wp_bind.
  set (stored := col setupState _).
  assert (Hkey : ∀ Q : Outcome (option string) → World → Prop,
            (∀ r, Q (Returned r) w) → (∀ e, Q (Threw e) w) →
            wp (if truthy stored
                then bind (liftOutcome (decrypt (str_of stored))) (λ k, ret (Some k))
                else ret None) Q w).
  { intros Q HQ HE. destruct (truthy stored); [|apply wp_ret, HQ].
    apply wp_bind, wp_liftOutcome.
    destruct (decrypt _); [apply wp_ret, HQ|apply HE]. }
  apply Hkey; clear Hkey; [|intros e; apply wp_ret; refused].
  intros aiApiKey. destruct (present aiApiKey) as [key|]; [|apply wp_ret; refused].
  apply wp_bind, wp_update_cases; simpl table; [intros _|by rewrite Hrow].
  apply wp_bind.
  destruct (present bodyVmId) as [v|] eqn:Hv.
  - apply wp_update_cases; [intros Hex|intros _; apply wp_ret; refused].
    apply wp_bind, wp_liftOutcome.
    destruct (decrypt _) as [orgoKey|e]; [|apply wp_ret; refused].
    apply wp_ret. intros resp j [= <- <-]. simpl. rewrite ext_ext. simpl.
    repeat split; [by eexists|].
    intros v' [= <-]. change (db (ext w [Write SetupStateT uid resetData]))
      with (written (db w) SetupStateT uid resetData) in Hex.
    rewrite table_written in Hex.
    rewrite decide_False in Hex by (by intros [? _]). done.
  - apply wp_ret. apply wp_bind, wp_liftOutcome.
    destruct (decrypt _) as [orgoKey|e]; [|apply wp_ret; refused].
    apply wp_ret. intros resp j [= <- <-]. simpl.
    repeat split; [by eexists|done].
Qed.

Lemma POST_run decrypt session bodyVmId w resp j w' :
  POST decrypt session bodyVmId w = (Returned (resp, Some j), w') →
  job_vmId j = present bodyVmId
  ∧ is_Some (setupState (db w) !! job_userId j)
  ∧ (∀ v, job_vmId j = Some v → is_Some (vM (db w) !! v))
  ∧ w' = ext w (resetWrites j).
Proof.
  intros H. pose proof (POST_accepted decrypt session bodyVmId w) as Hwp.
  unfold wp in Hwp. rewrite H in Hwp. exact (Hwp resp j eq_refl).
Qed.

Lemma resetState_after s j :
  is_Some (setupState s !! job_userId j) →
  (∀ v, job_vmId j = Some v → is_Some (vM s !! v)) →
  resetState (replay s (resetWrites j)) SetupStateT (job_userId j)
  ∧ (∀ v, job_vmId j = Some v → resetState (replay s (resetWrites j)) VMT v).
Proof.
  intros Hs Hv. unfold resetState, resetWrites. split.
  - rewrite !colAt_replay by done.
    destruct (job_vmId j); simpl; unfold setAt; simpl;
      rewrite String.eqb_refl; simpl; done.
  - intros v Hj. specialize (Hv v Hj). rewrite Hj.
    rewrite !colAt_replay by done. simpl. unfold setAt. simpl.
    rewrite String.eqb_refl. simpl. done.
Qed.

(** C4, as amended.  When a reprovision request is accepted, the only
    writes of the handler are the reset of the legacy record and, when a
    sandbox id was supplied, of the sandbox record; after them status is
    provisioning, errorMessage is null and the four flags are false, and this
    is the state the detached run starts from.  No run of either pipeline
    writes to vmCreated or clawdbotInstalled a value other than true. *)
Theorem reprovision_reset decrypt session bodyVmId w resp j w' :
  POST decrypt session bodyVmId w = (Returned (resp, Some j), w') →
  job_vmId j = present bodyVmId
  ∧ trace w' = trace w ++ resetWrites j
  ∧ resetState (db w') SetupStateT (job_userId j)
  ∧ (∀ v, job_vmId j = Some v → resetState (db w') VMT v)
  ∧ (∀ sn E,
       (request sn decrypt E session bodyVmId w).2
       = (tryCatch (runJob sn E j) (λ _, ret tt) w').2)
  ∧ (∀ sn E, evolves keepsCore (runJob sn E j))
  ∧ (∀ sn enc dec E userId k p m region ty tok tuid vmId,
       evolves keepsCore
         (AWS.runAWSSetupProcess sn enc dec E userId k p m region ty tok tuid vmId)).
Proof.
  intros H. destruct (POST_run _ _ _ _ _ _ _ H) as (Hj & Hs & Hv & ->).
  destruct (resetState_after (db w) j Hs Hv) as [R1 R2].
  do 4 (split; [done|]). split; [|split].
  - intros sn E. unfold request, bind. rewrite H. simpl.
    by destruct (tryCatch _ _ _) as [[?|?] ?].
  - intros sn E. apply reprovision_keepsCore.
  - intros. apply aws_keepsCore.
Qed.

Lemma reprovision_reset_witness :
  resetState
    (db (POST Examples.decryptPlain (Returned (Some "U2")) None
           (start Examples.orgoStore)).2)
    SetupStateT "U2".
Proof.
  destruct (POST Examples.decryptPlain (Returned (Some "U2")) None
              (start Examples.orgoStore)) as [o w'] eqn:H.
  assert (∃ resp j, o = Returned (resp, Some j) ∧ job_userId j = "U2")
    as (resp & j & -> & Hu).
  { vm_compute in H. injection H as <- <-. eauto. }
  rewrite <- Hu. apply (reprovision_reset _ _ _ _ _ _ _ H).
Defined.

End Request.

(** A run of the AWS pipeline, which is not a reprovision reset, that takes
    telegramConfigured from true to false. *)
Lemma aws_run_resets_telegram_flag :
  let w' := (Examples.awsRun Examples.awsTelegramFails
               (start Examples.configuredStore)).2 in
  colAt Examples.configuredStore SetupStateT "u1" "telegramConfigured" = VBool true
  ∧ colAt (db w') SetupStateT "u1" "telegramConfigured" = VBool false
  ∧ Write SetupStateT "u1" [("telegramConfigured", VBool false)] ∈ trace w'.
Proof.
  split; [reflexivity|]. split; [vm_compute; reflexivity|].
  vm_compute. repeat constructor.
Qed.

(** ** Phases of the reprovision run *)

Section ReprovisionPhases.
Import Reprovision.
Variable sanitizeName : string → string.
Variable E : Env.
Variables (userId aiApiKey projectName : string).
Variables (oldComputerId vmId : option string).
Variables (orgoRam orgoCpu : Z).
Variable aiProvider : string.

Lemma deleteOld_run old w :
  present oldComputerId = Some old →
  deleteOld E oldComputerId w
  = (Returned tt, ext w [Call "deleteComputer" [VStr old]]).
Proof.
  intros H. unfold deleteOld. rewrite H.
  unfold tryCatch, call, bind, emit, ret, ext. simpl.
  by destruct (deleteComputer E) as [[]|].
Qed.

Lemma wp_resolveProject projects Q w :
  listProjects E = Returned projects →
  (∀ project evs, forallb projectCall evs = true →
     Q (Returned project) (ext w evs)) →
  wp (resolveProject E projectName) Q w.
Proof.
  intros Hlp HQ. unfold resolveProject.
  apply wp_bind, wp_call. rewrite Hlp.
  destruct (String.eqb _ _).
  - apply wp_tryCatch, wp_call.
    destruct (createProject E); [|apply wp_ret]; rewrite ext_ext; by apply HQ.
  - apply wp_ret. by apply HQ.
Qed.

Lemma wp_resolveComputerName Q w :
  (∀ computerName, Q (Returned computerName) w) →
  wp (resolveComputerName sanitizeName projectName vmId) Q w.
Proof.
  intros HQ. unfold resolveComputerName.
  destruct (present vmId); [|by apply wp_ret].
  apply wp_bind, wp_findUnique.
  destruct (table VMT (db w) !! _); [|by apply wp_ret].
  destruct (truthy _); by apply wp_ret.
Qed.

Abbreviation loop project computerName :=
  (createLoop E projectName orgoRam orgoCpu project computerName).

Lemma wp_eq {A} (m : Async A) w r :
  wp m (λ o w', (o, w') = r) w → m w = r.
Proof. unfold wp. by destruct (m w). Qed.

Lemma calls_nil fn : calls fn [] = 0%nat.
Proof. reflexivity. Qed.

Lemma calls_cons fn ev evs :
  calls fn (ev :: evs) = ((if isCall fn ev then 1 else 0) + calls fn evs)%nat.
Proof.
  unfold calls. rewrite filter_cons.
  destruct (isCall fn ev); [by rewrite decide_True|by rewrite decide_False].
Qed.

Lemma wp_ex {A X} (m : Async A) w (f : X → Outcome A * World) (P : X → Prop) :
  wp m (λ o w', ∃ x, (o, w') = f x ∧ P x) w → ∃ x, m w = f x ∧ P x.
Proof. unfold wp. by destruct (m w). Qed.

(** A failed attempt without adoption: the loop goes on after the delay. *)
Lemma wp_createLoop_fails project computerName r a le Q w :
  failsAt E computerName a →
  (∀ D, forallb quiet D = true → calls "createComputer" D = 0%nat →
     wp (loop project computerName r (S a) (errorAt E a)) Q
        (ext w (Call "createComputer" (createArgs orgoRam orgoCpu project computerName)
                :: D ++ (if (0 <? r)%nat then [Sleep 3000] else [])))) →
  wp (loop project computerName (S r) a le) Q w.
Proof.
  intros (e & He & Hno) HQ. cbn [createLoop].
  apply wp_bind, wp_reify, wp_call. rewrite He. cbv beta iota.
  assert (Herr : errorAt E a = Some (asError e)) by (unfold errorAt; by rewrite He).
  rewrite Herr in HQ.
  assert (Hgo : ∀ D, forallb quiet D = true → calls "createComputer" D = 0%nat →
            wp ((if (0 <? r)%nat then sleep 3000 else ret ()) ;;;
                loop project computerName r (S a) (Some (asError e))) Q
               (ext (ext w [Call "createComputer"
                               (createArgs orgoRam orgoCpu project computerName)])
                   D)).
  { intros D HD HC. specialize (HQ D HD HC). apply wp_bind.
    destruct (0 <? r)%nat; [apply wp_sleep|apply wp_ret]; cbv beta iota;
      rewrite !ext_ext; simpl.
    - done.
    - by rewrite app_nil_r in HQ. }
  apply wp_bind. destruct (isTimeout (asError e)) eqn:Ht.
  - unfold discover. apply wp_tryCatch, wp_bind, wp_sleep. cbv beta iota.
    apply wp_bind, wp_call.
    destruct Hno as [?|[[x Hx]|(cs & Hcs & Hfind)]]; [done| |].
    + rewrite Hx. cbv beta iota. apply wp_ret. cbv beta iota.
      rewrite !ext_ext. rewrite <- ext_ext. by apply Hgo.
    + rewrite Hcs. cbv beta iota. apply wp_ret. rewrite Hfind. cbv beta iota.
      rewrite !ext_ext. rewrite <- ext_ext. by apply Hgo.
  - apply wp_ret. cbv beta iota. rewrite <- (ext_nil (ext w _)). by apply Hgo.
Qed.



(** When every attempt fails and nothing is found, the loop ends without a
    computer, and [lastError] is the error of the last attempt. *)
Lemma createLoop_exhausted project computerName :
  ∀ r a le w,
  (∀ j, (a ≤ j < a + r)%nat → failsAt E computerName j) →
  ∃ evs, loop project computerName r a le w
         = (Returned (None, match r with
                            | O => le
                            | S r' => errorAt E (a + r')
                            end),
            ext w evs)
         ∧ forallb quiet evs = true
         ∧ calls "createComputer" evs = r.
Proof.
  induction r as [|r IH]; intros a le w Hfail.
  - exists []. by rewrite ext_nil.
  - apply wp_ex.
    apply wp_createLoop_fails; [apply Hfail; lia|].
    intros D HD HC. unfold wp.
    destruct (IH (S a) (errorAt E a)
                (ext w (Call "createComputer" (createArgs orgoRam orgoCpu project computerName)
                        :: D ++ (if (0 <? r)%nat then [Sleep 3000] else []))))
      as (evs & Heq & Hq & Hc).
    + intros j Hj. apply Hfail. lia.
    + rewrite Heq. simpl fst. simpl snd.
      exists ((Call "createComputer" (createArgs orgoRam orgoCpu project computerName)
               :: D ++ (if (0 <? r)%nat then [Sleep 3000] else [])) ++ evs).
      split; [|split].
      * rewrite ext_ext. repeat f_equal.
        destruct r as [|r']; f_equal; lia.
      * rewrite forallb_app, Hq. simpl. rewrite forallb_app, HD.
        by destruct (0 <? _)%nat.
      * rewrite calls_app, Hc. change (Call ?f ?a :: ?l) with ([Call f a] ++ l).
        rewrite !calls_app, HC. by destruct (0 <? _)%nat.
Qed.

(** Whatever the environment answers, the loop calls [createComputer] at
    most [retries] times, and no call but the first follows anything else
    than the three-second sleep. *)
Lemma createLoop_bounded project computerName :
  ∀ r a le w,
  ∃ evs, (loop project computerName r a le w).2 = ext w evs
         ∧ (calls "createComputer" evs ≤ r)%nat
         ∧ ∀ prev, r = 0%nat ∨ prev = None ∨ prev = Some (Sleep 3000) →
                   spaced prev evs = true.
Proof.
  induction r as [|r IH]; intros a le w.
  - exists []. rewrite ext_nil. split; [done|]. split; [by compute|done].
  - set (Q := λ (o : Outcome (option Computer * option Thrown)) w',
          ∃ evs, w' = ext w evs ∧ (calls "createComputer" evs ≤ S r)%nat
                 ∧ ∀ prev, S r = 0%nat ∨ prev = None ∨ prev = Some (Sleep 3000) →
                           spaced prev evs = true).
    change (wp (loop project computerName (S r) a le) Q w).
    assert (Hprev : ∀ prev, S r = 0%nat ∨ prev = None ∨ prev = Some (Sleep 3000) →
              match prev with
              | None => true
              | Some p => bool_decide (p = Sleep 3000)
              end = true).
    { intros prev [?|[->| ->]]; [lia|done|done]. }
    assert (Hgo : ∀ D le',
              D = [] ∨ D = [Sleep 5000; Call "listComputers" (listArgs projectName project)] →
              wp ((if (0 <? r)%nat then sleep 3000 else ret ()) ;;;
                  loop project computerName r (S a) le') Q
                 (ext w (Call "createComputer"
                            (createArgs orgoRam orgoCpu project computerName)
                          :: D))).
    { intros D le' HD. apply wp_bind.
      destruct (0 <? r)%nat eqn:Hr; [apply wp_sleep|apply wp_ret]; cbv beta iota;
        rewrite ?ext_ext; unfold wp.
      - destruct (IH (S a) le'
                    (ext w ((Call "createComputer"
                                (createArgs orgoRam orgoCpu project computerName)
                              :: D)
                            ++ [Sleep 3000]))) as (evs & -> & Hc & Hs).
        exists (((Call "createComputer" (createArgs orgoRam orgoCpu project computerName) :: D)
                 ++ [Sleep 3000]) ++ evs).
        rewrite ext_ext. split; [done|]. split.
        + rewrite !calls_app.
          destruct HD as [-> | ->]; rewrite !calls_cons, ?calls_nil; simpl; lia.
        + intros prev Hp. specialize (Hprev prev Hp).
          destruct HD as [-> | ->]; simpl; rewrite Hprev; simpl; apply Hs; auto.
      - apply Nat.ltb_ge in Hr. assert (r = 0%nat) as -> by lia.
        destruct (IH (S a) le'
                    (ext w (Call "createComputer"
                               (createArgs orgoRam orgoCpu project computerName)
                             :: D)))
          as (evs & -> & Hc & Hs).
        exists ((Call "createComputer"
                    (createArgs orgoRam orgoCpu project computerName) :: D)
                 ++ evs).
        rewrite ext_ext. split; [done|]. split.
        + rewrite !calls_app.
          destruct HD as [-> | ->]; rewrite !calls_cons, ?calls_nil; simpl; lia.
        + intros prev Hp. specialize (Hprev prev Hp).
          destruct HD as [-> | ->]; simpl; rewrite Hprev; simpl; apply Hs; auto. }
    cbn [createLoop]. apply wp_bind, wp_reify, wp_call.
    destruct (createComputer E a) as [c|e]; cbv beta iota.
    { apply wp_ret.
       exists [Call "createComputer"
                 (createArgs orgoRam orgoCpu project computerName)].
      split; [done|]. split; [rewrite calls_cons, calls_nil; simpl; lia|].
      intros prev Hp. simpl. by rewrite (Hprev prev Hp). }
    apply wp_bind. destruct (isTimeout (asError e)).
    + unfold discover. apply wp_tryCatch, wp_bind, wp_sleep. cbv beta iota.
      apply wp_bind, wp_call.
      destruct (listComputers E a) as [cs|x]; cbv beta iota; apply wp_ret.
      * destruct (find _ cs) as [c|]; cbv beta iota.
        -- apply wp_ret. rewrite !ext_ext. eexists. split; [done|].
           split; [rewrite ?calls_app, !calls_cons, ?calls_nil; simpl; lia|].
           intros prev Hp. simpl. by rewrite (Hprev prev Hp).
        -- rewrite !ext_ext. apply Hgo. by right.
      * cbv beta iota. rewrite !ext_ext. apply Hgo. by right.
    + apply wp_ret. cbv beta iota. apply Hgo. by left.
Qed.

Lemma wp_deleteOld Q w :
  Q (Returned tt) (ext w (deleteEvents oldComputerId)) → wp (deleteOld E oldComputerId) Q w.
Proof.
  unfold deleteOld, deleteEvents. destruct (present oldComputerId).
  - apply wp_call_ignored.
  - rewrite ext_nil. apply wp_ret.
Qed.

Lemma deleteEvents_quiet : forallb quiet (deleteEvents oldComputerId) = true.
Proof. unfold deleteEvents. by destruct (present oldComputerId). Qed.

Lemma deleteEvents_calls : calls "createComputer" (deleteEvents oldComputerId) = 0%nat.
Proof. unfold deleteEvents. by destruct (present oldComputerId). Qed.

Lemma calls_statusWrites fn columns updates :
  calls fn (statusWrites columns userId vmId updates) = 0%nat.
Proof.
  unfold statusWrites. rewrite calls_cons. simpl.
  destruct (present vmId); [destruct (0 <? _)%nat|]; by rewrite ?calls_cons.
Qed.

Lemma projectCall_quiet evs :
  forallb projectCall evs = true → forallb quiet evs = true.
Proof. apply forallb_weaken. by intros []. Qed.

Lemma projectCall_calls evs :
  forallb projectCall evs = true → calls "createComputer" evs = 0%nat.
Proof.
  apply calls_free. intros [fn args| |] H; try done. unfold isCall.
  destruct (String.eqb_spec "createComputer" fn) as [<-|]; [|done].
  vm_compute in H. discriminate.
Qed.

Lemma asError_instance e : instanceofError (asError e) = true.
Proof. unfold asError. by destruct (instanceofError e) eqn:H. Qed.

Lemma failedMessage_asError e : failedMessage (asError e) = message (asError e).
Proof. unfold failedMessage. by rewrite asError_instance. Qed.

End ReprovisionPhases.

Lemma wp_of_eq {A} (m : Async A) (Q : Outcome A → World → Prop) w o w' :
  m w = (o, w') → Q o w' → wp m Q w.
Proof. intros H HQ. unfold wp. by rewrite H. Qed.

(** The rest of a [try] block together with its [catch] clause. *)
Lemma wp_tryCatch_fold {A} (m : Async A) h (Q : Outcome A → World → Prop) w :
  wp (tryCatch m h) Q w →
  wp m (λ o w', match o with
                | Returned a => Q (Returned a) w'
                | Threw e => wp (h e) Q w'
                end) w.
Proof. unfold wp, tryCatch. by destruct (m w) as [[a|e] w']. Qed.

Lemma wp_bind_fold {A B} (m : Async A) (k : A → Async B) Q w :
  wp (bind m k) Q w →
  wp m (λ o w', match o with
                | Returned a => wp (k a) Q w'
                | Threw e => Q (Threw e) w'
                end) w.
Proof. unfold wp, bind. by destruct (m w) as [[a|e] w']. Qed.

Ltac unfold_run :=
  unfold Reprovision.runReprovisionProcess, Reprovision.tryBlock,
    Reprovision.prelude, Reprovision.withComputer, Reprovision.onError,
    Reprovision.install, Reprovision.messaging,
    Reprovision.pythonDiagnostics, Reprovision.updateStatus.

Ltac wp_next :=
  lazymatch goal with
  | |- wp (tryCatch (call _ _ _) (λ _, ret tt)) _ _ => apply wp_call_ignored
  | |- wp (Reprovision.deleteOld _ _) _ _ => apply wp_deleteOld
  | |- wp (Reprovision.resolveProject _ _) _ _ =>
      eapply wp_resolveProject; [eassumption|intros ? ? ?]
  | |- wp (Reprovision.resolveComputerName _ _ _) _ _ =>
      apply wp_resolveComputerName; intros ?
  | |- wp (Reprovision.createLoop _ _ _ _ _ _ (S _) _ _) _ _ =>
      cbn [Reprovision.createLoop]
  | _ => wp_step
  end; cbv beta iota; cbn [fst snd].

Ltac wp_go := repeat wp_next.

(** What is left of a [try] block, and its [catch] clause, add events that
    satisfy [P]. *)
Ltac wp_rest P :=
  repeat apply wp_bind_fold; apply wp_tryCatch_fold;
  lazymatch goal with
  | |- wp ?m _ _ =>
      apply (wp_evolves P m);
      [ unfold Reprovision.resolveProject, Reprovision.resolveComputerName,
          Reprovision.deleteOld;
        evolve_all
      | intros ? ? ? ]
  end.

Section ReprovisionClaims.
Import Reprovision.
Variable sanitizeName : string → string.
Variable E : Env.
Variables (userId aiApiKey projectName : string).
Variables (oldComputerId vmId : option string).
Variables (orgoRam orgoCpu : Z).
Variable aiProvider : string.

Local Abbreviation run :=
  (runReprovisionProcess sanitizeName E userId aiApiKey projectName
     oldComputerId vmId orgoRam orgoCpu aiProvider).
Local Abbreviation status := (statusWrites vmColumns userId vmId).

Lemma run_starts_with_delete s :
  hasRecords userId vmId s →
  ∃ rest, trace (run (start s)).2
          = deleteEvents oldComputerId ++ status clearData ++ rest.
Proof.
  intros Hrec.
  set (Q := λ (_ : Outcome unit) w', ∃ rest, trace w'
            = deleteEvents oldComputerId ++ status clearData ++ rest).
  change (wp run Q (start s)).
  unfold_run. do 6 wp_next.
  wp_rest (λ _ : Event, true).
  subst Q. cbv beta. rewrite !ext_ext. eexists. simpl. rewrite <- ?app_assoc.
  reflexivity.
Qed.

(** The run in which every step but the delete succeeds at once, and no
    Telegram token is set. *)
Lemma run_succeeds s projects c ver :
  hasRecords userId vmId s →
  listProjects E = Returned projects →
  createComputer E 0 = Returned c →
  installPython E = Returned true →
  installOrgoPythonSDK E = Returned tt →
  installClawdbot E = Returned (true, ver) →
  present (TELEGRAM_BOT_TOKEN E) = None →
  storeAIApiKey E = Returned tt →
  ∃ x : Project * string * list Event,
    run (start s)
    = (Returned tt,
       ext (start s)
         (deleteEvents oldComputerId ++ status clearData ++ x.2
          ++ status (field "orgoProjectId" (VStr (project_id x.1.1)))
          ++ [Call "createComputer" (createArgs orgoRam orgoCpu x.1.1 x.1.2)]
          ++ status (handleData c)
          ++ [Call "waitForReady" [VStr (computer_id c); VNum 30; VNum 5000];
              Sleep 15000]
          ++ status (field "vmCreated" (VBool true) ++ field "vmStatus" (VStr "running"))
          ++ status (field "status" (VStr "configuring_vm"))
          ++ [Call "installPython" []; Call "installOrgoPythonSDK" [];
              Call "installClawdbot" []]
          ++ status (field "clawdbotInstalled" (VBool true))
          ++ [Call "storeAIApiKey" [VStr aiApiKey; VStr aiProvider]]
          ++ status (field "status" (VStr "ready"))))
    ∧ forallb projectCall x.2 = true.
Proof.
  intros Hrec Hlp Hcc Hpy Hsdk Hcl Htok Hst.
  apply wp_ex. unfold_run. wp_go.
  eexists (_, _, _). split; [|eassumption].
  rewrite !ext_ext. simpl. rewrite <- ?app_assoc. reflexivity.
Qed.

(** C5.  With a known previous handle, the run starts by calling
    deleteComputer, and whatever that call does the run goes on to clear the
    old handle; when the other steps succeed the run ends with status ready
    and the handle of the new computer. *)
Theorem reprovision_survives_failed_delete s old :
  hasRecords userId vmId s →
  present oldComputerId = Some old →
  (∀ w, deleteOld E oldComputerId w
        = (Returned tt, ext w [Call "deleteComputer" [VStr old]]))
  ∧ (∃ rest, trace (run (start s)).2
             = Call "deleteComputer" [VStr old] :: status clearData ++ rest)
  ∧ (∀ projects c ver,
       listProjects E = Returned projects →
       createComputer E 0 = Returned c →
       installPython E = Returned true →
       installOrgoPythonSDK E = Returned tt →
       installClawdbot E = Returned (true, ver) →
       present (TELEGRAM_BOT_TOKEN E) = None →
       storeAIApiKey E = Returned tt →
       let w' := (run (start s)).2 in
       (run (start s)).1 = Returned tt
       ∧ calls "createComputer" (trace w') = 1%nat
       ∧ colAt (db w') SetupStateT userId "status" = VStr "ready"
       ∧ colAt (db w') SetupStateT userId "vmCreated" = VBool true
       ∧ colAt (db w') SetupStateT userId "orgoComputerId" = VStr (computer_id c)
       ∧ (∀ v, present vmId = Some v →
            colAt (db w') VMT v "status" = VStr "ready"
            ∧ colAt (db w') VMT v "vmCreated" = VBool true
            ∧ colAt (db w') VMT v "orgoComputerId" = VStr (computer_id c))).
Proof.
  intros Hrec Hold. split; [|split].
  - intros w. by apply deleteOld_run.
  - destruct (run_starts_with_delete s Hrec) as [rest Hrest].
    exists rest. rewrite Hrest. unfold deleteEvents. by rewrite Hold.
  - intros projects c ver Hlp Hcc Hpy Hsdk Hcl Htok Hst.
    destruct (run_succeeds s projects c ver) as ([[project computerName] evs] & Hrun & Hq);
      try done.
    rewrite Hrun. cbn [fst snd]. pose proof Hrec as [Hs Hv].
    pose proof (deleteEvents_quiet oldComputerId) as Hdel.
    split; [done|]. split.
    { change (trace (ext (start s) ?l)) with l.
      rewrite !calls_app, !calls_statusWrites, !calls_cons, !calls_nil.
      by rewrite deleteEvents_calls, !projectCall_calls. }
    apply projectCall_quiet in Hq.
    change (db (ext (start s) ?l)) with (replay s l).
    repeat split.
    1-3: rewrite colAt_replay by done;
         rewrite !lastSet_app, !lastSet_statusWrites_legacy;
         unfold handleData; destruct (computer_url c); reflexivity.
    all: match goal with
         | H : present vmId = Some ?v |- _ =>
             rewrite H in Hv; rewrite colAt_replay by done;
             rewrite !lastSet_app, !(lastSet_statusWrites_vm _ _ _ v) by done
         end;
         unfold handleData; destruct (computer_url c); reflexivity.
Qed.

Lemma prelude_evolves :
  evolves clearsOnly
    (prelude sanitizeName E userId projectName oldComputerId vmId).
Proof.
  unfold prelude, deleteOld, resolveProject, resolveComputerName, updateStatus.
  evolve.
Qed.

Lemma prelude_world s named w1 :
  prelude sanitizeName E userId projectName oldComputerId vmId (start s)
  = (Returned named, w1) →
  ∃ evs0, w1 = ext (start s) evs0 ∧ forallb clearsOnly evs0 = true.
Proof.
  intros H. destruct (prelude_evolves (start s)) as (evs0 & Hw & Hp).
  rewrite H in Hw. by exists evs0.
Qed.



Lemma wp_world {A} (m : Async A) (Q : Outcome A → World → Prop) w w' :
  (m w).2 = w' → (∀ o, Q o w') → wp m Q w.
Proof. intros <- HQ. apply HQ. Qed.

Lemma noCreate_calls evs :
  forallb noCreate evs = true → calls "createComputer" evs = 0%nat.
Proof.
  intros H. apply (calls_free _ noCreate); [|done].
  intros ev Hn. by apply negb_true_iff.
Qed.

(** Whatever the environment answers, the creation calls of a run lie in
    one segment of its trace, three at most, each but the first directly
    after the three-second sleep. *)
Lemma reprovision_retry_budget w :
  ∃ pre attempts post,
    (run w).2 = ext w (pre ++ attempts ++ post)
    ∧ calls "createComputer" pre = 0%nat
    ∧ calls "createComputer" post = 0%nat
    ∧ (calls "createComputer" attempts ≤ 3)%nat
    ∧ spaced None attempts = true.
Proof.
  set (Q := λ (_ : Outcome unit) (w' : World),
    ∃ pre attempts post,
      w' = ext w (pre ++ attempts ++ post)
      ∧ calls "createComputer" pre = 0%nat
      ∧ calls "createComputer" post = 0%nat
      ∧ (calls "createComputer" attempts ≤ 3)%nat
      ∧ spaced None attempts = true).
  change (wp run Q w).
  unfold runReprovisionProcess, tryBlock.
  apply wp_tryCatch, wp_bind.
  apply (wp_evolves clearsOnly _ _ _ prelude_evolves). intros o evs0 H0.
  assert (Hc0 : calls "createComputer" evs0 = 0%nat).
  { apply (calls_free _ clearsOnly); [|done].
    intros ev [Hn _]%andb_true_iff. by apply negb_true_iff. }
  destruct o as [[project computerName]|e].
  - destruct (createLoop_bounded E projectName orgoRam orgoCpu project
                computerName 3 0 None (ext w evs0)) as (evsL & HL & HcL & HsL).
    apply wp_bind. eapply wp_world; [exact HL|]. intros o.
    destruct o as [[oc le]|e]; [apply wp_tryCatch_fold|].
    + lazymatch goal with
      | |- wp ?m _ _ => apply (wp_evolves noCreate m)
      end.
      { unfold withComputer, onError, install, messaging, pythonDiagnostics,
          updateStatus. destruct oc; evolve_all. }
      intros o evsR HR. subst Q. cbv beta.
      exists evs0, evsL, evsR. rewrite !ext_ext, <- ?app_assoc.
      repeat split; try done; [by apply noCreate_calls|by apply HsL; right; left].
    + lazymatch goal with
      | |- wp ?m _ _ => apply (wp_evolves noCreate m)
      end.
      { unfold onError, updateStatus. evolve_all. }
      intros o evsR HR. subst Q. cbv beta.
      exists evs0, evsL, evsR. rewrite !ext_ext, <- ?app_assoc.
      repeat split; try done; [by apply noCreate_calls|by apply HsL; right; left].
  - lazymatch goal with
    | |- wp ?m _ _ => apply (wp_evolves noCreate m)
    end.
    { unfold onError, updateStatus. evolve_all. }
    intros o evsR HR. subst Q. cbv beta.
    exists evs0, [], evsR. rewrite !ext_ext.
    repeat split; try done; [by apply noCreate_calls|cbn; lia].
Qed.

(** When the three attempts fail and no computer of the requested name is
    found, the run ends failed with the message of the third error. *)
Lemma reprovision_exhausted s project computerName w1 e :
  hasRecords userId vmId s →
  prelude sanitizeName E userId projectName oldComputerId vmId (start s)
  = (Returned (project, computerName), w1) →
  (∀ j, (j < 3)%nat → failsAt E computerName j) →
  createComputer E 2 = Threw e →
  let w' := (run (start s)).2 in
  calls "createComputer" (trace w') = 3%nat
  ∧ colAt (db w') SetupStateT userId "status" = VStr "failed"
  ∧ colAt (db w') SetupStateT userId "errorMessage" = VStr (message (asError e))
  ∧ (∀ v, present vmId = Some v →
          colAt (db w') VMT v "status" = VStr "failed"
          ∧ colAt (db w') VMT v "errorMessage" = VStr (message (asError e))).
Proof.
  intros Hrec Hpre Hfail He w'. subst w'.
  destruct (prelude_world s _ _ Hpre) as (evs0 & -> & H0).
  destruct (createLoop_exhausted E projectName orgoRam orgoCpu project
              computerName 3 0 None (ext (start s) evs0))
    as (evsL & Hloop & HqL & HcL).
  { intros j Hj. apply Hfail. lia. }
  unfold errorAt in Hloop. cbn [Nat.add] in Hloop. rewrite He in Hloop.
  set (Q := λ (_ : Outcome unit) (w' : World),
    calls "createComputer" (trace w') = 3%nat
    ∧ colAt (db w') SetupStateT userId "status" = VStr "failed"
    ∧ colAt (db w') SetupStateT userId "errorMessage" = VStr (message (asError e))
    ∧ (∀ v, present vmId = Some v →
            colAt (db w') VMT v "status" = VStr "failed"
            ∧ colAt (db w') VMT v "errorMessage" = VStr (message (asError e)))).
  change (wp run Q (start s)).
  unfold runReprovisionProcess, tryBlock, onError, updateStatus.
  apply wp_tryCatch, wp_bind. eapply wp_of_eq; [exact Hpre|]. cbv beta iota.
  apply wp_bind. eapply wp_of_eq; [exact Hloop|]. cbv beta iota. cbn [fst snd].
  apply wp_throw. apply wp_updateStatusWith; [has_records|].
  subst Q. cbv beta. rewrite !ext_ext.
  change (trace (ext (start s) ?l)) with l.
  change (db (ext (start s) ?l)) with (replay s l).
  pose proof Hrec as [Hs Hv].
  change (default ?d (Some ?x)) with x. rewrite failedMessage_asError.
  split; [|split; [|split]].
  - rewrite !calls_app, HcL, calls_statusWrites.
    rewrite (calls_free "createComputer" clearsOnly evs0); [done| |done].
    intros ev [Hn _]%andb_true_iff. by apply negb_true_iff.
  - rewrite colAt_replay by done.
    by rewrite !lastSet_app, lastSet_statusWrites_legacy.
  - rewrite colAt_replay by done.
    by rewrite !lastSet_app, lastSet_statusWrites_legacy.
  - intros v Hpv. rewrite Hpv in Hv.
    split; rewrite colAt_replay by done;
      by rewrite !lastSet_app, (lastSet_statusWrites_vm _ _ _ v).
Qed.

End ReprovisionClaims.

(** ** Phases of the AWS run *)

Lemma replay_quiet s evs : forallb quiet evs = true → replay s evs = s.
Proof.
  revert s. induction evs as [|ev evs IH]; intros s H; [done|].
  apply andb_true_iff in H as [H1 H2]. destruct ev; try done; by apply IH.
Qed.

Lemma lastSet_unset t key k evs :
  forallb (λ ev, negb (bool_decide (is_Some (sets k ev)))) evs = true →
  lastSet t key k evs = None.
Proof.
  intros H. apply lastSet_none. revert H. apply forallb_weaken.
  intros ev Hn. apply negb_true_iff, bool_decide_eq_false in Hn.
  apply negb_true_iff, bool_decide_eq_false. intros Hs. apply Hn.
  unfold setAt in Hs. by destruct (writesTo _ _ ev).
Qed.

Lemma wp_reify_fold {A} (m : Async A) (Q : Outcome (Outcome A) → World → Prop) w :
  wp (reify m) Q w → wp m (λ o w', Q (Returned o) w') w.
Proof. unfold wp, reify. by destruct (m w). Qed.

Section AWSClaims.
Import AWS.
Variable sanitizeName : string → string.
Variable encrypt : string → string.
Variable decrypt : string → Outcome string.
Variable E : Env.
Variables (userId llmApiKey llmProvider llmModel : string).
Variables (awsRegion awsInstanceType : string).
Variables (telegramBotToken telegramUserId vmId : option string).

Local Abbreviation run :=
  (runAWSSetupProcess sanitizeName encrypt decrypt E userId llmApiKey
     llmProvider llmModel awsRegion awsInstanceType telegramBotToken
     telegramUserId vmId).
Local Abbreviation tryBlock' :=
  (tryBlock sanitizeName encrypt decrypt E userId llmApiKey
     llmProvider llmModel awsRegion awsInstanceType telegramBotToken
     telegramUserId vmId).
Local Abbreviation acquire' :=
  (acquire sanitizeName encrypt decrypt E userId awsRegion awsInstanceType vmId).
Local Abbreviation configure' :=
  (configure E userId llmApiKey llmProvider llmModel telegramBotToken
     telegramUserId vmId).
Local Abbreviation onError' := (onError userId awsInstanceType vmId).
Local Abbreviation status := (statusWrites vmColumns userId vmId).

(** The run is its [try] block, followed by the [catch] clause when the
    block throws, and by the clean-up when the instance was acquired. *)
Lemma run_returns w w1 :
  tryBlock' w = (Returned tt, w1) →
  run w = (Returned tt, ext w1 [Call "cleanup" []]).
Proof.
  unfold runAWSSetupProcess, tryBlock, bind, reify, tryFinally, tryCatch,
    cleanup, emit.
  destruct (acquire' w) as [[a|e'] w'] eqn:Ha; [|done].
  destruct (configure' w') as [[[]|e'] w''] eqn:Hc; [|done].
  by intros [= <-].
Qed.

Lemma run_catches w e w1 :
  tryBlock' w = (Threw e, w1) →
  ∃ tail, run w = ((onError' e w1).1, ext (onError' e w1).2 tail)
          ∧ forallb quiet tail = true.
Proof.
  unfold runAWSSetupProcess, tryBlock, bind, reify, tryFinally, tryCatch,
    cleanup, emit.
  destruct (acquire' w) as [[a|e'] w'] eqn:Ha.
  - destruct (configure' w') as [[[]|e'] w''] eqn:Hc; [done|].
    intros [= <- <-]. exists [Call "cleanup" []].
    by destruct (onError' e' w'') as [o w3].
  - intros [= <- <-]. exists []. rewrite ext_nil.
    by destruct (onError' e' w') as [o w3].
Qed.

Lemma tryBlock_world w :
  ∃ evs, (tryBlock' w).2 = ext w evs.
Proof.
  destruct (λ H, wp_evolves (λ _, true) tryBlock'
                   (λ _ w', ∃ evs, w' = ext w evs) w H) as [evs Hevs].
  - unfold_aws. evolve_all.
  - intros o evs _. by exists evs.
  - by exists evs.
Qed.

Lemma run_caught s e w1 :
  hasRecords userId vmId s →
  tryBlock' (start s) = (Threw e, w1) →
  ∃ evs tail, w1 = ext (start s) evs
              ∧ (run (start s)).2
                 = ext (start s)
                     (evs ++ status (errorData awsInstanceType e) ++ tail)
              ∧ forallb quiet tail = true.
Proof.
  intros Hrec Htry.
  destruct (run_catches _ _ _ Htry) as (tail & Hrun & Hq).
  destruct (tryBlock_world (start s)) as [evs Hevs].
  rewrite Htry in Hevs. simpl in Hevs. subst w1.
  exists evs, tail. split; [done|]. split; [|done].
  rewrite Hrun. cbn [snd]. unfold onError, errorData, updateStatus.
  destruct (isFreeTierError e);
    rewrite updateStatusWith_run by has_records; cbn [snd];
    by rewrite !ext_ext.
Qed.

(** The columns of the two records after a run whose [try] block threw. *)
Lemma run_caught_columns s e w1 k :
  hasRecords userId vmId s →
  tryBlock' (start s) = (Threw e, w1) →
  let w' := (run (start s)).2 in
  colAt (db w') SetupStateT userId k
  = default (colAt (db w1) SetupStateT userId k)
       (lookupKey k (reverse (errorData awsInstanceType e)))
  ∧ (∀ v, present vmId = Some v →
          colAt (db w') VMT v k
          = default (colAt (db w1) VMT v k)
              (lookupKey k (reverse (pick vmColumns (errorData awsInstanceType e))))).
Proof.
  intros Hrec Htry w'. subst w'.
  destruct (run_caught s e w1 Hrec Htry) as (evs & tail & -> & -> & Hq).
  change (db (ext (start s) ?l)) with (replay s l).
  pose proof Hrec as [Hs Hv].
  split; [|intros v Hpv; rewrite Hpv in Hv]; rewrite !colAt_replay by done.
  - rewrite !lastSet_app, (lastSet_quiet _ _ _ tail Hq),
      lastSet_statusWrites_legacy.
    by destruct (lookupKey k (reverse (errorData awsInstanceType e))).
  - rewrite !lastSet_app, (lastSet_quiet _ _ _ tail Hq),
      (lastSet_statusWrites_vm _ _ _ v) by done.
    by destruct (lookupKey k (reverse (pick vmColumns (errorData awsInstanceType e)))).
Qed.

(** In the creation branch a rejected [createInstance] ends the [try]
    block at once. *)
Lemma createNew_fails existingVM e w :
  hasRecords userId vmId (db w) →
  createInstance E = Threw e →
  createNew sanitizeName encrypt E userId awsRegion awsInstanceType vmId
    existingVM w
  = (Threw e,
     ext w (status provisioningData
            ++ [Call "createInstance"
                  [VStr (instanceName sanitizeName E existingVM); VStr awsInstanceType;
                   VStr awsRegion]])).
Proof.
  intros Hrec He. apply wp_eq. unfold createNew, updateStatus. wp_run.
  by rewrite ext_ext.
Qed.

Lemma creation_fails s e :
  hasRecords userId vmId s →
  reusable (existing vmId s) = false →
  createInstance E = Threw e →
  tryBlock' (start s)
  = (Threw e,
     ext (start s)
       (status provisioningData
         ++ [Call "createInstance"
               (createInstanceArgs sanitizeName E awsRegion awsInstanceType
                  vmId s)])).
Proof.
  intros Hrec Hnot He. apply wp_eq.
  unfold tryBlock, acquire, createInstanceArgs.
  apply wp_bind, wp_bind, wp_findUnique. cbv beta iota. apply wp_bind.
  unfold existing in *.
  destruct (present vmId) as [v|] eqn:Hv.
  - apply wp_findUnique. cbv beta iota.
    change (table VMT (db (start s)) !! v) with (vM s !! v).
    destruct (vM s !! v) as [row|] eqn:Hrow.
    + rewrite Hnot. apply wp_bind. eapply wp_of_eq; [by apply createNew_fails|].
      done.
    + apply wp_bind. eapply wp_of_eq; [by apply createNew_fails|]. done.
  - apply wp_ret. cbv beta iota.
    apply wp_bind. eapply wp_of_eq; [by apply createNew_fails|]. done.
Qed.

(** The three tests of lines 271-273 hold together or not at all: each
    asks for Free Tier in the text of the error. *)
Lemma prefix_includes (a b s : string) :
  String.prefix (a +:+ b) s = true → includes s b = true.
Proof.
  revert s. induction a as [|c a IH]; intros s H.
  - change ("" +:+ b) with b in H.
    destruct s as [|c s].
    + change (includes "" b) with (String.prefix b "" || false). by rewrite H.
    + change (includes (String c s) b)
        with (String.prefix b (String c s) || includes s b). by rewrite H.
  - change (String c a +:+ b) with (String c (a +:+ b)) in H.
    destruct s as [|c' s]; [done|]. cbn in H.
    destruct (ascii_dec c c'); [|done].
    change (includes (String c' s) b)
      with (String.prefix b (String c' s) || includes s b).
    rewrite (IH s H). by rewrite orb_true_r.
Qed.

Lemma includes_suffix (a b s : string) :
  includes s (a +:+ b) = true → includes s b = true.
Proof.
  induction s as [|c s IH].
  - change (includes "" ?x) with (String.prefix x "" || false).
    rewrite orb_false_r. apply prefix_includes.
  - change (includes (String c s) ?x)
      with (String.prefix x (String c s) || includes s x).
    intros [H|H]%orb_true_iff.
    + by apply prefix_includes in H.
    + rewrite (IH H). by rewrite orb_true_r.
Qed.

Lemma isFreeTierError_text e :
  isFreeTierError e
  = includes (if String.eqb (message e) ""
              then if String.eqb (Error_Message e) ""
                   then rendered e else Error_Message e
              else message e) "Free Tier".
Proof.
  unfold isFreeTierError, strOr. cbv zeta.
  set (text := if String.eqb (message e) "" then _ else _).
  destruct (includes text "Free Tier") eqn:Hft.
  - by rewrite orb_true_r.
  - rewrite andb_false_r, !orb_false_r.
    destruct (includes text "not eligible for Free Tier") eqn:Hne; [|done].
    apply (includes_suffix "not eligible for " "Free Tier") in Hne. congruence.
Qed.

(** C2.  Let the [try] block of a provisioning run throw [e], and let the
    text of [e] be its message, or else its Error.Message, or else its
    string form.  If the text contains Free Tier (each of the known
    signatures does, and nothing else is tested), the run ends with status
    requires_payment and errorMessage BILLING_REQUIRED: followed by the
    requested instance type.  Otherwise it ends with status failed and the
    captured message: the message of [e] when [e] is an Error, Unknown error
    occurred when it is not.  When the error comes from the creation call,
    vmCreated is in both records what it was before the run: false stays
    false, and true stays true. *)
Theorem billing_error_requires_payment s e w1 :
  hasRecords userId vmId s →
  tryBlock' (start s) = (Threw e, w1) →
  let w' := (run (start s)).2 in
  let text := if String.eqb (message e) ""
              then if String.eqb (Error_Message e) ""
                   then rendered e else Error_Message e
              else message e in
  let captured := if instanceofError e then message e
                  else "Unknown error occurred" in
  (includes text "Free Tier" = true →
     colAt (db w') SetupStateT userId "status" = VStr "requires_payment"
     ∧ colAt (db w') SetupStateT userId "errorMessage"
       = VStr ("BILLING_REQUIRED:" +:+ awsInstanceType)
     ∧ (∀ v, present vmId = Some v →
          colAt (db w') VMT v "status" = VStr "requires_payment"
          ∧ colAt (db w') VMT v "errorMessage"
            = VStr ("BILLING_REQUIRED:" +:+ awsInstanceType)))
  ∧ (includes text "Free Tier" = false →
     colAt (db w') SetupStateT userId "status" = VStr "failed"
     ∧ colAt (db w') SetupStateT userId "errorMessage" = VStr captured
     ∧ (∀ v, present vmId = Some v →
          colAt (db w') VMT v "status" = VStr "failed"
          ∧ colAt (db w') VMT v "errorMessage" = VStr captured))
  ∧ (reusable (existing vmId s) = false →
     createInstance E = Threw e →
     colAt (db w') SetupStateT userId "vmCreated" = colAt s SetupStateT userId "vmCreated"
     ∧ (∀ v, present vmId = Some v →
          colAt (db w') VMT v "vmCreated" = colAt s VMT v "vmCreated")).
Proof.
  intros Hrec Htry w' text captured. subst w'.
  pose proof (isFreeTierError_text e) as Htext. fold text in Htext.
  pose proof (run_caught_columns s e w1 "status" Hrec Htry) as [Hs1 Hs2].
  pose proof (run_caught_columns s e w1 "errorMessage" Hrec Htry) as [Hm1 Hm2].
  pose proof (run_caught_columns s e w1 "vmCreated" Hrec Htry) as [Hc1 Hc2].
  cbv zeta in *. unfold errorData, failedMessage in *. fold captured in Hm1, Hm2.
  split; [|split].
  - intros Hft. rewrite Hft in Htext. rewrite Htext in *. rewrite Hs1, Hm1.
    split; [done|]. split; [done|]. intros v Hv.
    by rewrite (Hs2 v Hv), (Hm2 v Hv).
  - intros Hft. rewrite Hft in Htext. rewrite Htext in *. rewrite Hs1, Hm1.
    split; [done|]. split; [done|]. intros v Hv.
    by rewrite (Hs2 v Hv), (Hm2 v Hv).
  - intros Hnot He. rewrite (creation_fails s e Hrec Hnot He) in Htry.
    injection Htry as <-.
    change (db (ext (start s) ?l)) with (replay s l) in *.
    pose proof Hrec as [Hrs Hrv].
    assert (Hnone : ∀ t key,
      lastSet t key "vmCreated"
        (status provisioningData
          ++ [Call "createInstance"
                (createInstanceArgs sanitizeName E awsRegion awsInstanceType
                   vmId s)])
      = None).
    { intros t key. apply lastSet_unset. unfold statusWrites.
      by destruct (present vmId). }
    split.
    + rewrite Hc1, colAt_replay, Hnone by done. by destruct (isFreeTierError e).
    + intros v Hv. rewrite (Hc2 v Hv). rewrite Hv in Hrv.
      rewrite colAt_replay, Hnone by done. by destruct (isFreeTierError e).
Qed.

Lemma noInstance_calls evs :
  forallb noInstance evs = true → calls "createInstance" evs = 0%nat.
Proof.
  intros H. apply (calls_free _ noInstance); [|done].
  intros ev Hn. by apply negb_true_iff.
Qed.

(** Acquiring the instance calls [createInstance] once at most. *)
Lemma acquire_creates_once w :
  ∃ evs, (acquire' w).2 = ext w evs ∧ (calls "createInstance" evs ≤ 1)%nat.
Proof.
  set (Q := λ (_ : Outcome (Instance * string * option string)) (w' : World),
         ∃ evs, w' = ext w evs ∧ (calls "createInstance" evs ≤ 1)%nat).
  change (wp acquire' Q w). unfold acquire.
  apply wp_bind, wp_findUnique. apply wp_bind.
  assert (Hreuse : ∀ row k,
    (∀ a, evolves noInstance (k a)) →
    wp (bind (reuseInstance decrypt E userId vmId row) k) Q w).
  { intros row k Hk. apply (wp_evolves noInstance).
    - unfold reuseInstance, updateStatus. evolve. apply Hk.
    - intros o evs H. exists evs. split; [done|].
      rewrite noInstance_calls by done. lia. }
  assert (Hnew : ∀ x k,
    (∀ a, evolves noInstance (k a)) →
    wp (bind (createNew sanitizeName encrypt E userId awsRegion awsInstanceType
                vmId x) k) Q w).
  { intros x k Hk. unfold createNew, updateStatus. apply wp_bind, wp_bind.
    lazymatch goal with
    | |- wp ?m _ _ => apply (wp_evolves noInstance m); [evolve|]
    end.
    intros [[]|e] evs1 H1.
    - apply wp_bind, wp_call. destruct (createInstance E) as [created|e].
      + apply wp_bind_fold.
        lazymatch goal with
        | |- wp ?m _ _ => apply (wp_evolves noInstance m)
        end.
        { evolve. apply Hk. }
        intros o evs2 H2. subst Q. cbv beta. eexists. rewrite !ext_ext.
        split; [done|].
        rewrite !calls_app, (noInstance_calls evs1), (noInstance_calls evs2) by done.
        rewrite calls_cons, calls_nil. cbn [isCall]. rewrite String.eqb_refl. lia.
      + subst Q. cbv beta. eexists. rewrite !ext_ext. split; [done|].
        rewrite !calls_app, (noInstance_calls evs1) by done.
        rewrite calls_cons, calls_nil. cbn [isCall]. rewrite String.eqb_refl. lia.
    - subst Q. cbv beta. exists evs1. split; [done|].
      rewrite noInstance_calls by done. lia. }
  assert (Hk : ∀ acquired : Instance * string,
    evolves noInstance
      (updateStatus userId vmId (field "status" (VStr "configuring_vm")) ;;;
       let! instancePublicIp :=
         (match present (instance_publicIp acquired.1) with
          | Some ip => ret (Some ip)
          | None => call "getInstance" [VStr (instance_id acquired.1)]
                      (getInstance E 1)
          end) in
       ret (acquired, instancePublicIp))).
  { intros acquired. unfold updateStatus. evolve. }
  destruct (present vmId) as [v|]; [apply wp_findUnique|apply wp_ret];
    cbv beta iota.
  - destruct (table VMT (db w) !! v) as [row|]; [|by apply Hnew].
    destruct (reusable (Some row)); [by apply Hreuse|by apply Hnew].
  - by apply Hnew.
Qed.

(** Once the instance is acquired, or the acquisition has thrown, nothing
    calls [createInstance]. *)
Lemma run_after_acquire w :
  ∃ evs, (run w).2 = ext (acquire' w).2 evs ∧ forallb noInstance evs = true.
Proof.
  unfold runAWSSetupProcess, bind, reify.
  destruct (acquire' w) as [[a|e] w1]; cbn [snd].
  - apply (wp_evolves noInstance
             (tryFinally (tryCatch configure' onError') cleanup)
             (λ _ w', ∃ evs, w' = ext w1 evs ∧ forallb noInstance evs = true)).
    + unfold_aws. evolve.
    + intros o evs H. by exists evs.
  - apply (wp_evolves noInstance (onError' e)
             (λ _ w', ∃ evs, w' = ext w1 evs ∧ forallb noInstance evs = true)).
    + unfold_aws. evolve.
    + intros o evs H. by exists evs.
Qed.

(** A run calls [createInstance] once at most. *)
Lemma aws_creates_once w :
  ∃ evs, (run w).2 = ext w evs ∧ (calls "createInstance" evs ≤ 1)%nat.
Proof.
  destruct (acquire_creates_once w) as (evs1 & H1 & Hc1).
  destruct (run_after_acquire w) as (evs2 & H2 & Hc2).
  exists (evs1 ++ evs2). rewrite H2, H1, ext_ext, calls_app.
  rewrite (noInstance_calls evs2) by done. split; [done|lia].
Qed.

Lemma acquire_reuses s v row :
  present vmId = Some v →
  vM s !! v = Some row →
  reusable (Some row) = true →
  acquire' (start s)
  = (let! acquired := reuseInstance decrypt E userId vmId row in
     updateStatus userId vmId (field "status" (VStr "configuring_vm")) ;;;
     let! instancePublicIp :=
       (match present (instance_publicIp acquired.1) with
        | Some ip => ret (Some ip)
        | None => call "getInstance" [VStr (instance_id acquired.1)]
                    (getInstance E 1)
        end) in
     ret (acquired, instancePublicIp)) (start s).
Proof.
  intros Hv Hrow Hre. unfold acquire at 1, bind at 1 2, findUnique. cbn [fst snd].
  rewrite Hv. cbn [db start table]. rewrite Hrow. cbv beta iota. by rewrite Hre.
Qed.

(** The run on a sandbox record that holds an instance. *)
Lemma sandbox_instance_is_reused s v row id :
  hasRecords userId vmId s →
  present vmId = Some v →
  vM s !! v = Some row →
  col row "awsInstanceId" = VStr id →
  id ≠ "" →
  col row "vmCreated" = VBool true →
  calls "createInstance" (trace (run (start s)).2) = 0%nat
  ∧ (∀ ip ip' key,
       getInstance E 0 = Returned ip →
       getInstance E 1 = Returned ip' →
       storedKey decrypt row = Returned key →
       let instance := storedInstance row ip in
       ∃ pubIp evs,
         let w1 := ext (start s)
                     (Call "getInstance" [VStr id]
                      :: status (reuseData instance)
                      ++ status (field "status" (VStr "configuring_vm"))
                      ++ evs) in
         acquire' (start s) = (Returned (instance, key, pubIp), w1)
         ∧ instance_id instance = id
         ∧ forallb quiet evs = true
         ∧ calls "createInstance" evs = 0%nat
         ∧ run (start s)
           = tryFinally (tryCatch configure' onError') cleanup w1).
Proof.
  intros Hrec Hv Hrow Hid Hne Hcreated.
  assert (Hre : reusable (Some row) = true).
  { unfold reusable. rewrite Hid, Hcreated. cbn [truthy].
    apply String.eqb_neq in Hne. by rewrite Hne. }
  pose proof (acquire_reuses s v row Hv Hrow Hre) as Hacq.
  split.
  - destruct (run_after_acquire (start s)) as (evs2 & H2 & Hc2).
    rewrite H2, Hacq.
    lazymatch goal with
    | |- context [(?m (start s)).2] =>
        destruct (λ H, wp_evolves noInstance m
                   (λ _ w', ∃ evs, w' = ext (start s) evs
                                   ∧ forallb noInstance evs = true)
                   (start s) H (λ o evs H', ex_intro _ evs (conj eq_refl H')))
          as (evs1 & H1 & Hc1)
    end.
    { unfold reuseInstance, updateStatus. evolve. }
    rewrite H1, ext_ext. change (trace (ext (start s) ?l)) with l.
    by rewrite calls_app, !noInstance_calls.
  - intros ip ip' key Hget Hget' Hkey instance.
    assert (∃ x : option string * list Event,
      acquire' (start s)
      = (Returned (instance, key, x.1),
         ext (start s)
           (Call "getInstance" [VStr id]
            :: status (reuseData instance)
            ++ status (field "status" (VStr "configuring_vm")) ++ x.2))
      ∧ forallb quiet x.2 = true ∧ calls "createInstance" x.2 = 0%nat)
      as ([pubIp evs] & Heq & Hq & Hc).
    { rewrite Hacq. apply wp_ex. unfold reuseInstance, updateStatus.
      rewrite Hid. cbn [str_of].
      apply wp_bind, wp_bind, wp_call. rewrite Hget. cbv beta iota.
      apply wp_bind.
      assert (Hk : wp (if truthy (col row "awsPrivateKey")
                       then liftOutcome (decrypt (str_of (col row "awsPrivateKey")))
                       else ret "")
                     (λ o w', (o, w') = (Returned key,
                                         ext (start s) [Call "getInstance" [VStr id]]))
                     (ext (start s) [Call "getInstance" [VStr id]])).
      { unfold storedKey in Hkey. destruct (truthy (col row "awsPrivateKey")).
        - apply wp_liftOutcome. by rewrite Hkey.
        - apply wp_ret. by injection Hkey as ->. }
      eapply wp_mono; [exact Hk|]. intros o w' [= -> ->].
      apply wp_bind, wp_updateStatusWith; [has_records|]. cbv beta iota.
      apply wp_ret. cbn [fst snd].
      apply wp_bind, wp_updateStatusWith; [has_records|]. cbv beta iota.
      apply wp_bind. rewrite !ext_ext.
      assert (Hinst :
        {| instance_id := id;
           instance_name :=
             str_of (orElse (col row "awsInstanceName") (col row "name"));
           instance_publicIp :=
             if truthy (col row "awsPublicIp")
             then Some (str_of (col row "awsPublicIp"))
             else ip |} = instance).
      { unfold instance, storedInstance. by rewrite Hid. }
      rewrite !Hinst.
      change (field "status" (VStr "configuring_vm")
              ++ field "awsInstanceId" (VStr (instance_id instance))
              ++ field "awsInstanceName" (VStr (instance_name instance))
              ++ field_opt "awsPublicIp" (instance_publicIp instance)
              ++ field "vmStatus" (VStr "running")
              ++ field "vmCreated" (VBool true))
        with (reuseData instance).
      destruct (present (instance_publicIp instance)) as [p|].
      - apply wp_ret. cbv beta iota. apply wp_ret.
        exists (Some p, []). by rewrite app_nil_r.
      - apply wp_call. rewrite Hget'. cbv beta iota. apply wp_ret.
        rewrite ext_ext. exists (ip', [Call "getInstance" [VStr (instance_id instance)]]).
        cbn [fst snd]. split; [|done]. by rewrite <- !app_assoc. }
    exists pubIp, evs. cbn [fst snd] in *. cbv zeta.
    split; [done|]. split; [by unfold instance, storedInstance; rewrite Hid|].
    split; [done|]. split; [done|].
    unfold runAWSSetupProcess at 1, bind at 1, reify at 1. by rewrite Heq.
Qed.

(** Without sandbox id the run reads no stored handle: whatever the legacy
    record holds, it calls createInstance, once. *)
Lemma run_without_sandbox_creates s :
  hasRecords userId vmId s →
  present vmId = None →
  calls "createInstance" (trace (run (start s)).2) = 1%nat.
Proof.
  intros Hrec Hv.
  destruct (run_after_acquire (start s)) as (evs2 & H2 & Hc2).
  assert (∃ evs, (acquire' (start s)).2 = ext (start s) evs
                 ∧ calls "createInstance" evs = 1%nat) as (evs1 & H1 & Hc1).
  { set (Q := λ (_ : Outcome (Instance * string * option string)) (w' : World),
           ∃ evs, w' = ext (start s) evs ∧ calls "createInstance" evs = 1%nat).
    change (wp acquire' Q (start s)). unfold acquire.
    apply wp_bind, wp_findUnique. apply wp_bind. rewrite Hv. apply wp_ret.
    cbv beta iota. unfold createNew, updateStatus. apply wp_bind, wp_bind.
    apply wp_updateStatusWith; [done|]. apply wp_bind, wp_call.
    destruct (createInstance E) as [created|e].
    - apply wp_bind_fold.
      lazymatch goal with
      | |- wp ?m _ _ => apply (wp_evolves noInstance m)
      end.
      { evolve. }
      intros o evs H. subst Q. cbv beta. eexists. rewrite !ext_ext.
      split; [done|].
      rewrite !calls_app, calls_statusWrites, (noInstance_calls evs) by done.
      rewrite calls_cons, calls_nil. cbn [isCall]. by rewrite String.eqb_refl.
    - subst Q. cbv beta. eexists. rewrite !ext_ext. split; [done|].
      rewrite calls_app, calls_statusWrites, calls_cons, calls_nil.
      cbn [isCall]. by rewrite String.eqb_refl. }
  rewrite H2, H1, ext_ext. change (trace (ext (start s) ?l)) with l.
  rewrite calls_app, Hc1, (noInstance_calls evs2) by done. lia.
Qed.

(** C7.  When the run is given a sandbox id and the sandbox record holds an
    instance handle and vmCreated = true, the run never calls
    createInstance; and when the AWS look-ups answer and the stored key
    decrypts, it takes the stored handle and the decrypted stored key,
    writes status configuring_vm with them and goes on with the
    configuration phase.  A run without sandbox id calls createInstance
    once, whatever the legacy record holds. *)
Theorem existing_instance_is_reused s :
  hasRecords userId vmId s →
  (∀ v row id,
     present vmId = Some v →
     vM s !! v = Some row →
     col row "awsInstanceId" = VStr id →
     id ≠ "" →
     col row "vmCreated" = VBool true →
       calls "createInstance" (trace (run (start s)).2) = 0%nat
       ∧ (∀ ip ip' key,
            getInstance E 0 = Returned ip →
            getInstance E 1 = Returned ip' →
            storedKey decrypt row = Returned key →
            let instance := storedInstance row ip in
            ∃ pubIp evs,
              let w1 := ext (start s)
                          (Call "getInstance" [VStr id]
                           :: status (reuseData instance)
                           ++ status (field "status" (VStr "configuring_vm"))
                           ++ evs) in
              acquire' (start s) = (Returned (instance, key, pubIp), w1)
              ∧ instance_id instance = id
              ∧ forallb quiet evs = true
              ∧ calls "createInstance" evs = 0%nat
              ∧ run (start s)
                = tryFinally (tryCatch configure' onError') cleanup w1))
  ∧ (present vmId = None →
     calls "createInstance" (trace (run (start s)).2) = 1%nat).
Proof.
  intros Hrec. split.
  - intros v row id Hv Hrow Hid Hne Hcreated.
    exact (sandbox_instance_is_reused s v row id Hrec Hv Hrow Hid Hne Hcreated).
  - intros Hv. by apply run_without_sandbox_creates.
Qed.

(** Without a Telegram token no step of the run is given the
    model-provider key: the run has no counterpart of the [storeAIApiKey]
    call of [runReprovisionProcess]. *)
Lemma aws_without_token_is_keyless :
  finalTelegramToken E telegramBotToken = None →
  evolves keyless run.
Proof.
  intros Htok. unfold_aws. rewrite Htok. evolve.
Qed.

End AWSClaims.

(** ** The guard of the ready write holds along both pipelines *)

Lemma lastSet_onlyTrue t key k evs v :
  forallb (onlyTrue k) evs = true →
  lastSet t key k evs = Some v → v = VBool true.
Proof.
  induction evs as [|ev evs IH]; [done|]. cbn [forallb lastSet].
  intros [Hev Hevs]%andb_true_iff.
  destruct (lastSet t key k evs) as [v'|]; [intros [= <-]; by apply IH|].
  unfold setAt, onlyTrue in *. destruct (writesTo t key ev); [|done].
  intros Hs. rewrite Hs in Hev. by apply bool_decide_eq_true in Hev.
Qed.

Lemma established_app s t key k evs evs' :
  is_Some (table t s !! key) →
  established s t key k evs →
  forallb (onlyTrue k) evs' = true →
  established s t key k (evs ++ evs').
Proof.
  intros Hsome [Hc (ev & Hin & Hset)] Hevs'. split.
  - rewrite colAt_replay in * by done. rewrite lastSet_app.
    destruct (lastSet t key k evs') as [v|] eqn:Hl; [|done].
    by rewrite (lastSet_onlyTrue _ _ _ _ _ Hevs' Hl).
  - exists ev. split; [|done]. apply elem_of_app. by left.
Qed.

Lemma readyGuard_nil s : readyGuard s [].
Proof. intros pre t key data post H. by destruct pre. Qed.

Lemma readyGuard_app s evs evs' :
  readyGuard s evs →
  forallb (λ ev, negb (setsReady ev)) evs' = true →
  readyGuard s (evs ++ evs').
Proof.
  intros Hg Hevs' pre t key data post Heq Hready.
  apply app_eq_app in Heq as [l [[-> Hl]|[-> Hl]]].
  - destruct l as [|x l].
    + simpl in Hl. rewrite forallb_forall in Hevs'.
      specialize (Hevs' (Write t key data)). rewrite <- Hl in Hevs'.
      rewrite Hready in Hevs'. discriminate Hevs'. by left.
    + injection Hl as <- _. by eapply Hg.
  - rewrite forallb_forall in Hevs'.
    specialize (Hevs' (Write t key data)). rewrite Hl in Hevs'.
    rewrite Hready in Hevs'. discriminate Hevs'.
    apply in_or_app. right. by left.
Qed.

Lemma neutral_keeps k evs :
  k = "vmCreated" ∨ k = "clawdbotInstalled" →
  forallb keepsCore evs = true → forallb (onlyTrue k) evs = true.
Proof.
  intros Hk. apply forallb_weaken. intros ev [H1 H2]%andb_true_iff.
  by destruct Hk as [->| ->].
Qed.

Section Tracking.

Variable s : Store.
Variable userId : string.
Variable vmId : option string.
Variable columns : list string.
Hypothesis Hrec : hasRecords userId vmId s.

Local Abbreviation status := (statusWrites columns userId vmId).

Lemma tracked_start : tracked s userId vmId false false (start s).
Proof. exists []. split; [by rewrite ext_nil|]. split; [apply readyGuard_nil|done]. Qed.

Lemma tracked_weaken v b w : tracked s userId vmId v b w → tracked s userId vmId false false w.
Proof. intros (T & -> & Hg & _). by exists T. Qed.

Lemma tracked_records v b w : tracked s userId vmId v b w → hasRecords userId vmId (db w).
Proof. intros (T & -> & _). by apply hasRecords_ext. Qed.

Lemma flagged_app k T evs :
  k = "vmCreated" ∨ k = "clawdbotInstalled" →
  flagged s userId vmId k T → forallb keepsCore evs = true → flagged s userId vmId k (T ++ evs).
Proof.
  intros Hk [H1 H2] Hevs. destruct Hrec as [Hs Hv]. split.
  - apply established_app; [done|done|by apply neutral_keeps].
  - intros x Hx. rewrite Hx in Hv.
    apply established_app; [done|by apply H2|by apply neutral_keeps].
Qed.

Lemma tracked_neutral v b w evs :
  tracked s userId vmId v b w → forallb neutral evs = true →
   tracked s userId vmId v b (ext w evs).
Proof.
  intros (T & -> & Hg & Hv & Hb) Hevs. exists (T ++ evs).
  assert (Hk : forallb keepsCore evs = true).
  { revert Hevs. apply forallb_weaken. by intros ev [? _]%andb_true_iff. }
  split; [by rewrite ext_ext|]. split; [|split].
  - apply readyGuard_app; [done|]. revert Hevs. apply forallb_weaken.
    by intros ev [_ ?]%andb_true_iff.
  - intros ->. apply flagged_app; auto.
  - intros ->. apply flagged_app; auto.
Qed.

Lemma tracks_neutral {A} v b (m : Async A) : evolves neutral m → tracks s userId vmId v b v b m.
Proof.
  intros Hm w Hw. apply (wp_evolves neutral m _ _ Hm). intros o evs Hevs.
  pose proof (tracked_neutral v b w evs Hw Hevs) as H.
  destruct o; [done|by eapply tracked_weaken].
Qed.

Lemma tracks_ret {A} v b (a : A) : tracks s userId vmId v b v b (ret a).
Proof. intros w Hw. by apply wp_ret. Qed.

Lemma tracks_throw {A} v b v' b' e : tracks s userId vmId v b v' b' (@throw A e).
Proof. intros w Hw. apply wp_throw. by eapply tracked_weaken. Qed.

Lemma tracks_bind {A B} v b v1 b1 v2 b2 (m : Async A) (k : A → Async B) :
  tracks s userId vmId v b v1 b1 m → (∀ a, tracks s userId vmId v1 b1 v2 b2 (k a)) →
  tracks s userId vmId v b v2 b2 (bind m k).
Proof.
  intros Hm Hk w Hw. apply wp_bind. eapply wp_mono; [by apply Hm|].
  intros [a|e] w' H; [by apply Hk|done].
Qed.

Lemma tracks_tryCatch {A} v b v' b' (m : Async A) h :
  tracks s userId vmId v b v' b' m →
   (∀ e, tracks s userId vmId false false false false (h e)) →
  tracks s userId vmId v b false false (tryCatch m h).
Proof.
  intros Hm Hh w Hw. apply wp_tryCatch. eapply wp_mono; [by apply Hm|].
  intros [a|e] w' H; [by eapply tracked_weaken|].
  eapply wp_mono; [by apply Hh|]. by intros [a|e'] w''.
Qed.

Lemma tracks_tryFinally {A} v b v' b' (m : Async A) f :
  tracks s userId vmId v b v' b' m → evolves neutral f →
  tracks s userId vmId v b false false (tryFinally m f).
Proof.
  intros Hm Hf w Hw. apply wp_tryFinally. eapply wp_mono; [by apply Hm|].
  intros o w' H. apply (wp_evolves neutral f _ _ Hf). intros _ evs Hevs.
  assert (tracked s userId vmId false false w') as H' by (destruct o; by eapply tracked_weaken).
  pose proof (tracked_neutral _ _ _ _ H' Hevs). by destruct o.
Qed.

(** An update that is neutral establishes the flags it sets to true. *)
Lemma tracks_update v b data :
  neutral (Write SetupStateT userId data) = true →
  (∀ x, neutral (Write VMT x (pick columns data)) = true) →
  tracks s userId vmId v b (v || hasTrue columns "vmCreated" data)
             (b || hasTrue columns "clawdbotInstalled" data)
    (updateStatusWith columns userId vmId data).
Proof.
  intros Hn1 Hn2 w Hw. apply wp_updateStatusWith; [by eapply tracked_records|].
  assert (Hevs : forallb neutral (status data) = true).
  { unfold statusWrites. cbn [forallb]. rewrite Hn1.
    destruct (present vmId); [|done]. destruct (0 <? _)%nat; [|done].
    cbn [forallb]. by rewrite Hn2. }
  pose proof (tracked_neutral v b w _ Hw Hevs) as (T & HT & Hg & Hv & Hb).
  destruct Hw as (T0 & -> & _). rewrite ext_ext in HT.
  assert (T = T0 ++ status data) as ->.
  { apply (f_equal trace) in HT. by simpl in HT. }
  assert (Hset : ∀ k, hasTrue columns k data = true →
                      flagged s userId vmId k (T0 ++ status data)).
  { intros k [H1 H2]%andb_true_iff.
    apply bool_decide_eq_true in H1. apply bool_decide_eq_true in H2.
    destruct Hrec as [Hs Hx]. split.
    - split.
      + rewrite colAt_replay, lastSet_app, lastSet_statusWrites_legacy by done.
        by rewrite H1.
      + exists (Write SetupStateT userId data). split.
        * apply elem_of_app. right. unfold statusWrites. by left.
        * by rewrite setAt_same.
    - intros x Hpx. rewrite Hpx in Hx. split.
      + rewrite colAt_replay, lastSet_app, (lastSet_statusWrites_vm _ _ _ x) by done.
        by rewrite H2.
      + exists (Write VMT x (pick columns data)). split.
        * apply elem_of_app. right. unfold statusWrites. rewrite Hpx.
          destruct (pick columns data) as [|p l] eqn:Hp; [done|].
          cbn. right. by left.
        * by rewrite setAt_same. }
  exists (T0 ++ status data). split; [by rewrite ext_ext|]. split; [done|].
  split.
  - intros [->|H]%orb_true_iff; [by apply Hv|by apply Hset].
  - intros [->|H]%orb_true_iff; [by apply Hb|by apply Hset].
Qed.

Lemma tracks_plain {A} v b (m : Async A) : evolves plain m → tracks s userId vmId v b v b m.
Proof.
  intros Hm. apply tracks_neutral. revert Hm. apply evolves_weaken.
  intros ev H. apply andb_true_iff in H as [H _].
  by apply andb_true_iff in H as [H _].
Qed.

Lemma tracks_update_to v b v' b' data :
  neutral (Write SetupStateT userId data) = true →
  (∀ x, neutral (Write VMT x (pick columns data)) = true) →
  v' = v || hasTrue columns "vmCreated" data →
  b' = b || hasTrue columns "clawdbotInstalled" data →
  tracks s userId vmId v b v' b' (updateStatusWith columns userId vmId data).
Proof. intros H1 H2 -> ->. by apply tracks_update. Qed.

(** With both flags established, an update that takes neither back may
    declare the sandbox ready. *)
Lemma tracks_ready data :
  keepsCore (Write SetupStateT userId data) = true →
  (∀ x, keepsCore (Write VMT x (pick columns data)) = true) →
  tracks s userId vmId true true true true (updateStatusWith columns userId vmId data).
Proof.
  intros Hk1 Hk2 w Hw. apply wp_updateStatusWith; [by eapply tracked_records|].
  destruct Hw as (T & -> & Hg & Hv & Hb).
  specialize (Hv eq_refl). specialize (Hb eq_refl).
  assert (Hevs : forallb keepsCore (status data) = true).
  { unfold statusWrites. cbn [forallb]. rewrite Hk1.
    destruct (present vmId); [|done]. destruct (0 <? _)%nat; [|done].
    cbn [forallb]. by rewrite Hk2. }
  exists (T ++ status data). split; [by rewrite ext_ext|].
  split; [|split; intros _; apply flagged_app; auto].
  intros pre t key d post Heq Hready.
  apply app_eq_app in Heq as [l [[-> Hl]|[-> Hl]]].
  { destruct l as [|x l].
    - simpl in Hl. rewrite app_nil_r in *. unfold statusWrites in Hl.
      injection Hl as -> -> -> _. destruct Hv as [Hv _], Hb as [Hb _]. done.
    - injection Hl as <- _. by eapply Hg. }
  assert (Hl' : forallb keepsCore l = true).
  { rewrite Hl, forallb_app in Hevs. by apply andb_true_iff in Hevs as [? _]. }
  assert (Hwhere : (t = SetupStateT ∧ key = userId)
                   ∨ (t = VMT ∧ present vmId = Some key)).
  { unfold statusWrites in Hl. destruct l as [|x l].
    - injection Hl as <- <- _. by left.
    - injection Hl as _ Hl. destruct (present vmId) as [y|]; [|by destruct l].
      destruct (0 <? _)%nat; [|by destruct l].
      destruct l as [|x' l]; [|by destruct l].
      injection Hl as <- <- _. by right. }
  destruct Hrec as [Hs Hx].
  destruct Hwhere as [[-> ->]|[-> Hkey]].
  - destruct Hv as [Hv _], Hb as [Hb _].
    split; apply established_app; auto using neutral_keeps.
  - destruct Hv as [_ Hv], Hb as [_ Hb]. rewrite Hkey in Hx.
    split; apply established_app; auto using neutral_keeps.
Qed.

End Tracking.

Ltac track_update H :=
  split_field_opt;
  first
    [ apply (tracks_ready _ _ _ _ H); [reflexivity|intros ?; reflexivity]
    | eapply (tracks_update_to _ _ _ _ H);
      [ reflexivity | intros ?; reflexivity
      | vm_compute; reflexivity | vm_compute; reflexivity ] ].

Ltac track_step H :=
  first
    [ apply (tracks_plain _ _ _ H); solve [evolve_all]
    | lazymatch goal with
      | |- tracks _ _ _ _ _ _ _ (bind _ _) => eapply tracks_bind; [|intros ?]
      | |- tracks _ _ _ _ _ _ _ (updateStatusWith _ _ _ _) => track_update H
      | |- tracks _ _ _ _ _ _ _ (tryCatch _ _) =>
          eapply tracks_tryCatch; [|intros ?]
      | |- tracks _ _ _ _ _ _ _ (tryFinally _ _) =>
          eapply (tracks_tryFinally _ _ _ H); [|solve [evolve_all]]
      | |- tracks _ _ _ _ _ _ _ (ret _) => apply tracks_ret
      | |- tracks _ _ _ _ _ _ _ (throw _) => apply tracks_throw
      | |- tracks _ _ _ _ _ _ _ (match ?x with _ => _ end) => destruct x
      end ].

Ltac track H := repeat track_step H.

Section AWSGuard.
Import AWS.
Variable sanitizeName : string → string.
Variable encrypt : string → string.
Variable decrypt : string → Outcome string.
Variable E : Env.
Variables (userId llmApiKey llmProvider llmModel : string).
Variables (awsRegion awsInstanceType : string).
Variables (telegramBotToken telegramUserId vmId : option string).
Variable s : Store.
Hypothesis Hrec : hasRecords userId vmId s.

Lemma acquire_tracks :
  tracks s userId vmId false false true false
    (acquire sanitizeName encrypt decrypt E userId awsRegion awsInstanceType vmId).
Proof.
  unfold acquire, reuseInstance, createNew, updateStatus. track Hrec.
Qed.

Lemma configure_tracks :
  tracks s userId vmId true false true true
    (configure E userId llmApiKey llmProvider llmModel telegramBotToken
       telegramUserId vmId).
Proof.
  unfold configure, customAmi, fullInstall, messaging, updateStatus.
  track Hrec.
Qed.

Lemma aws_tracks :
  tracks s userId vmId false false false false
    (runAWSSetupProcess sanitizeName encrypt decrypt E userId llmApiKey
       llmProvider llmModel awsRegion awsInstanceType telegramBotToken
       telegramUserId vmId).
Proof.
  intros w Hw. unfold runAWSSetupProcess. apply wp_bind, wp_reify.
  eapply wp_mono; [by apply acquire_tracks|].
  intros [a|e] w' H'; cbv beta iota.
  - eapply wp_mono.
    + apply (tracks_tryFinally _ _ _ Hrec true false false false);
         [|unfold cleanup; evolve|exact H'].
      apply (tracks_tryCatch _ _ _ true false true true);
        [apply configure_tracks|].
      intros e. apply (tracks_plain _ _ _ Hrec). unfold onError, updateStatus.
      evolve.
    + by intros [x|x] w''.
  - eapply wp_mono.
    + apply (tracks_plain _ _ _ Hrec false false (onError userId awsInstanceType vmId e));
        [|exact H'].
      unfold onError, updateStatus. evolve.
    + by intros [x|x] w''.
Qed.

(** Every ready write of an AWS run finds both core flags established. *)
Lemma aws_ready_guard :
  readyGuard s
    (trace (runAWSSetupProcess sanitizeName encrypt decrypt E userId llmApiKey
              llmProvider llmModel awsRegion awsInstanceType telegramBotToken
              telegramUserId vmId (start s)).2).
Proof.
  pose proof (aws_tracks (start s) (tracked_start s userId vmId)) as H. unfold wp in H.
  assert (tracked s userId vmId false false
            (runAWSSetupProcess sanitizeName encrypt decrypt E userId llmApiKey
               llmProvider llmModel awsRegion awsInstanceType telegramBotToken
               telegramUserId vmId (start s)).2) as (T & -> & Hg & _).
  { by destruct (runAWSSetupProcess _ _ _ _ _ _ _ _ _ _ _ _ _ _).1. }
  done.
Qed.

End AWSGuard.

Section ReprovisionGuard.
Import Reprovision.
Variable sanitizeName : string → string.
Variable E : Env.
Variables (userId aiApiKey projectName : string).
Variables (oldComputerId vmId : option string).
Variables (orgoRam orgoCpu : Z).
Variable aiProvider : string.
Variable s : Store.
Hypothesis Hrec : hasRecords userId vmId s.

Lemma reprovision_tracks :
  tracks s userId vmId false false false false
    (runReprovisionProcess sanitizeName E userId aiApiKey projectName
       oldComputerId vmId orgoRam orgoCpu aiProvider).
Proof.
  unfold_reprovision. track Hrec.
Qed.

Lemma reprovision_ready_guard :
  readyGuard s
    (trace (runReprovisionProcess sanitizeName E userId aiApiKey projectName
              oldComputerId vmId orgoRam orgoCpu aiProvider (start s)).2).
Proof.
  pose proof (reprovision_tracks (start s) (tracked_start s userId vmId)) as H. unfold wp in H.
  assert (tracked s userId vmId false false
            (runReprovisionProcess sanitizeName E userId aiApiKey projectName
               oldComputerId vmId orgoRam orgoCpu aiProvider (start s)).2)
    as (T & -> & Hg & _).
  { by destruct (runReprovisionProcess _ _ _ _ _ _ _ _ _ _ _).1. }
  done.
Qed.

End ReprovisionGuard.

(** * The claims on worked inputs *)

Lemma orgoStore_records : hasRecords "U2" None Examples.orgoStore.
Proof. split; [|done]. by eexists. Qed.

Lemma awsFreshStore_records : hasRecords "u1" None Examples.awsFreshStore.
Proof. split; [|done]. by eexists. Qed.

Lemma awsProvisionedStore_records :
  hasRecords "u1" (Some "vm1") Examples.awsProvisionedStore.
Proof. split; by eexists. Qed.

(** The run of user U2 goes on after the failed deletion of r-old and ends
    ready with the handle r-new. *)
Lemma reprovision_survives_failed_delete_witness :
  let w' := (Examples.reprovisionRun Examples.orgoDeleteFails
               (start Examples.orgoStore)).2 in
  Reprovision.deleteComputer Examples.orgoDeleteFails
  = Threw (newError "computer not found")
  ∧ colAt (db w') SetupStateT "U2" "status" = VStr "ready"
  ∧ colAt (db w') SetupStateT "U2" "orgoComputerId" = VStr "r-new".
Proof.
  pose proof (reprovision_survives_failed_delete (λ n, n) Examples.orgoDeleteFails
                "U2" "sk-ant-key" "claude-brain" (Some "r-old") None 4 2
                "anthropic" Examples.orgoStore "r-old"
                orgoStore_records eq_refl) as (_ & _ & H).
  specialize (H _ Examples.newComputer (Some "1.0") eq_refl eq_refl eq_refl
                eq_refl eq_refl eq_refl eq_refl).
  destruct H as (_ & _ & Hready & _ & Hid & _).
  split; [reflexivity|]. split; [exact Hready|exact Hid].
Defined.


(** * Creation attempts *)

Section CreationAttempts.

Variable sanitizeName : string → string.
Variable encrypt : string → string.
Variable decrypt : string → Outcome string.
Variable A : AWS.Env.
Variable E : Reprovision.Env.
Variable userId : string.
Variables (llmApiKey llmProvider llmModel awsRegion awsInstanceType : string).
Variables (telegramBotToken telegramUserId : option string).
Variables (aiApiKey projectName : string).
Variable oldComputerId : option string.
Variables (orgoRam orgoCpu : Z).
Variable aiProvider : string.
Variable vmId : option string.

Local Abbreviation provision :=
  (AWS.runAWSSetupProcess sanitizeName encrypt decrypt A userId llmApiKey
     llmProvider llmModel awsRegion awsInstanceType telegramBotToken
     telegramUserId vmId).
Local Abbreviation reprovision :=
  (Reprovision.runReprovisionProcess sanitizeName E userId aiApiKey projectName
     oldComputerId vmId orgoRam orgoCpu aiProvider).

(** On AWS a rejected creation call is not repeated: the run ends with what
    the [catch] clause writes for that error. *)
Lemma aws_creation_failure s e :
  hasRecords userId vmId s →
  AWS.reusable (existing vmId s) = false →
  AWS.createInstance A = Threw e →
  let w' := (provision (start s)).2 in
  calls "createInstance" (trace w') = 1%nat
  ∧ (AWS.isFreeTierError e = false →
     colAt (db w') SetupStateT userId "status" = VStr "failed"
     ∧ colAt (db w') SetupStateT userId "errorMessage" = VStr (failedMessage e)
     ∧ (∀ v, present vmId = Some v →
          colAt (db w') VMT v "status" = VStr "failed"
          ∧ colAt (db w') VMT v "errorMessage" = VStr (failedMessage e)))
  ∧ (AWS.isFreeTierError e = true →
     colAt (db w') SetupStateT userId "status" = VStr "requires_payment"
     ∧ (∀ v, present vmId = Some v →
          colAt (db w') VMT v "status" = VStr "requires_payment")).
Proof.
  intros Hrec Hnot He w'. subst w'.
  pose proof (creation_fails sanitizeName encrypt decrypt A userId llmApiKey
                llmProvider llmModel awsRegion awsInstanceType telegramBotToken
                telegramUserId vmId s e Hrec Hnot He) as Htry.
  pose proof (λ k, run_caught_columns sanitizeName encrypt decrypt A userId
                     llmApiKey llmProvider llmModel awsRegion awsInstanceType
                     telegramBotToken telegramUserId vmId s e _ k Hrec Htry)
    as Hcol.
  cbv zeta in Hcol. unfold errorData in Hcol.
  split; [|split].
  - destruct (run_caught sanitizeName encrypt decrypt A userId llmApiKey
                llmProvider llmModel awsRegion awsInstanceType telegramBotToken
                telegramUserId vmId s e _ Hrec Htry)
      as (evs & tail & Hevs & Hrun & _).
    destruct (aws_creates_once sanitizeName encrypt decrypt A userId llmApiKey
                llmProvider llmModel awsRegion awsInstanceType telegramBotToken
                telegramUserId vmId (start s)) as (all & Hall & Hle).
    apply (f_equal trace) in Hevs.
    change (trace (ext (start s) ?l)) with l in Hevs. subst evs.
    rewrite Hrun in Hall. apply (f_equal trace) in Hall.
    change (trace (ext (start s) ?l)) with l in Hall.
    rewrite Hrun. change (trace (ext (start s) ?l)) with l.
    rewrite <- Hall in Hle. revert Hle.
    rewrite !calls_app, !calls_statusWrites, calls_cons, calls_nil.
    cbn [isCall]. rewrite String.eqb_refl. lia.
  - intros Hft. rewrite Hft in Hcol.
    destruct (Hcol "status") as [-> Hs], (Hcol "errorMessage") as [-> Hm].
    split; [done|]. split; [done|]. intros v Hv.
    by rewrite (Hs v Hv), (Hm v Hv).
  - intros Hft. rewrite Hft in Hcol. destruct (Hcol "status") as [-> Hs].
    split; [done|]. intros v Hv. by rewrite (Hs v Hv).
Qed.

(** C6 (amended).  A reprovisioning run calls createComputer three times at
    most, within one segment of its trace where every call but the first
    comes directly after a three-second sleep; when the three attempts fail
    and no computer of the requested name is found, the run ends with status
    failed and the message of the third error.  A provisioning run on AWS
    calls createInstance once at most; when that call is rejected the run
    ends with status failed and the message of the error, unless the error
    is a Free Tier restriction: then it ends with status requires_payment. *)
Theorem creation_attempts_are_bounded s :
  hasRecords userId vmId s →
  (∃ pre attempts post,
     trace (reprovision (start s)).2 = pre ++ attempts ++ post
     ∧ calls "createComputer" pre = 0%nat
     ∧ calls "createComputer" post = 0%nat
     ∧ (calls "createComputer" attempts ≤ 3)%nat
     ∧ spaced None attempts = true)
  ∧ (∀ project computerName w1 e,
       Reprovision.prelude sanitizeName E userId projectName oldComputerId vmId
         (start s) = (Returned (project, computerName), w1) →
       (∀ j, (j < 3)%nat → failsAt E computerName j) →
       Reprovision.createComputer E 2 = Threw e →
       let w' := (reprovision (start s)).2 in
       calls "createComputer" (trace w') = 3%nat
       ∧ colAt (db w') SetupStateT userId "status" = VStr "failed"
       ∧ colAt (db w') SetupStateT userId "errorMessage"
         = VStr (message (Reprovision.asError e))
       ∧ (∀ v, present vmId = Some v →
            colAt (db w') VMT v "status" = VStr "failed"
            ∧ colAt (db w') VMT v "errorMessage"
              = VStr (message (Reprovision.asError e))))
  ∧ (calls "createInstance" (trace (provision (start s)).2) ≤ 1)%nat
  ∧ (∀ e,
       AWS.reusable (existing vmId s) = false →
       AWS.createInstance A = Threw e →
       let w' := (provision (start s)).2 in
       calls "createInstance" (trace w') = 1%nat
       ∧ (AWS.isFreeTierError e = false →
          colAt (db w') SetupStateT userId "status" = VStr "failed"
          ∧ colAt (db w') SetupStateT userId "errorMessage" = VStr (failedMessage e)
          ∧ (∀ v, present vmId = Some v →
               colAt (db w') VMT v "status" = VStr "failed"
               ∧ colAt (db w') VMT v "errorMessage" = VStr (failedMessage e)))
       ∧ (AWS.isFreeTierError e = true →
          colAt (db w') SetupStateT userId "status" = VStr "requires_payment"
          ∧ (∀ v, present vmId = Some v →
               colAt (db w') VMT v "status" = VStr "requires_payment"))).
Proof.
  intros Hrec. split; [|split; [|split]].
  - destruct (reprovision_retry_budget sanitizeName E userId aiApiKey projectName
                oldComputerId vmId orgoRam orgoCpu aiProvider (start s))
      as (pre & attempts & post & -> & H).
    by exists pre, attempts, post.
  - intros project computerName w1 e Hpre Hfail He.
    by apply (reprovision_exhausted sanitizeName E userId aiApiKey projectName
                oldComputerId vmId orgoRam orgoCpu aiProvider s project
                computerName w1 e).
  - destruct (aws_creates_once sanitizeName encrypt decrypt A userId llmApiKey
                llmProvider llmModel awsRegion awsInstanceType telegramBotToken
                telegramUserId vmId (start s)) as (all & -> & Hle).
    done.
  - intros e Hnot He. by apply aws_creation_failure.
Qed.

End CreationAttempts.

(** Three refused attempts end the run of U2 failed with the third message;
    a refused creation call ends the AWS run failed after a single call. *)
Lemma creation_attempts_are_bounded_witness :
  let w' := (Examples.reprovisionRun Examples.orgoRefuses
               (start Examples.orgoStore)).2 in
  let a' := (AWS.runAWSSetupProcess (λ n, n) (λ k, k) (λ c, Returned c)
               (Examples.awsCreating (Threw Examples.capacityError))
               "U2" "sk-ant-key" "anthropic" "claude" "us-east-1" "t3.micro"
               None None None (start Examples.orgoStore)).2 in
  calls "createComputer" (trace w') = 3%nat
  ∧ colAt (db w') SetupStateT "U2" "status" = VStr "failed"
  ∧ colAt (db w') SetupStateT "U2" "errorMessage"
    = VStr "quota exceeded, attempt 2"
  ∧ calls "createInstance" (trace a') = 1%nat
  ∧ colAt (db a') SetupStateT "U2" "status" = VStr "failed"
  ∧ colAt (db a') SetupStateT "U2" "errorMessage" = VStr "Insufficient capacity".
Proof.
  destruct (Reprovision.prelude (λ n, n) Examples.orgoRefuses "U2" "claude-brain"
              (Some "r-old") None (start Examples.orgoStore))
    as [o w1] eqn:Hpre.
  assert (o = Returned (Reprovision.mkProject "p-1" "claude-brain", "claude-brain"))
    as ->.
  { vm_compute in Hpre. by injection Hpre as <- _. }
  pose proof (creation_attempts_are_bounded (λ n, n) (λ k, k) (λ c, Returned c)
                (Examples.awsCreating (Threw Examples.capacityError))
                Examples.orgoRefuses "U2" "sk-ant-key" "anthropic" "claude"
                "us-east-1" "t3.micro" None None "sk-ant-key" "claude-brain"
                (Some "r-old") 4 2 "anthropic" None Examples.orgoStore
                orgoStore_records) as (_ & Hexhausted & _ & Hrejected).
  specialize (Hexhausted _ _ w1 (newError "quota exceeded, attempt 2") Hpre).
  destruct Hexhausted as (H1 & H2 & H3 & _); [|reflexivity|].
  { intros j Hj. exists (newError ("quota exceeded, attempt " +:+ pretty j)).
    split; [reflexivity|]. left.
    destruct j as [|[|[|j]]]; [reflexivity..|lia]. }
  destruct (Hrejected Examples.capacityError eq_refl eq_refl) as (H4 & H5 & _).
  destruct (H5 eq_refl) as (H6 & H7 & _).
  repeat split; assumption.
Defined.

(** On AWS a creation call rejected for the Free Tier ends the run with
    status requires_payment: the creation error is not surfaced as failed. *)
Lemma aws_free_tier_creation_is_not_failed :
  let w' := (Examples.awsRun (Examples.awsCreating (Threw Examples.freeTierError))
               (start Examples.awsFreshStore)).2 in
  calls "createInstance" (trace w') = 1%nat
  ∧ colAt (db w') SetupStateT "u1" "status" = VStr "requires_payment"
  ∧ colAt (db w') SetupStateT "u1" "status" ≠ VStr "failed".
Proof. vm_compute. split; [done|]. split; [done|]. discriminate. Qed.

(** A creation call rejected for the Free Tier ends the run of u1 with
    status requires_payment and the sentinel of the requested type, and
    leaves vmCreated unset; a creation call rejected for lack of capacity
    ends it with status failed and the message of the error. *)
Lemma billing_error_requires_payment_witness :
  let w' := (Examples.awsRun (Examples.awsCreating (Threw Examples.freeTierError))
               (start Examples.awsFreshStore)).2 in
  let w'' := (Examples.awsRun (Examples.awsCreating (Threw Examples.capacityError))
                (start Examples.awsFreshStore)).2 in
  (colAt (db w') SetupStateT "u1" "status" = VStr "requires_payment"
   ∧ colAt (db w') SetupStateT "u1" "errorMessage" = VStr "BILLING_REQUIRED:t3.micro"
   ∧ colAt (db w') SetupStateT "u1" "vmCreated" = VNull)
  ∧ colAt (db w'') SetupStateT "u1" "status" = VStr "failed"
  ∧ colAt (db w'') SetupStateT "u1" "errorMessage" = VStr "Insufficient capacity".
Proof.
  split.
  - destruct (AWS.tryBlock (λ n, n) (λ k, k) (λ c, Returned c)
                (Examples.awsCreating (Threw Examples.freeTierError))
                "u1" "sk-ant-key" "anthropic" "claude" "us-east-1" "t3.micro"
                None None None (start Examples.awsFreshStore))
      as [o w1] eqn:Htry.
    assert (o = Threw Examples.freeTierError) as ->.
    { vm_compute in Htry. by injection Htry as <- _. }
    pose proof (billing_error_requires_payment (λ n, n) (λ k, k) (λ c, Returned c)
                  (Examples.awsCreating (Threw Examples.freeTierError))
                  "u1" "sk-ant-key" "anthropic" "claude" "us-east-1" "t3.micro"
                  None None None Examples.awsFreshStore Examples.freeTierError w1
                  awsFreshStore_records Htry) as (Hpay & _ & Hcreated).
    destruct (Hpay eq_refl) as (H1 & H2 & _).
    destruct (Hcreated eq_refl eq_refl) as (H3 & _).
    split; [exact H1|]. split; [exact H2|]. etrans; [exact H3|reflexivity].
  - destruct (AWS.tryBlock (λ n, n) (λ k, k) (λ c, Returned c)
                (Examples.awsCreating (Threw Examples.capacityError))
                "u1" "sk-ant-key" "anthropic" "claude" "us-east-1" "t3.micro"
                None None None (start Examples.awsFreshStore))
      as [o w1] eqn:Htry.
    assert (o = Threw Examples.capacityError) as ->.
    { vm_compute in Htry. by injection Htry as <- _. }
    pose proof (billing_error_requires_payment (λ n, n) (λ k, k) (λ c, Returned c)
                  (Examples.awsCreating (Threw Examples.capacityError))
                  "u1" "sk-ant-key" "anthropic" "claude" "us-east-1" "t3.micro"
                  None None None Examples.awsFreshStore Examples.capacityError w1
                  awsFreshStore_records Htry) as (_ & Hfailed & _).
    destruct (Hfailed eq_refl) as (H1 & H2 & _).
    split; [exact H1|exact H2].
Defined.

(** The record of u1 has vmCreated = true from an earlier run; the run has
    no sandbox id, so it creates an instance, and the creation call is
    rejected for the Free Tier: the run ends with status requires_payment
    and vmCreated still true. *)
Lemma aws_billing_error_leaves_vmCreated_true :
  let w' := (Examples.awsRun (Examples.awsCreating (Threw Examples.freeTierError))
               (start Examples.configuredStore)).2 in
  calls "createInstance" (trace w') = 1%nat
  ∧ colAt (db w') SetupStateT "u1" "status" = VStr "requires_payment"
  ∧ colAt (db w') SetupStateT "u1" "vmCreated" = VBool true
  ∧ colAt (db w') SetupStateT "u1" "vmCreated" ≠ VBool false.
Proof. vm_compute. split; [done|]. split; [done|]. split; [done|discriminate]. Qed.

(** The sandbox vm1 has the instance i-0abc: the run creates none,
    acquires the stored instance with the stored key, and ends ready with
    the same instance. *)
Lemma existing_instance_is_reused_witness :
  let instance := AWS.mkInstance "i-0abc" "box" (Some "1.2.3.4") in
  let r := Examples.awsRunOn Examples.awsOk (Some "vm1")
             (start Examples.awsProvisionedStore) in
  calls "createInstance" (trace r.2) = 0%nat
  ∧ (∃ pubIp w1,
       AWS.acquire (λ n, n) (λ k, k) (λ c, Returned c) Examples.awsOk "u1"
         "us-east-1" "t3.micro" (Some "vm1") (start Examples.awsProvisionedStore)
       = (Returned (instance, "enc-pem", pubIp), w1))
  ∧ colAt (db r.2) VMT "vm1" "status" = VStr "ready"
  ∧ colAt (db r.2) VMT "vm1" "awsInstanceId" = VStr "i-0abc".
Proof.
  destruct (existing_instance_is_reused (λ n, n) (λ k, k) (λ c, Returned c)
              Examples.awsOk "u1" "sk-ant-key" "anthropic" "claude" "us-east-1"
              "t3.micro" None None (Some "vm1") Examples.awsProvisionedStore
              awsProvisionedStore_records) as [Hsome _].
  destruct (Hsome "vm1" Examples.awsProvisionedVM "i-0abc")
    as [Hcalls Hreuse]; [reflexivity..|done|reflexivity|].
  destruct (Hreuse (Some "1.2.3.4") (Some "1.2.3.4") "enc-pem")
    as (pubIp & evs & Hacq & _); [reflexivity..|].
  split; [exact Hcalls|]. split; [eexists pubIp, _; exact Hacq|].
  split; vm_compute; reflexivity.
Defined.

(** The legacy record of u1 holds the instance i-0abc and vmCreated = true;
    the run has no sandbox id: it creates the instance i-1 and stores its
    id over the old one. *)
Lemma aws_legacy_handle_is_not_reused :
  let s := Examples.awsLegacyProvisionedStore in
  let w' := (Examples.awsRun Examples.awsOk (start s)).2 in
  colAt s SetupStateT "u1" "awsInstanceId" = VStr "i-0abc"
  ∧ colAt s SetupStateT "u1" "vmCreated" = VBool true
  ∧ calls "createInstance" (trace w') = 1%nat
  ∧ colAt (db w') SetupStateT "u1" "awsInstanceId" = VStr "i-1"
  ∧ colAt (db w') SetupStateT "u1" "status" = VStr "ready".
Proof. vm_compute. by repeat split. Qed.

(** * Runs without a Telegram token *)

(** C8.  The AWS run of u1 with no Telegram token, neither supplied nor in
    the environment, and with every install step succeeding ends ready with
    vmCreated and clawdbotInstalled set, never writes telegramConfigured or
    gatewayStarted, and hands the model-provider key to no step: its trace
    has no call of storeAIApiKey, setupClawdbotTelegram or
    startClawdbotGateway.  The reprovisioning run of U2 in the same
    situation calls storeAIApiKey once. *)
Theorem aws_run_without_token_stores_no_key :
  let w' := (Examples.awsRun Examples.awsOk (start Examples.awsFreshStore)).2 in
  AWS.finalTelegramToken Examples.awsOk None = None
  ∧ colAt (db w') SetupStateT "u1" "status" = VStr "ready"
  ∧ colAt (db w') SetupStateT "u1" "vmCreated" = VBool true
  ∧ colAt (db w') SetupStateT "u1" "clawdbotInstalled" = VBool true
  ∧ lastSet SetupStateT "u1" "telegramConfigured" (trace w') = None
  ∧ lastSet SetupStateT "u1" "gatewayStarted" (trace w') = None
  ∧ forallb keyless (trace w') = true
  ∧ calls "storeAIApiKey" (trace w') = 0%nat
  ∧ calls "storeAIApiKey"
      (trace (Examples.reprovisionRun Examples.orgoDeleteFails
                (start Examples.orgoStore)).2) = 1%nat.
Proof. vm_compute. repeat split. Qed.

(** * Ready implies the core flags *)

(** C1.  In a provisioning run and in a reprovisioning run, every write of
    status ready finds vmCreated and clawdbotInstalled true on the record it
    writes to, each of them written true by an earlier event of the run. *)
Theorem ready_implies_core_flags sanitizeName encrypt decrypt
    (A : AWS.Env) (E : Reprovision.Env) userId
    llmApiKey llmProvider llmModel awsRegion awsInstanceType
    telegramBotToken telegramUserId
    aiApiKey projectName oldComputerId orgoRam orgoCpu aiProvider vmId s :
  hasRecords userId vmId s →
  readyGuard s
    (trace (AWS.runAWSSetupProcess sanitizeName encrypt decrypt A userId
              llmApiKey llmProvider llmModel awsRegion awsInstanceType
              telegramBotToken telegramUserId vmId (start s)).2)
  ∧ readyGuard s
      (trace (Reprovision.runReprovisionProcess sanitizeName E userId aiApiKey
                projectName oldComputerId vmId orgoRam orgoCpu aiProvider
                (start s)).2).
Proof.
  intros Hrec. split.
  - by apply aws_ready_guard.
  - by apply reprovision_ready_guard.
Qed.

(** The run of u1 writes ready, and at that write both flags are
    established. *)
Lemma ready_implies_core_flags_witness :
  ∃ pre post,
    trace (Examples.awsRun Examples.awsOk (start Examples.awsFreshStore)).2
    = pre ++ Write SetupStateT "u1" (field "status" (VStr "ready")) :: post
    ∧ established Examples.awsFreshStore SetupStateT "u1" "vmCreated" pre
    ∧ established Examples.awsFreshStore SetupStateT "u1" "clawdbotInstalled" pre.
Proof.
  pose proof (ready_implies_core_flags (λ n, n) (λ k, k) (λ c, Returned c)
                Examples.awsOk Examples.orgoDeleteFails "u1"
                "sk-ant-key" "anthropic" "claude" "us-east-1" "t3.micro"
                None None "sk-ant-key" "claude-brain" None 4 2 "anthropic"
                None Examples.awsFreshStore awsFreshStore_records) as [Hg _].
  assert (∃ pre post,
    trace (Examples.awsRun Examples.awsOk (start Examples.awsFreshStore)).2
    = pre ++ Write SetupStateT "u1" (field "status" (VStr "ready")) :: post)
    as (pre & post & Heq).
  { vm_compute. eexists [_; _; _; _; _; _; _; _; _; _; _; _], [_].
    reflexivity. }
  exists pre, post. split; [exact Heq|].
  by apply (Hg pre SetupStateT "u1" (field "status" (VStr "ready")) post).
Defined.

(** * The key endpoints: PUT and DELETE *)

Section KeyEndpoints.

Variable encrypt : string → Outcome string.
Variable decrypt : string → Outcome string.

Local Abbreviation PUT := (KeyWrite.PUT encrypt).
Local Abbreviation GET := (KeyStatus.GET decrypt).

(** X1. PUT answers 200 only for an authenticated request whose body has a
    string member claudeApiKey that starts with sk-ant- and that encrypt
    accepts; every other request is answered 400, 401 or 500 and leaves the
    store as it was. *)
Theorem put_stores_only_valid_keys session requestBody s :
  let r := PUT session requestBody s in
  (httpStatus r.1 = 200 →
     ∃ uid parsed members claudeApiKey encryptedKey,
       session = Returned (Some uid) ∧ uid ≠ ""
       ∧ requestBody = Returned parsed
       ∧ members_of parsed = Some members
       ∧ member "claudeApiKey" members = Some (JStr claudeApiKey)
       ∧ String.prefix "sk-ant-" claudeApiKey = true
       ∧ encrypt claudeApiKey = Returned encryptedKey
       ∧ r.2 = KeyWrite.upsert s uid encryptedKey)
  ∧ (httpStatus r.1 ≠ 200 →
     r.2 = s ∧ (httpStatus r.1 = 400 ∨ httpStatus r.1 = 401 ∨ httpStatus r.1 = 500)).
Proof.
  unfold KeyWrite.PUT, sessionUser, present.
  destruct session as [[uid|]|e]; cbn; try (split; [discriminate|auto]).
  destruct (String.eqb uid "") eqn:Huid; cbn; try (split; [discriminate|auto]).
  apply String.eqb_neq in Huid.
  destruct requestBody as [parsed|e]; cbn; try (split; [discriminate|auto]).
  destruct (members_of parsed) as [members|] eqn:Hm; cbn;
    try (split; [discriminate|auto]).
  destruct (member "claudeApiKey" members) as [[| | |k| |]|] eqn:Hk; cbn;
    try (split; [discriminate|auto]).
  destruct (String.eqb k "") eqn:Hk0; cbn; try (split; [discriminate|auto]).
  destruct (String.prefix "sk-ant-" k) eqn:Hp; cbn;
    try (split; [discriminate|auto]).
  destruct (encrypt k) as [enc|e] eqn:He; cbn; try (split; [discriminate|auto]).
  split; [|done]. intros _. by exists uid, parsed, members, k, enc.
Qed.

Lemma lookup_patch_field (r : Row) k v c :
  patch (field k v) r !! c = if String.eqb c k then Some v else r !! c.
Proof.
  unfold patch, field. cbn. destruct (String.eqb c k) eqn:H.
  - apply String.eqb_eq in H as ->. by rewrite lookup_insert_eq.
  - apply String.eqb_neq in H. by rewrite lookup_insert_ne.
Qed.

Lemma upsert_key s uid enc :
  ∃ row, setupState (KeyWrite.upsert s uid enc) !! uid = Some row
         ∧ col row "claudeApiKey" = VStr enc.
Proof.
  unfold KeyWrite.upsert, written. cbn [table].
  destruct (setupState s !! uid) as [row|] eqn:Hrow; cbn [table setTable setupState].
  - rewrite lookup_insert_eq. eexists. split; [done|].
    unfold col. by rewrite lookup_patch_field.
  - rewrite lookup_insert_eq. eexists. split; [done|]. by vm_compute.
Qed.

(** X2. A key that PUT accepted is the key GET reports: when decrypt
    undoes encrypt on it, GET answers hasKey = true with the mask that PUT
    answered. *)
Theorem put_then_get uid claudeApiKey encryptedKey members s :
  uid ≠ "" →
  member "claudeApiKey" members = Some (JStr claudeApiKey) →
  String.prefix "sk-ant-" claudeApiKey = true →
  encrypt claudeApiKey = Returned encryptedKey →
  encryptedKey ≠ "" →
  decrypt encryptedKey = Returned claudeApiKey →
  let r := PUT (Returned (Some uid)) (Returned (JObj members)) s in
  httpStatus r.1 = 200
  ∧ body r.1 !! "maskedKey" = Some (VStr (KeyStatus.maskKey claudeApiKey))
  ∧ GET (Returned (Some uid)) r.2
    = json (field "hasKey" (VBool true)
            ++ field "maskedKey" (VStr (KeyStatus.maskKey claudeApiKey))).
Proof.
  intros Huid Hk Hp He Henc Hd. apply String.eqb_neq in Huid.
  assert (Hk0 : String.eqb claudeApiKey "" = false).
  { destruct claudeApiKey; [discriminate Hp|done]. }
  unfold KeyWrite.PUT, KeyStatus.GET, sessionUser, present.
  rewrite Huid. cbn [members_of]. rewrite Hk, Hk0, Hp, He. cbn [negb fst snd].
  split; [done|]. split; [done|].
  destruct (upsert_key s uid encryptedKey) as (row & -> & Hcol).
  rewrite Hcol. cbn [truthy str_of]. apply String.eqb_neq in Henc.
  by rewrite Henc, Hd.
Qed.

Lemma written_frame s t key data :
  (∀ t', t' ≠ t → table t' (written s t key data) = table t' s)
  ∧ (∀ key', key' ≠ key → table t (written s t key data) !! key' = table t s !! key')
  ∧ (table t s !! key = None → written s t key data = s)
  ∧ (∀ row, table t s !! key = Some row →
            table t (written s t key data) !! key = Some (patch data row)).
Proof.
  unfold written. destruct (table t s !! key) as [row|] eqn:Hrow.
  - split; [|split; [|split]]; try done.
    + intros t' Ht. by destruct t, t'.
    + intros key' Hk. destruct t; cbn; by rewrite lookup_insert_ne.
    + intros row' [= <-]. destruct t; cbn; by rewrite lookup_insert_eq.
  - by repeat split.
Qed.

(** The store after PUT: the old one, or the old one with a ciphertext
    upserted for the caller. *)
Lemma PUT_store session requestBody s :
  (PUT session requestBody s).2 = s
  ∨ ∃ uid enc, session = Returned (Some uid) ∧ uid ≠ ""
               ∧ (PUT session requestBody s).2 = KeyWrite.upsert s uid enc.
Proof.
  unfold KeyWrite.PUT, sessionUser, present.
  destruct session as [[uid|]|e]; [|by left..].
  destruct (String.eqb_spec uid "") as [->|Huid]; [by left|].
  destruct requestBody as [parsed|e]; [|by left].
  destruct (members_of parsed) as [members|]; [|by left].
  destruct (member "claudeApiKey" members) as [[| | |k| |]|]; try by left.
  destruct (String.eqb k ""); [by left|].
  destruct (negb (String.prefix "sk-ant-" k)); [by left|].
  destruct (encrypt k) as [enc|e]; [|by left].
  right. by exists uid, enc.
Qed.

(** X3. PUT writes nothing but the key column of the caller's record: the
    sandbox table and the records of the other users are what they were, an
    existing record keeps every other column, and a record is created only
    for the caller, with status pending. *)
Theorem put_touches_only_the_key session requestBody s :
  let s' := (PUT session requestBody s).2 in
  vM s' = vM s
  ∧ (∀ uid, session ≠ Returned (Some uid) →
            setupState s' !! uid = setupState s !! uid)
  ∧ (∀ uid row, setupState s !! uid = Some row →
       ∃ row', setupState s' !! uid = Some row'
               ∧ ∀ c, c ≠ "claudeApiKey" → col row' c = col row c)
  ∧ (∀ uid row', setupState s !! uid = None →
       setupState s' !! uid = Some row' →
       session = Returned (Some uid) ∧ col row' "status" = VStr "pending").
Proof.
  cbv zeta.
  destruct (PUT_store session requestBody s)
    as [->|(uid & enc & -> & Huid & ->)].
  { split; [done|]. split; [done|]. split.
    - intros uid row Hrow. by exists row.
    - intros uid row' Hnone Hsome. congruence. }
  unfold KeyWrite.upsert.
  pose proof (written_frame s SetupStateT uid (field "claudeApiKey" (VStr enc)))
    as (Ht & Hk & _ & Hrow).
  destruct (setupState s !! uid) as [row0|] eqn:Hrow0.
  - split; [exact (Ht VMT ltac:(done))|]. split; [|split].
    + intros uid' Hne. apply Hk. congruence.
    + intros uid' row Hrow'. destruct (decide (uid' = uid)) as [->|Hne].
      * rewrite Hrow0 in Hrow'. injection Hrow' as <-.
        exists (patch (field "claudeApiKey" (VStr enc)) row0).
        split; [by apply Hrow|]. intros c Hc. unfold col.
        rewrite lookup_patch_field. apply String.eqb_neq in Hc. by rewrite Hc.
      * exists row. split; [|done]. cbn [table] in Hk. by rewrite Hk.
    + intros uid' row' Hnone Hsome. destruct (decide (uid' = uid)) as [->|Hne].
      * congruence.
      * cbn [table] in Hk. rewrite Hk in Hsome by done. congruence.
  - cbn [setTable vM setupState]. split; [done|]. split; [|split].
    + intros uid' Hne. rewrite lookup_insert_ne; [done|congruence].
    + intros uid' row Hrow'. exists row. split; [|done].
      rewrite lookup_insert_ne; [done|congruence].
    + intros uid' row' Hnone Hsome. destruct (decide (uid' = uid)) as [->|Hne].
      * rewrite lookup_insert_eq in Hsome. injection Hsome as <-.
        split; [done|]. by vm_compute.
      * rewrite lookup_insert_ne in Hsome by done. congruence.
Qed.

(** X4. After DELETE the caller has no key: GET answers hasKey = false.
    DELETE creates no record, keeps every other column of the caller's
    record, and leaves the other records and the sandbox table alone. *)
Theorem delete_then_get uid s :
  uid ≠ "" →
  let r := KeyWrite.DELETE (Returned (Some uid)) s in
  httpStatus r.1 = 200
  ∧ GET (Returned (Some uid)) r.2 = KeyStatus.noKey
  ∧ vM r.2 = vM s
  ∧ (∀ uid', uid' ≠ uid → setupState r.2 !! uid' = setupState s !! uid')
  ∧ (setupState s !! uid = None → r.2 = s)
  ∧ (∀ row, setupState s !! uid = Some row →
       ∃ row', setupState r.2 !! uid = Some row'
               ∧ ∀ c, c ≠ "claudeApiKey" → col row' c = col row c).
Proof.
  intros Huid. cbv zeta. unfold KeyWrite.DELETE, KeyStatus.GET, sessionUser, present.
  apply String.eqb_neq in Huid. rewrite Huid.
  pose proof (written_frame s SetupStateT uid (field "claudeApiKey" VNull))
    as (Ht & Hk & _ & Hrow).
  destruct (setupState s !! uid) as [row|] eqn:Hrow0; cbn [fst snd].
  - split; [done|]. cbn [table] in *. rewrite (Hrow row Hrow0).
    split; [|split; [|split; [|split]]].
    + unfold col. by rewrite lookup_patch_field.
    + exact (Ht VMT ltac:(done)).
    + intros uid' Hne. by apply Hk.
    + done.
    + intros row' [= <-]. eexists. split; [done|]. intros c Hc. unfold col.
      rewrite lookup_patch_field. apply String.eqb_neq in Hc. by rewrite Hc.
  - split; [done|]. rewrite Hrow0. by repeat split.
Qed.

End KeyEndpoints.

Lemma put_then_get_witness :
  let r := KeyWrite.PUT (λ k, Returned ("enc:" +:+ k)) (Returned (Some "u1"))
             (Returned (JObj [("claudeApiKey", JStr Examples.plainKey)]))
             Examples.awsFreshStore in
  KeyStatus.GET (Examples.decryptTo Examples.plainKey) (Returned (Some "u1")) r.2
  = json (field "hasKey" (VBool true)
          ++ field "maskedKey" (VStr "sk-ant-api03...IJKL")).
Proof.
  apply (put_then_get (λ k, Returned ("enc:" +:+ k))
           (Examples.decryptTo Examples.plainKey) "u1" Examples.plainKey
           ("enc:" +:+ Examples.plainKey)
           [("claudeApiKey", JStr Examples.plainKey)] Examples.awsFreshStore);
    done.
Defined.

Lemma delete_then_get_witness :
  KeyStatus.GET (Examples.decryptTo Examples.plainKey) (Returned (Some "u1"))
    (KeyWrite.DELETE (Returned (Some "u1")) Examples.storeWithKey).2
  = KeyStatus.noKey.
Proof.
  apply (delete_then_get (Examples.decryptTo Examples.plainKey) "u1"
           Examples.storeWithKey). done.
Defined.

(** * The status endpoint: the other paths *)

(** X5. A status query for a sandbox that exists but belongs to another
    user is answered 404 VM not found, the answer given when no such
    sandbox exists: it tells nothing of the record. *)
Theorem status_hides_foreign_sandboxes s uid vmId vm :
  uid ≠ "" → vmId ≠ "" →
  vM s !! vmId = Some vm →
  col vm "userId" ≠ VStr uid →
  let resp := Status.GET (Returned (Some uid)) (Some vmId) s in
  resp = jsonStatus (field "error" (VStr "VM not found")) 404
  ∧ resp = Status.GET (Returned (Some uid)) (Some vmId)
             {| setupState := setupState s; vM := delete vmId (vM s) |}.
Proof.
  intros Huid Hvm Hrow Hother. cbv zeta.
  unfold Status.GET, sessionUser, ownedVM. rewrite !present_Some by done.
  cbn [vM]. rewrite Hrow, lookup_delete_eq.
  by destruct (decide (col vm "userId" = VStr uid)).
Qed.

Lemma status_hides_foreign_sandboxes_witness :
  Status.GET (Returned (Some "u2")) (Some "vm1") Examples.storeWithPendingVM
  = jsonStatus (field "error" (VStr "VM not found")) 404.
Proof.
  apply (status_hides_foreign_sandboxes Examples.storeWithPendingVM "u2" "vm1"
           Examples.awsPendingVM); done.
Defined.

(** X6. Without a sandbox id (or with an empty one) the status query
    answers from the caller's legacy record: the ten core columns and
    vmProvider are copied; the four AWS columns appear exactly when
    vmProvider is aws, with the console URL when the instance id and the
    region are set; orgoComputerId and orgoComputerUrl appear for every
    other provider, null included.  A caller without a record is answered
    status pending with every flag false. *)
Theorem status_legacy_projection s uid vmIdParam :
  uid ≠ "" →
  present vmIdParam = None →
  let resp := Status.GET (Returned (Some uid)) vmIdParam s in
  httpStatus resp = 200
  ∧ (∀ row, setupState s !! uid = Some row →
       let isAws := bool_decide (col row "vmProvider" = VStr "aws") in
       (∀ k, k ∈ legacyCore → body resp !! k = Some (col row k))
       ∧ body resp !! "vmProvider" = Some (col row "vmProvider")
       ∧ (∀ k, k ∈ legacyAws →
            body resp !! k = if isAws then Some (col row k) else None)
       ∧ body resp !! "awsConsoleUrl"
         = (if isAws && truthy (col row "awsInstanceId")
               && truthy (col row "awsRegion")
            then Some (VStr (Status.consoleUrl (col row "awsRegion")
                               (col row "awsInstanceId")))
            else None)
       ∧ (∀ k, k ∈ legacyOrgo →
            body resp !! k = if isAws then None else Some (col row k)))
  ∧ (setupState s !! uid = None →
       body resp !! "status" = Some (VStr "pending")
       ∧ body resp !! "vmProvider" = Some VNull
       ∧ ∀ k, k ∈ ["vmCreated"; "repoCreated"; "repoCloned"; "gitSyncConfigured";
                   "clawdbotInstalled"; "telegramConfigured"; "gatewayStarted"] →
              body resp !! k = Some (VBool false)).
Proof.
  intros Huid Hvm. cbv zeta.
  unfold Status.GET, sessionUser. rewrite present_Some by done. rewrite Hvm.
  destruct (setupState s !! uid) as [row|] eqn:Hrow.
  - split; [done|]. split; [|done]. intros ? [= <-].
    unfold Status.legacyResponse. repeat split.
    all: try (intros k Hk; rewrite body_json;
              unfold legacyCore, legacyAws, legacyOrgo in Hk;
              repeat (apply elem_of_cons in Hk as [->|Hk]);
              [..|by apply elem_of_nil in Hk]).
    all: rewrite ?body_json;
         destruct (decide (col row "vmProvider" = VStr "aws")) as [Ha|Ha];
         [rewrite ?(bool_decide_eq_true_2 _ Ha)|rewrite ?(bool_decide_eq_false_2 _ Ha)];
         try destruct (truthy (col row "awsInstanceId"));
         try destruct (truthy (col row "awsRegion"));
         reflexivity.
  - split; [done|]. split; [done|]. intros _. rewrite !body_json.
    split; [done|]. split; [done|]. intros k Hk. rewrite body_json.
    repeat (apply elem_of_cons in Hk as [->|Hk]); [..|by apply elem_of_nil in Hk];
      reflexivity.
Qed.

Lemma status_legacy_projection_witness :
  body (Status.GET (Returned (Some "U2")) None Examples.orgoStore) !! "orgoComputerId"
  = Some (VStr "r-old").
Proof.
  pose proof (status_legacy_projection Examples.orgoStore "U2" None) as H.
  destruct H as (_ & H & _); [done..|].
  destruct (H Examples.orgoRow eq_refl) as (_ & _ & _ & _ & Ho).
  apply (Ho "orgoComputerId"). apply elem_of_cons. by left.
Defined.

(** * The reprovision request: refusals and failures *)

Section RequestOutcomes.
Import Reprovision.

Variable decrypt : string → Outcome string.

Ltac refused := intros ? ? ?; discriminate.

(** A request that starts a job is answered 200. *)
Lemma POST_job_answer session bodyVmId w resp j w' :
  POST decrypt session bodyVmId w = (Returned (resp, Some j), w') →
  httpStatus resp = 200.
Proof.
  intros H.
  assert (wp (POST decrypt session bodyVmId)
            (λ o _, ∀ resp j, o = Returned (resp, Some j) → httpStatus resp = 200)
            w) as Hwp;
    [|unfold wp in Hwp; rewrite H in Hwp; exact (Hwp resp j eq_refl)].
  clear H. unfold POST, refuse. apply wp_tryCatch, wp_bind, wp_liftOutcome.
  destruct session as [sess|e]; [|apply wp_ret; refused].
  destruct (sessionUser sess) as [uid|]; [|apply wp_ret; refused].
  apply wp_bind, wp_findUnique.
  destruct (table SetupStateT (db w) !! uid) as [setupState|];
    [|apply wp_ret; refused].
  apply wp_bind.
  assert (∀ Q : Outcome (option Row) → World → Prop,
            (∀ r, Q (Returned r) w) →
            wp (match present bodyVmId with
                | Some v => findFirstVM v uid
                | None => ret None
                end) Q w) as Hvm.
  { intros Q HQ.
    destruct (present bodyVmId); [apply wp_findFirstVM|apply wp_ret]; apply HQ. }
  apply Hvm. intros vm. clear Hvm.
  destruct (negb (bool_decide _)); [apply wp_ret; refused|].
  destruct (negb (truthy _)); [apply wp_ret; refused|].
  apply wp_bind.
  set (stored := col setupState _).
  assert (∀ Q : Outcome (option string) → World → Prop,
            (∀ r, Q (Returned r) w) → (∀ e, Q (Threw e) w) →
            wp (if truthy stored
                then bind (liftOutcome (decrypt (str_of stored))) (λ k, ret (Some k))
                else ret None) Q w) as Hkey.
  { intros Q HQ HE. destruct (truthy stored); [|apply wp_ret, HQ].
    apply wp_bind, wp_liftOutcome.
    destruct (decrypt _); [apply wp_ret, HQ|apply HE]. }
  apply Hkey; clear Hkey; [|intros e; apply wp_ret; refused].
  intros aiApiKey. destruct (present aiApiKey) as [key|]; [|apply wp_ret; refused].
  apply wp_bind, wp_update_cases; [intros _|intros _; apply wp_ret; refused].
  apply wp_bind.
  destruct (present bodyVmId) as [v|].
  - apply wp_update_cases; [intros _|intros _; apply wp_ret; refused].
    apply wp_bind, wp_liftOutcome.
    destruct (decrypt _) as [orgoKey|e]; [|apply wp_ret; refused].
    apply wp_ret. by intros ? ? [= <- <-].
  - apply wp_ret. apply wp_bind, wp_liftOutcome.
    destruct (decrypt _) as [orgoKey|e]; [|apply wp_ret; refused].
    apply wp_ret. by intros ? ? [= <- <-].
Qed.

(** The outcomes of the handler once the [vmId] of the body is read. *)
Lemma POST_outcomes session bodyVmId w :
  ∃ resp job evs,
    POST decrypt session bodyVmId w = (Returned (resp, job), ext w evs)
    ∧ (httpStatus resp = 200 ∨ httpStatus resp = 400 ∨ httpStatus resp = 401
       ∨ httpStatus resp = 404 ∨ httpStatus resp = 500)
    ∧ (httpStatus resp = 200 ↔ is_Some job)
    ∧ (∀ j, job = Some j → evs = resetWrites j)
    ∧ (httpStatus resp = 400 ∨ httpStatus resp = 401 ∨ httpStatus resp = 404 →
       evs = [])
    ∧ (httpStatus resp = 500 →
       evs = []
       ∨ ∃ uid, session = Returned (Some uid)
                ∧ (evs = [Write SetupStateT uid resetData]
                   ∨ ∃ v, present bodyVmId = Some v
                          ∧ evs = [Write SetupStateT uid resetData;
                                   Write VMT v resetData])).
Proof.
  set (Q := λ (o : Outcome (Response * option Job)) (w' : World),
    ∃ resp job evs,
      (o, w') = (Returned (resp, job), ext w evs)
      ∧ (httpStatus resp = 200 ∨ httpStatus resp = 400 ∨ httpStatus resp = 401
         ∨ httpStatus resp = 404 ∨ httpStatus resp = 500)
      ∧ (httpStatus resp = 200 ↔ is_Some job)
      ∧ (∀ j, job = Some j → evs = resetWrites j)
      ∧ (httpStatus resp = 400 ∨ httpStatus resp = 401 ∨ httpStatus resp = 404 →
         evs = [])
      ∧ (httpStatus resp = 500 →
         evs = []
         ∨ ∃ uid, session = Returned (Some uid)
                  ∧ (evs = [Write SetupStateT uid resetData]
                     ∨ ∃ v, present bodyVmId = Some v
                            ∧ evs = [Write SetupStateT uid resetData;
                                     Write VMT v resetData]))).
  assert (Hrefuse : ∀ msg st, (st = 400 ∨ st = 401 ∨ st = 404 ∨ st = 500) →
            Q (Returned (jsonStatus (field "error" (VStr msg)) st, None)) w).
  { intros msg st Hst. exists (jsonStatus (field "error" (VStr msg)) st), None, [].
    rewrite ext_nil. split; [done|]. cbn [httpStatus jsonStatus].
    split; [tauto|]. split.
    { split; [intros ->; by destruct Hst as [?|[?|[?|?]]]|by intros [? ?]]. }
    split; [done|]. split; [done|]. by left. }
  assert (wp (POST decrypt session bodyVmId) Q w) as HQ;
    [|unfold wp in HQ; by destruct (POST decrypt session bodyVmId w)].
  unfold POST, refuse. apply wp_tryCatch, wp_bind, wp_liftOutcome.
  destruct session as [sess|e]; [|apply wp_ret, Hrefuse; tauto].
  unfold sessionUser.
  destruct sess as [uid0|]; [|apply wp_ret, Hrefuse; tauto].
  cbn [present]. destruct (String.eqb uid0 "") eqn:Huid;
    [apply wp_ret, Hrefuse; tauto|].
  set (uid := uid0).
  apply wp_bind, wp_findUnique. simpl table.
  destruct (setupState (db w) !! uid) as [setupState|] eqn:Hrow;
    [|apply wp_ret, Hrefuse; tauto].
  apply wp_bind.
  assert (Hvm : ∀ Q : Outcome (option Row) → World → Prop,
            (∀ r, Q (Returned r) w) →
            wp (match present bodyVmId with
                | Some v => findFirstVM v uid
                | None => ret None
                end) Q w).
  { intros Q' HQ'.
    destruct (present bodyVmId); [apply wp_findFirstVM|apply wp_ret]; apply HQ'. }
  apply Hvm. intros vm. clear Hvm.
  destruct (negb (bool_decide _)); [apply wp_ret, Hrefuse; tauto|].
  destruct (negb (truthy _)); [apply wp_ret, Hrefuse; tauto|].
  apply wp_bind.
  set (stored := col setupState _).
  assert (Hkey : ∀ Q : Outcome (option string) → World → Prop,
            (∀ r, Q (Returned r) w) → (∀ e, Q (Threw e) w) →
            wp (if truthy stored
                then bind (liftOutcome (decrypt (str_of stored))) (λ k, ret (Some k))
                else ret None) Q w).
  { intros Q' HQ' HE. destruct (truthy stored); [|apply wp_ret, HQ'].
    apply wp_bind, wp_liftOutcome.
    destruct (decrypt _); [apply wp_ret, HQ'|apply HE]. }
  apply Hkey; clear Hkey; [|intros e; apply wp_ret, Hrefuse; tauto].
  intros aiApiKey.
  destruct (present aiApiKey) as [key|]; [|apply wp_ret, Hrefuse; tauto].
  apply wp_bind, wp_update_cases; simpl table; [intros _|by rewrite Hrow].
  assert (Hfail : ∀ msg evs,
            evs = [Write SetupStateT uid resetData]
            ∨ (∃ v, present bodyVmId = Some v
                    ∧ evs = [Write SetupStateT uid resetData; Write VMT v resetData]) →
            Q (Returned (jsonStatus (field "error" (VStr msg)) 500, None)) (ext w evs)).
  { intros msg evs Hevs. exists (jsonStatus (field "error" (VStr msg)) 500), None, evs.
    split; [done|]. cbn [httpStatus jsonStatus]. split; [tauto|]. split.
    { split; [done|by intros [? ?]]. }
    split; [done|]. split; [intros [?|[?|?]]; done|].
    intros _. right. exists uid. split; [done|]. done. }
  apply wp_bind.
  destruct (present bodyVmId) as [v|] eqn:Hv.
  - apply wp_update_cases; [intros Hex|intros _; apply wp_ret, Hfail; by left].
    apply wp_bind, wp_liftOutcome.
    destruct (decrypt _) as [orgoKey|e].
    + apply wp_ret. eexists _, (Some _), _. rewrite ext_ext.
      split; [reflexivity|]. cbn [httpStatus json]. split; [tauto|].
      split; [split; [by eexists|done]|].
      split; [by intros j [= <-]|]. split; [intros [?|[?|?]]; done|done].
    + apply wp_ret. rewrite ext_ext. apply Hfail. right. by exists v.
  - apply wp_ret. apply wp_bind, wp_liftOutcome.
    destruct (decrypt _) as [orgoKey|e].
    + apply wp_ret. eexists _, (Some _), _.
      split; [reflexivity|]. cbn [httpStatus json]. split; [tauto|].
      split; [split; [by eexists|done]|].
      split; [by intros j [= <-]|]. split; [intros [?|[?|?]]; done|done].
    + apply wp_ret. apply Hfail. by left.
Qed.

(** X7. For every session and every request body whose [vmId], when it is
    truthy, is a string, the reprovision POST never rejects and answers 200,
    400, 401, 404 or 500.  A job is started exactly with the answer 200,
    after the reset of the legacy record and of the sandbox named in the
    body; an answer 400, 401 or 404 leaves the store as it was; an answer
    500 starts no job, but the reset of the legacy record, or of both
    records, may already be written.  A body that is no JSON counts as an
    empty object; a body that parses to null is answered 500, with the
    message of the TypeError, before anything is read or written. *)
Theorem reprovision_post_outcomes typeErrorMessage session requestBody m w :
  ReprovisionRequest.POST decrypt typeErrorMessage session requestBody = Some m →
  ∃ resp job evs,
    m w = (Returned (resp, job), ext w evs)
    ∧ (httpStatus resp = 200 ∨ httpStatus resp = 400 ∨ httpStatus resp = 401
       ∨ httpStatus resp = 404 ∨ httpStatus resp = 500)
    ∧ (httpStatus resp = 200 ↔ is_Some job)
    ∧ (∀ j, job = Some j → evs = resetWrites j)
    ∧ (httpStatus resp = 400 ∨ httpStatus resp = 401 ∨ httpStatus resp = 404 →
       evs = [])
    ∧ (httpStatus resp = 500 →
       evs = []
       ∨ ∃ uid, session = Returned (Some uid)
                ∧ (evs = [Write SetupStateT uid resetData]
                   ∨ ∃ vmId v,
                       ReprovisionRequest.readVmId requestBody
                       = ReprovisionRequest.VmId vmId
                       ∧ present vmId = Some v
                       ∧ evs = [Write SetupStateT uid resetData;
                                Write VMT v resetData]))
    ∧ (∀ uid, session = Returned (Some uid) → uid ≠ "" →
         ReprovisionRequest.readVmId requestBody = ReprovisionRequest.NullBody →
         resp = jsonStatus (field "error" (VStr typeErrorMessage)) 500
         ∧ job = None ∧ evs = [])
    ∧ (∀ e vmId, requestBody = Threw e →
         ReprovisionRequest.readVmId requestBody = ReprovisionRequest.VmId vmId →
         vmId = None).
Proof.
  intros Hm.
  assert (Hplain : ∀ vmId,
    m = POST decrypt session vmId →
    vmId = None
    ∨ ReprovisionRequest.readVmId requestBody = ReprovisionRequest.VmId vmId →
    (∀ uid, session = Returned (Some uid) → uid ≠ "" →
       ReprovisionRequest.readVmId requestBody ≠ ReprovisionRequest.NullBody) →
    ∃ resp job evs,
      m w = (Returned (resp, job), ext w evs)
      ∧ (httpStatus resp = 200 ∨ httpStatus resp = 400 ∨ httpStatus resp = 401
         ∨ httpStatus resp = 404 ∨ httpStatus resp = 500)
      ∧ (httpStatus resp = 200 ↔ is_Some job)
      ∧ (∀ j, job = Some j → evs = resetWrites j)
      ∧ (httpStatus resp = 400 ∨ httpStatus resp = 401 ∨ httpStatus resp = 404 →
         evs = [])
      ∧ (httpStatus resp = 500 →
         evs = []
         ∨ ∃ uid, session = Returned (Some uid)
                  ∧ (evs = [Write SetupStateT uid resetData]
                     ∨ ∃ vmId v,
                         ReprovisionRequest.readVmId requestBody
                         = ReprovisionRequest.VmId vmId
                         ∧ present vmId = Some v
                         ∧ evs = [Write SetupStateT uid resetData;
                                  Write VMT v resetData]))
      ∧ (∀ uid, session = Returned (Some uid) → uid ≠ "" →
           ReprovisionRequest.readVmId requestBody = ReprovisionRequest.NullBody →
           resp = jsonStatus (field "error" (VStr typeErrorMessage)) 500
           ∧ job = None ∧ evs = [])
      ∧ (∀ e vmId, requestBody = Threw e →
           ReprovisionRequest.readVmId requestBody = ReprovisionRequest.VmId vmId →
           vmId = None)).
  { intros vmId -> Hread Hnull.
    destruct (POST_outcomes session vmId w)
      as (resp & job & evs & Hrun & Hst & Hjob & Hreset & Hquiet & Hfail).
    exists resp, job, evs. split; [done|]. split; [done|]. split; [done|].
    split; [done|]. split; [done|]. split; [|split].
    - intros H500. destruct (Hfail H500) as [->|(uid & -> & Hevs)]; [by left|].
      right. exists uid. split; [done|].
      destruct Hevs as [->|(v & Hv & ->)]; [by left|]. right.
      exists vmId, v. split; [|done].
      destruct Hread as [->|Hread]; [discriminate Hv|done].
    - intros uid Hs Huid Hn. by destruct (Hnull uid Hs Huid).
    - intros e vmId' ->. cbn. by intros [= <-]. }
  unfold ReprovisionRequest.POST in Hm.
  destruct session as [sess|e];
    [|injection Hm as <-; apply (Hplain None); [done|by left|done]].
  destruct (sessionUser sess) as [uid0|] eqn:Hsess.
  2: { injection Hm as <-. apply (Hplain None); [done|by left|].
       intros uid [= ->] Huid. unfold sessionUser in Hsess.
       by rewrite present_Some in Hsess. }
  destruct (ReprovisionRequest.readVmId requestBody) as [vmId| |] eqn:Hread;
    [| |done].
  - injection Hm as <-. apply (Hplain vmId); [done|by right|done].
  - injection Hm as <-. unfold refuse, ret. cbn [fst snd].
    exists (jsonStatus (field "error" (VStr typeErrorMessage)) 500), None, [].
    rewrite ext_nil. split; [done|]. cbn [httpStatus jsonStatus].
    split; [tauto|]. split; [split; [done|by intros [? ?]]|].
    split; [done|]. split; [done|]. split; [by left|]. split; [done|].
    intros e vmId ->. discriminate Hread.
Qed.

(** X8. The reset of the sandbox record is keyed by the sandbox id alone.
    When the caller's legacy record passes the checks and [findFirst] finds
    no sandbox of that id for the caller: a sandbox of that id that exists
    all the same is reset and the job is started for it; and if none
    exists, the request is answered 500 with no job, after the legacy record
    was reset. *)
Theorem reprovision_post_sandbox_by_id uid v row key orgoKey w :
  uid ≠ "" → v ≠ "" →
  setupState (db w) !! uid = Some row →
  col row "vmProvider" = VStr "orgo" →
  truthy (col row "orgoApiKey") = true →
  let aiProvider := str_of (orElse (col row "aiProvider") (VStr "anthropic")) in
  let stored := col row (apiKeyColumn aiProvider) in
  truthy stored = true →
  decrypt (str_of stored) = Returned key → key ≠ "" →
  decrypt (str_of (col row "orgoApiKey")) = Returned orgoKey →
  ownedVM (db w) v uid = None →
  let r := POST decrypt (Returned (Some uid)) (Some v) w in
  (is_Some (vM (db w) !! v) →
     ∃ resp j, r.1 = Returned (resp, Some j)
               ∧ httpStatus resp = 200
               ∧ job_vmId j = Some v
               ∧ job_userId j = uid
               ∧ resetState (db r.2) VMT v)
  ∧ (vM (db w) !! v = None →
     ∃ resp, r.1 = Returned (resp, None)
             ∧ httpStatus resp = 500
             ∧ r.2 = ext w [Write SetupStateT uid resetData]
             ∧ resetState (db r.2) SetupStateT uid).
Proof.
  intros Huid Hv Hrow Hprov Horgo aiProvider stored Hstored Hkey Hkey0 Hokey Hown r.
  assert (Hlegacy : resetState (db (ext w [Write SetupStateT uid resetData]))
                      SetupStateT uid).
  { unfold resetState.
    change (db (ext w ?l)) with (replay (db w) l).
    rewrite !colAt_replay by (by eexists). cbn [lastSet].
    by rewrite !setAt_same. }
  set (Q := λ (o : Outcome (Response * option Job)) (w' : World),
    (is_Some (vM (db w) !! v) →
       ∃ resp j, o = Returned (resp, Some j)
                 ∧ httpStatus resp = 200
                 ∧ job_vmId j = Some v
                 ∧ job_userId j = uid
                 ∧ resetState (db w') VMT v)
    ∧ (vM (db w) !! v = None →
       ∃ resp, o = Returned (resp, None)
               ∧ httpStatus resp = 500
               ∧ w' = ext w [Write SetupStateT uid resetData]
               ∧ resetState (db w') SetupStateT uid)).
  change (wp (POST decrypt (Returned (Some uid)) (Some v)) Q w).
  unfold POST, refuse, sessionUser.
  apply wp_tryCatch, wp_bind, wp_liftOutcome. cbv beta iota.
  rewrite !present_Some by done.
  apply wp_bind, wp_findUnique. simpl table. rewrite Hrow. cbv beta iota.
  apply wp_bind, wp_findFirstVM. rewrite Hown. cbv beta iota zeta.
  unfold orElse at 1. cbn [truthy]. rewrite Hprov.
  rewrite bool_decide_eq_true_2 by done. cbn [negb]. rewrite Horgo. cbn [negb].
  fold aiProvider. fold stored. rewrite Hstored.
  apply wp_bind, wp_bind, wp_liftOutcome. rewrite Hkey. apply wp_ret.
  rewrite present_Some by done.
  apply wp_bind, wp_update; [simpl table; by rewrite Hrow|].
  apply wp_bind, wp_update_cases.
  - intros Hex. apply wp_bind, wp_liftOutcome. rewrite Hokey. apply wp_ret.
    rewrite ext_ext. subst Q. cbv beta. split.
    + intros _. eexists _, _. split; [reflexivity|]. split; [done|].
      split; [done|]. split; [done|].
      change (db (ext w [Write SetupStateT uid resetData]))
        with (written (db w) SetupStateT uid resetData) in Hex.
      rewrite table_written in Hex.
      rewrite decide_False in Hex by (by intros [? _]).
      unfold resetState. change (db (ext w ?l)) with (replay (db w) l).
      rewrite !colAt_replay by done. simpl. unfold setAt. simpl.
      rewrite String.eqb_refl. simpl. done.
    + intros Hnone.
      change (db (ext w [Write SetupStateT uid resetData]))
        with (written (db w) SetupStateT uid resetData) in Hex.
      rewrite table_written in Hex.
      rewrite decide_False in Hex by (by intros [? _]).
      simpl table in Hex. rewrite Hnone in Hex. by destruct Hex.
  - intros Hnone. apply wp_ret. subst Q. cbv beta. split.
    + intros Hsome.
      change (db (ext w [Write SetupStateT uid resetData]))
        with (written (db w) SetupStateT uid resetData) in Hnone.
      rewrite table_written in Hnone.
      rewrite decide_False in Hnone by (by intros [? _]).
      simpl table in Hnone. rewrite Hnone in Hsome. by destruct Hsome.
    + intros _. eexists. split; [reflexivity|]. split; [done|]. by split.
Qed.

End RequestOutcomes.

(** * More on the reprovisioning run *)

(** A step whose events satisfy [P], followed by the rest. *)
Lemma wp_then {A B} (P : Event → bool) (m : Async A) (k : A → Async B)
    (Q : Outcome B → World → Prop) w :
  evolves P m →
  (∀ o evs, forallb P evs = true →
     match o with
     | Returned a => wp (k a) Q (ext w evs)
     | Threw e => Q (Threw e) (ext w evs)
     end) →
  wp (bind m k) Q w.
Proof.
  intros Hm HQ. apply wp_bind. apply (wp_evolves P m); [done|].
  intros o evs H. exact (HQ o evs H).
Qed.

Section ReprovisionRuns.
Import Reprovision.
Variable sanitizeName : string → string.
Variable E : Env.
Variables (userId aiApiKey projectName : string).
Variables (oldComputerId vmId : option string).
Variables (orgoRam orgoCpu : Z).
Variable aiProvider : string.

Local Abbreviation run :=
  (runReprovisionProcess sanitizeName E userId aiApiKey projectName
     oldComputerId vmId orgoRam orgoCpu aiProvider).
Local Abbreviation tryBlock' :=
  (tryBlock sanitizeName E userId aiApiKey projectName
     oldComputerId vmId orgoRam orgoCpu aiProvider).
Local Abbreviation status := (statusWrites vmColumns userId vmId).

(** The run in which every step succeeds at once and no Telegram token is
    set, from any world. *)
Lemma run_succeeds_from w projects c ver :
  hasRecords userId vmId (db w) →
  listProjects E = Returned projects →
  createComputer E 0 = Returned c →
  installPython E = Returned true →
  installOrgoPythonSDK E = Returned tt →
  installClawdbot E = Returned (true, ver) →
  present (TELEGRAM_BOT_TOKEN E) = None →
  storeAIApiKey E = Returned tt →
  ∃ x : Project * string * list Event,
    run w
    = (Returned tt,
       ext w
         (deleteEvents oldComputerId ++ status clearData ++ x.2
          ++ status (field "orgoProjectId" (VStr (project_id x.1.1)))
          ++ [Call "createComputer" (createArgs orgoRam orgoCpu x.1.1 x.1.2)]
          ++ status (handleData c)
          ++ [Call "waitForReady" [VStr (computer_id c); VNum 30; VNum 5000];
              Sleep 15000]
          ++ status (field "vmCreated" (VBool true) ++ field "vmStatus" (VStr "running"))
          ++ status (field "status" (VStr "configuring_vm"))
          ++ [Call "installPython" []; Call "installOrgoPythonSDK" [];
              Call "installClawdbot" []]
          ++ status (field "clawdbotInstalled" (VBool true))
          ++ [Call "storeAIApiKey" [VStr aiApiKey; VStr aiProvider]]
          ++ status (field "status" (VStr "ready"))))
    ∧ forallb projectCall x.2 = true.
Proof.
  intros Hrec Hlp Hcc Hpy Hsdk Hcl Htok Hst.
  apply wp_ex. unfold_run. wp_go.
  eexists (_, _, _). split; [|eassumption].
  rewrite !ext_ext. simpl. rewrite <- ?app_assoc. reflexivity.
Qed.

(** The [try] block returns only through the write of status ready. *)
Lemma tryBlock_returns_ready w :
  hasRecords userId vmId (db w) →
  ∃ evs, (tryBlock' w).2 = ext w evs
         ∧ ∀ a, (tryBlock' w).1 = Returned a →
                ∃ pre, evs = pre ++ status (field "status" (VStr "ready")).
Proof.
  intros Hrec.
  set (Q := λ (o : Outcome unit) (w' : World),
    ∃ evs, w' = ext w evs
           ∧ ∀ a, o = Returned a →
                  ∃ pre, evs = pre ++ status (field "status" (VStr "ready"))).
  change (wp tryBlock' Q w).
  assert (Hthrew : ∀ e evs, Q (Threw e) (ext w evs)).
  { intros e evs. exists evs. by split. }
  unfold tryBlock.
  apply (wp_then (λ _, true)).
  { unfold prelude, deleteOld, resolveProject, resolveComputerName, updateStatus.
    evolve. }
  intros [named|e] evs0 _; [|apply Hthrew].
  apply (wp_then (λ _, true)); [by apply createLoop_evolves|].
  intros [[[c|] le]|e] evs1 _; rewrite ?ext_ext; [|apply wp_throw, Hthrew|apply Hthrew].
  cbn [fst snd]. unfold withComputer, updateStatus.
  do 5 (apply (wp_then (λ _, true)); [evolve|];
        intros [?|?] ? _; rewrite ?ext_ext; [|apply Hthrew]).
  apply (wp_then (λ _, true));
    [unfold install, pythonDiagnostics, updateStatus; evolve|].
  intros [?|?] ? _; rewrite ?ext_ext; [|apply Hthrew].
  apply (wp_then (λ _, true)); [unfold messaging, updateStatus; evolve|].
  intros [?|?] ? _; rewrite ?ext_ext; [|apply Hthrew].
  apply wp_updateStatusWith; [has_records|]. rewrite ext_ext.
  eexists. split; [reflexivity|]. intros _ _. eexists. reflexivity.
Qed.

(** X10. With the records of the run present, the reprovisioning run never
    rejects, and it ends in one of two states: status ready when its [try]
    block returns, and status failed with the message of the error when the
    block throws. *)
Theorem reprovision_run_ends_ready_or_failed s :
  hasRecords userId vmId s →
  let r := run (start s) in
  r.1 = Returned tt
  ∧ match (tryBlock' (start s)).1 with
    | Returned _ =>
        colAt (db r.2) SetupStateT userId "status" = VStr "ready"
        ∧ (∀ v, present vmId = Some v →
                colAt (db r.2) VMT v "status" = VStr "ready")
    | Threw e =>
        colAt (db r.2) SetupStateT userId "status" = VStr "failed"
        ∧ colAt (db r.2) SetupStateT userId "errorMessage" = VStr (failedMessage e)
        ∧ (∀ v, present vmId = Some v →
                colAt (db r.2) VMT v "status" = VStr "failed"
                ∧ colAt (db r.2) VMT v "errorMessage" = VStr (failedMessage e))
    end.
Proof.
  intros Hrec. cbv zeta.
  destruct (tryBlock_returns_ready (start s) Hrec) as (evs & Hw & Hready).
  unfold runReprovisionProcess, tryCatch.
  destruct (tryBlock' (start s)) as [[[]|e] w1]; cbn [fst snd] in *; subst w1.
  - split; [done|]. destruct (Hready tt eq_refl) as [pre ->].
    pose proof Hrec as [Hs Hv].
    change (db (ext (start s) ?l)) with (replay s l). split.
    + by rewrite colAt_replay, lastSet_app, lastSet_statusWrites_legacy.
    + intros v Hpv. rewrite Hpv in Hv.
      by rewrite colAt_replay, lastSet_app, (lastSet_statusWrites_vm _ _ _ v).
  - unfold onError, updateStatus.
    rewrite updateStatusWith_run by has_records. cbn [fst snd]. rewrite ext_ext.
    split; [done|]. pose proof Hrec as [Hs Hv].
    change (db (ext (start s) ?l)) with (replay s l).
    rewrite !colAt_replay, !lastSet_app, !lastSet_statusWrites_legacy by done.
    split; [done|]. split; [done|]. intros v Hpv. rewrite Hpv in Hv.
    by rewrite !colAt_replay, !lastSet_app, !(lastSet_statusWrites_vm _ _ _ v).
Qed.

(** The run in which Python cannot be installed. *)
Lemma run_python_fails s projects c :
  hasRecords userId vmId s →
  listProjects E = Returned projects →
  createComputer E 0 = Returned c →
  installPython E = Returned false →
  ∃ x : Project * string * list Event * list Event,
    run (start s)
    = (Returned tt,
       ext (start s)
         (deleteEvents oldComputerId ++ status clearData ++ x.1.2
          ++ status (field "orgoProjectId" (VStr (project_id x.1.1.1)))
          ++ [Call "createComputer" (createArgs orgoRam orgoCpu x.1.1.1 x.1.1.2)]
          ++ status (handleData c)
          ++ [Call "waitForReady" [VStr (computer_id c); VNum 30; VNum 5000];
              Sleep 15000]
          ++ status (field "vmCreated" (VBool true) ++ field "vmStatus" (VStr "running"))
          ++ status (field "status" (VStr "configuring_vm"))
          ++ [Call "installPython" []] ++ x.2
          ++ status (field "status" (VStr "failed")
                     ++ field "errorMessage"
                          (VStr ("Failed to install Python and essential tools on VM. Diagnostics: "
                                 +:+ diagnostics E)))))
    ∧ forallb projectCall x.1.2 = true
    ∧ forallb (isCall "bash") x.2 = true
    ∧ (length x.2 ≤ 3)%nat.
Proof.
  intros Hrec Hlp Hcc Hpy.
  apply wp_ex. unfold_run. wp_go. unfold diagnostics.
  destruct (bash E 0) as [osResult|e0] eqn:H0; wp_go.
  1: destruct (bash E 1) as [aptResult|e1] eqn:H1; wp_go.
  1: destruct (bash E 2) as [pythonResult|e2] eqn:H2; wp_go.
  all: match goal with
       | Hq : forallb projectCall ?evs = true
         |- context [Call "createComputer"
                       [VStr (strOr (project_id ?p) _); VStr ?n; _; _; _]] =>
           lazymatch goal with
           | |- context [ext (ext (ext (ext _ [Call "installPython" []]) [?b0]) [?b1]) [?b2]] =>
               exists (p, n, evs, [b0; b1; b2])
           | |- context [ext (ext (ext _ [Call "installPython" []]) [?b0]) [?b1]] =>
               exists (p, n, evs, [b0; b1])
           | |- context [ext (ext _ [Call "installPython" []]) [?b0]] =>
               exists (p, n, evs, [b0])
           end
       end.
  all: cbn [fst snd];
       (split; [rewrite !ext_ext; cbn [app]; rewrite <- ?app_assoc; reflexivity|]);
       (split; [assumption|]); split; [reflexivity|cbn [length]; lia].
Qed.

Lemma calls_deleteEvents fn :
  fn ≠ "deleteComputer" → calls fn (deleteEvents oldComputerId) = 0%nat.
Proof.
  intros Hfn. unfold deleteEvents. destruct (present oldComputerId); [|done].
  rewrite calls_cons, calls_nil. cbn [isCall].
  by destruct (String.eqb_spec fn "deleteComputer").
Qed.

Lemma calls_projectCall fn evs :
  fn ≠ "listProjects" → fn ≠ "createProject" →
  forallb projectCall evs = true → calls fn evs = 0%nat.
Proof.
  intros H1 H2. apply calls_free. intros [fn' args| |]; try done.
  unfold projectCall. cbn [isCall]. intros [H|H]%orb_true_iff.
  - apply String.eqb_eq in H as <-. by apply String.eqb_neq.
  - apply String.eqb_eq in H as <-. by apply String.eqb_neq.
Qed.

(** X11. When installPython answers false the run collects the diagnostics,
    installs nothing more and ends with status failed and the message
    Failed to install Python and essential tools on VM. Diagnostics:
    followed by the three outputs, or by nothing when a diagnostic command
    throws; vmCreated stays true and clawdbotInstalled is not written. *)
Theorem python_failure_is_reported s projects c :
  hasRecords userId vmId s →
  listProjects E = Returned projects →
  createComputer E 0 = Returned c →
  installPython E = Returned false →
  let w' := (run (start s)).2 in
  colAt (db w') SetupStateT userId "status" = VStr "failed"
  ∧ colAt (db w') SetupStateT userId "errorMessage"
    = VStr ("Failed to install Python and essential tools on VM. Diagnostics: "
            +:+ diagnostics E)
  ∧ colAt (db w') SetupStateT userId "vmCreated" = VBool true
  ∧ lastSet SetupStateT userId "clawdbotInstalled" (trace w') = None
  ∧ calls "installOrgoPythonSDK" (trace w') = 0%nat
  ∧ calls "installClawdbot" (trace w') = 0%nat
  ∧ (calls "bash" (trace w') ≤ 3)%nat.
Proof.
  intros Hrec Hlp Hcc Hpy.
  destruct (run_python_fails s projects c)
    as ([[[project computerName] evs] bashCalls] & Hrun & Hq & Hb & Hlen);
    try done.
  cbv zeta. rewrite Hrun. cbn [fst snd] in *. pose proof Hrec as [Hs Hv].
  pose proof (deleteEvents_quiet oldComputerId) as Hdel.
  assert (HbQ : forallb quiet bashCalls = true).
  { revert Hb. apply forallb_weaken. by intros []. }
  assert (Hbash : ∀ fn, fn ≠ "bash" → calls fn bashCalls = 0%nat).
  { intros fn Hfn. apply (calls_free _ (isCall "bash")); [|done].
    intros [fn' args| |]; try done. unfold isCall.
    intros H%String.eqb_eq. subst fn'. by apply String.eqb_neq. }
  assert (Hcount : (calls "bash" bashCalls ≤ 3)%nat).
  { unfold calls. etrans; [apply length_filter|done]. }
  pose proof (projectCall_quiet _ Hq) as HqQ.
  change (db (ext (start s) ?l)) with (replay s l).
  change (trace (ext (start s) ?l)) with l.
  repeat split.
  1-3: rewrite colAt_replay by done;
       rewrite !lastSet_app, !lastSet_statusWrites_legacy;
       rewrite ?(lastSet_quiet _ _ _ bashCalls) by done; reflexivity.
  - rewrite !lastSet_app, !lastSet_statusWrites_legacy.
    rewrite !(lastSet_quiet _ _ _ bashCalls), !(lastSet_quiet _ _ _ evs),
      !(lastSet_quiet _ _ _ (deleteEvents _)) by done.
    unfold handleData. by destruct (computer_url c).
  - rewrite !calls_app, !calls_statusWrites, !calls_cons, !calls_nil.
    by rewrite Hbash, (calls_projectCall _ evs), calls_deleteEvents by done.
  - rewrite !calls_app, !calls_statusWrites, !calls_cons, !calls_nil.
    by rewrite Hbash, (calls_projectCall _ evs), calls_deleteEvents by done.
  - rewrite !calls_app, !calls_statusWrites, !calls_cons, !calls_nil.
    rewrite (calls_projectCall "bash" evs), calls_deleteEvents by done.
    cbn [isCall String.eqb]. cbn. lia.
Qed.

End ReprovisionRuns.

Section EndToEnd.
Import Reprovision.
Variable sanitizeName : string → string.
Variable decrypt : string → Outcome string.
Variable E : Env.

(** X9. A reprovision request that is accepted and whose run succeeds at
    every step, with no Telegram token in the environment, is answered 200
    and leaves the legacy record, and the sandbox record of the request,
    with status ready, errorMessage null, vmCreated and clawdbotInstalled
    true, telegramConfigured and gatewayStarted false, and the id of the new
    computer. *)
Theorem reprovision_request_end_to_end session bodyVmId w resp j w' projects c ver :
  POST decrypt session bodyVmId w = (Returned (resp, Some j), w') →
  listProjects E = Returned projects →
  createComputer E 0 = Returned c →
  installPython E = Returned true →
  installOrgoPythonSDK E = Returned tt →
  installClawdbot E = Returned (true, ver) →
  present (TELEGRAM_BOT_TOKEN E) = None →
  storeAIApiKey E = Returned tt →
  let r := request sanitizeName decrypt E session bodyVmId w in
  r.1 = Returned resp
  ∧ httpStatus resp = 200
  ∧ ∀ t key,
      (t = SetupStateT ∧ key = job_userId j) ∨ (t = VMT ∧ job_vmId j = Some key) →
      colAt (db r.2) t key "status" = VStr "ready"
      ∧ colAt (db r.2) t key "errorMessage" = VNull
      ∧ colAt (db r.2) t key "vmCreated" = VBool true
      ∧ colAt (db r.2) t key "clawdbotInstalled" = VBool true
      ∧ colAt (db r.2) t key "telegramConfigured" = VBool false
      ∧ colAt (db r.2) t key "gatewayStarted" = VBool false
      ∧ colAt (db r.2) t key "orgoComputerId" = VStr (computer_id c).
Proof.
  intros Hpost Hlp Hcc Hpy Hsdk Hcl Htok Hst r.
  destruct (POST_run _ _ _ _ _ _ _ Hpost) as (Hvm & Hs & Hv & ->).
  assert (Hpresent : present (job_vmId j) = job_vmId j).
  { rewrite Hvm. destruct bodyVmId as [x|]; [|done]. cbn.
    destruct (String.eqb x "") eqn:Hx; [done|]. cbn. by rewrite Hx. }
  assert (Hrec : hasRecords (job_userId j) (job_vmId j) (db w)).
  { split; [done|]. rewrite Hpresent. destruct (job_vmId j); [by apply Hv|done]. }
  destruct (run_succeeds_from sanitizeName E (job_userId j) (job_aiApiKey j)
              (job_projectName j) (job_oldComputerId j) (job_vmId j)
              (job_orgoRam j) (job_orgoCpu j) (job_aiProvider j)
              (ext w (resetWrites j)) projects c ver)
    as ([[project computerName] evs] & Hrun & Hq); try done.
  { by apply hasRecords_ext. }
  assert (Hr : r = (Returned resp,
                    (runJob sanitizeName E j (ext w (resetWrites j))).2)).
  { subst r. unfold request, bind at 1. rewrite Hpost. cbn [fst snd].
    unfold bind, tryCatch, runJob. rewrite Hrun. done. }
  rewrite Hr. cbn [fst snd]. split; [done|]. split.
  { exact (POST_job_answer _ _ _ _ _ _ _ Hpost). }
  unfold runJob. rewrite Hrun. cbn [fst snd]. rewrite ext_ext.
  change (db (ext w ?l)) with (replay (db w) l).
  apply projectCall_quiet in Hq.
  pose proof (deleteEvents_quiet (job_oldComputerId j)) as Hdel.
  intros t key Hwhere.
  assert (Hsome : is_Some (table t (db w) !! key)).
  { destruct Hwhere as [[-> ->]|[-> Hkey]]; [done|by apply Hv]. }
  rewrite !colAt_replay by done. rewrite !lastSet_app.
  destruct Hwhere as [[-> ->]|[-> Hkey]].
  - rewrite !lastSet_statusWrites_legacy.
    rewrite !(lastSet_quiet _ _ _ evs), !(lastSet_quiet _ _ _ (deleteEvents _))
      by done.
    unfold resetWrites, handleData. destruct (computer_url c), (job_vmId j);
      cbn [lastSet]; rewrite ?setAt_same, ?setAt_other_table by done;
      unfold setAt; cbn [writesTo]; by repeat split.
  - rewrite !(lastSet_statusWrites_vm _ _ _ key) by (by rewrite Hpresent).
    rewrite !(lastSet_quiet _ _ _ evs), !(lastSet_quiet _ _ _ (deleteEvents _))
      by done.
    unfold resetWrites, handleData. rewrite Hkey.
    destruct (computer_url c);
      cbn [lastSet]; rewrite ?setAt_same, ?setAt_other_table by done;
      unfold setAt; cbn [writesTo]; by repeat split.
Qed.

End EndToEnd.

(** * The gateway and the installation *)

(** A call followed by code that depends on its answer. *)
Lemma evolves_call_bind {A B} (P : Event → bool) fn args (r : Outcome A)
    (k : A → Async B) :
  P (Call fn args) = true →
  (∀ a, r = Returned a → evolves P (k a)) →
  evolves P (bind (call fn args r) k).
Proof.
  intros HP Hk w. unfold bind, call, emit. destruct r as [a|e]; cbn.
  - destruct (Hk a eq_refl (ext w [Call fn args])) as (evs & Hevs & Hall).
    exists (Call fn args :: evs).
    change {| db := db w; trace := trace w ++ [Call fn args] |}
      with (ext w [Call fn args]).
    rewrite Hevs, ext_ext. split; [done|]. cbn. by rewrite HP.
  - exists [Call fn args]. split; [done|]. cbn. by rewrite HP.
Qed.

Lemma noGateway_trace evs :
  forallb noGateway evs = true →
  calls "startClawdbotGateway" evs = 0%nat
  ∧ ∀ t key, lastSet t key "gatewayStarted" evs = None.
Proof.
  intros H. split.
  - apply (calls_free _ noGateway); [|done].
    intros ev [Hc _]%andb_true_iff. by apply negb_true_iff.
  - intros t key. apply lastSet_unset. revert H. apply forallb_weaken.
    by intros ev [_ Hs]%andb_true_iff.
Qed.

Ltac evolve_telegram H :=
  repeat first
    [ lazymatch goal with
      | |- evolves _ (bind (call "setupClawdbotTelegram" _ _) _) =>
          apply evolves_call_bind;
          [reflexivity|intros [] ?; [congruence|]; cbv beta iota]
      end
    | evolve_step ].

Section AWSGateway.
Import AWS.
Variable sanitizeName : string → string.
Variable encrypt : string → string.
Variable decrypt : string → Outcome string.
Variable E : Env.
Variables (userId llmApiKey llmProvider llmModel : string).
Variables (awsRegion awsInstanceType : string).
Variables (telegramBotToken telegramUserId vmId : option string).

Local Abbreviation run :=
  (runAWSSetupProcess sanitizeName encrypt decrypt E userId llmApiKey
     llmProvider llmModel awsRegion awsInstanceType telegramBotToken
     telegramUserId vmId).

(** X12. Unless the Telegram set-up of an AWS run answers true, the run
    never calls startClawdbotGateway and leaves gatewayStarted, in every
    record, as it was. *)
Theorem aws_gateway_needs_telegram s :
  setupClawdbotTelegram E ≠ Returned true →
  let w' := (run (start s)).2 in
  calls "startClawdbotGateway" (trace w') = 0%nat
  ∧ ∀ t key, is_Some (table t s !! key) →
             colAt (db w') t key "gatewayStarted" = colAt s t key "gatewayStarted".
Proof.
  intros Hno. cbv zeta.
  assert (evolves noGateway run) as Hrun.
  { unfold_aws. evolve_telegram Hno. }
  destruct (Hrun (start s)) as (evs & -> & Hall).
  destruct (noGateway_trace evs Hall) as [Hcalls Hset].
  split; [done|]. intros t key Hrow.
  change (db (ext (start s) evs)) with (replay s evs).
  by rewrite colAt_replay, Hset.
Qed.

(** X13. With a custom image configured, an AWS run installs nothing:
    it calls none of installPython, installAnthropicSDK and
    installClawdbot. *)
Theorem aws_custom_image_installs_nothing ami s :
  present (CLAWDBODY_AWS_CUSTOM_AMI_ID E) = Some ami →
  let w' := (run (start s)).2 in
  calls "installPython" (trace w') = 0%nat
  ∧ calls "installAnthropicSDK" (trace w') = 0%nat
  ∧ calls "installClawdbot" (trace w') = 0%nat.
Proof.
  intros Hami. cbv zeta.
  assert (evolves noInstall run) as Hrun.
  { unfold runAWSSetupProcess, tryBlock, acquire, configure. rewrite Hami.
    unfold_aws. evolve. }
  destruct (Hrun (start s)) as (evs & -> & Hall).
  change (trace (ext (start s) evs)) with evs.
  repeat split; apply (calls_free _ noInstall); try done.
  all: intros ev Hev; unfold noInstall in Hev;
       apply andb_true_iff in Hev as [[H1 H2]%andb_true_iff H3];
       by apply negb_true_iff.
Qed.

End AWSGateway.

Section ReprovisionGateway.
Import Reprovision.
Variable sanitizeName : string → string.
Variable E : Env.
Variables (userId aiApiKey projectName : string).
Variables (oldComputerId vmId : option string).
Variables (orgoRam orgoCpu : Z).
Variable aiProvider : string.

Local Abbreviation run :=
  (runReprovisionProcess sanitizeName E userId aiApiKey projectName
     oldComputerId vmId orgoRam orgoCpu aiProvider).

(** X14. Unless the Telegram set-up of a reprovisioning run answers true,
    the run never calls startClawdbotGateway and leaves gatewayStarted, in
    every record, as it was. *)
Theorem reprovision_gateway_needs_telegram s :
  setupClawdbotTelegram E ≠ Returned true →
  let w' := (run (start s)).2 in
  calls "startClawdbotGateway" (trace w') = 0%nat
  ∧ ∀ t key, is_Some (table t s !! key) →
             colAt (db w') t key "gatewayStarted" = colAt s t key "gatewayStarted".
Proof.
  intros Hno. cbv zeta.
  assert (evolves noGateway run) as Hrun.
  { unfold_reprovision. evolve_telegram Hno.
    all: try (apply createLoop_evolves; intros; reflexivity). }
  destruct (Hrun (start s)) as (evs & -> & Hall).
  destruct (noGateway_trace evs Hall) as [Hcalls Hset].
  split; [done|]. intros t key Hrow.
  change (db (ext (start s) evs)) with (replay s evs).
  by rewrite colAt_replay, Hset.
Qed.

End ReprovisionGateway.

(** * The sandbox records of a user *)

Section VMRecords.
Variable prismaUpdate : Store → string → Json → Outcome (Row * Store).



(** X16. Once DELETE has answered 200 for a sandbox id, GET of that id
    answers 404 to every signed-in user, and the other sandbox records are
    what they were. *)
Theorem vm_delete_then_get session session' uid' id s :
  VMs.replyStatus (VMs.DELETE session id s).1 = 200 →
  session' = Returned (Some uid') → uid' ≠ "" →
  let s' := (VMs.DELETE session id s).2 in
  VMs.GET session' id s' = VMs.notFound
  ∧ ∀ id', id' ≠ id → vM s' !! id' = vM s !! id'.
Proof.
  intros Hok -> Huid. cbv zeta. revert Hok. unfold VMs.DELETE, VMs.GET.
  destruct session as [sess|e]; [|done].
  destruct (sessionUser sess) as [uid|]; [|done].
  destruct (ownedVM s id uid) as [r|]; [|done]. intros _. cbn [fst snd].
  unfold sessionUser. rewrite present_Some by done.
  destruct s as [ss vs]. split.
  - unfold ownedVM. cbn. by rewrite lookup_delete_eq.
  - intros id' Hne. cbn. by rewrite lookup_delete_ne.
Qed.

End VMRecords.

(** * The output buffer of a terminal session *)

Section OutputBuffer.
Import Terminal.
Variable Output : Type.
Variable stringify : Output → string.

Lemma pushOutput_drop buffer x :
  (length buffer ≤ 1000)%nat →
  pushOutput buffer x
  = drop (length (buffer ++ [x]) - 1000) (buffer ++ [x]).
Proof.
  intros Hlen. unfold pushOutput. cbv zeta.
  rewrite length_app. cbn [length].
  destruct (Nat.ltb_spec 1000 (length buffer + 1)) as [Hgt|Hle].
  - replace (length buffer + 1 - 1000)%nat with 1%nat by lia.
    by destruct (buffer ++ [x]).
  - by replace (length buffer + 1 - 1000)%nat with 0%nat by lia.
Qed.

Lemma drop_excess {A} (l r : list A) :
  drop (length (drop (length l - 1000) l ++ r) - 1000)
       (drop (length l - 1000) l ++ r)
  = drop (length (l ++ r) - 1000) (l ++ r).
Proof.
  rewrite <- (drop_app_le l r) by lia.
  rewrite drop_drop. f_equal. rewrite length_drop, !length_app. lia.
Qed.

(** The buffer of a session after the outputs [outputs], from the buffer
    [buffer]. *)
Lemma onOutput_foldl sessionId buffers buffer outputs :
  buffers !! sessionId = Some buffer →
  (length buffer ≤ 1000)%nat →
  foldl (onOutput Output stringify sessionId) buffers outputs
  = <[sessionId :=
        drop (length (buffer ++ (stringify <$> outputs)) - 1000)
             (buffer ++ (stringify <$> outputs))]> buffers.
Proof.
  revert buffers buffer.
  induction outputs as [|o outputs IH]; intros buffers buffer Hb Hlen.
  - cbn [foldl fmap list_fmap]. rewrite app_nil_r.
    replace (length buffer - 1000)%nat with 0%nat by lia.
    rewrite drop_0. symmetry. by apply insert_id.
  - assert (onOutput Output stringify sessionId buffers o
            = <[sessionId := pushOutput buffer (stringify o)]> buffers) as Hstep.
    { unfold onOutput. by rewrite Hb. }
    cbn [foldl fmap list_fmap]. rewrite Hstep.
    rewrite (IH _ (pushOutput buffer (stringify o))).
    + rewrite insert_insert_eq. f_equal. rewrite pushOutput_drop by done.
      rewrite drop_excess. by rewrite <- app_assoc.
    + by rewrite lookup_insert_eq.
    + rewrite pushOutput_drop by done. rewrite length_drop, length_app.
      cbn [length]. lia.
Qed.

(** X17. The buffer of a terminal session holds the outputs of the shell
    in their order, and the last 1000 of them once there are more: it never
    grows beyond 1000 entries.  The buffers of the other sessions are not
    touched, and a callback whose buffer was removed stores nothing. *)
Theorem terminal_buffer_keeps_last_outputs sessionId buffers outputs :
  let started := <[sessionId := []]> buffers in
  let after := foldl (onOutput Output stringify sessionId) started outputs in
  let kept := drop (length outputs - 1000) (stringify <$> outputs) in
  after !! sessionId = Some kept
  ∧ (length kept ≤ 1000)%nat
  ∧ (∀ other, other ≠ sessionId → after !! other = buffers !! other)
  ∧ foldl (onOutput Output stringify sessionId) (delete sessionId buffers) outputs
    = delete sessionId buffers.
Proof.
  cbv zeta.
  rewrite (onOutput_foldl sessionId _ []);
    [|by rewrite lookup_insert_eq|cbn; lia].
  cbn [app]. rewrite length_fmap. repeat split.
  - by rewrite lookup_insert_eq.
  - rewrite length_drop, length_fmap. lia.
  - intros other Hne. by rewrite !lookup_insert_ne.
  - induction outputs as [|o outputs IH]; [done|].
    cbn [foldl].
    assert (onOutput Output stringify sessionId (delete sessionId buffers) o
            = delete sessionId buffers) as ->; [|done].
    unfold onOutput. by rewrite lookup_delete_eq.
Qed.

End OutputBuffer.

(** * The model providers *)

Section Providers.
Import AIProviders.

(** X18. For every provider id, [generateAuthProfiles] defines one
    profile, [name:default], whose provider is [name], and
    [getDefaultModelConfig] names a model of that very profile; the profile
    is the OpenAI one for the ids openai and kimi and the Anthropic one for
    every other id.  The model is the default model of the configuration
    that [getAIProvider] returns, which is the Anthropic one for an unknown
    id, except for a name inherited from [Object.prototype], where the model
    reads undefined. *)
Theorem default_model_names_the_profile providerId :
  ∃ name profile,
    generateAuthProfiles providerId = [(name +:+ ":default", profile)]
    ∧ lookupKey "provider" profile = Some (VStr name)
    ∧ getDefaultModelConfig providerId
      = name +:+ ":default:"
        +:+ render (read (getAIProvider providerId) defaultModel)
    ∧ (name = "openai" ∧ (providerId = "openai" ∨ providerId = "kimi")
       ∨ name = "anthropic" ∧ providerId ≠ "openai" ∧ providerId ≠ "kimi")
    ∧ (providerId ∉ ["anthropic"; "openai"; "kimi"] →
       read (getAIProvider providerId) defaultModel
       = if bool_decide (providerId ∈ inheritedNames) then None
         else Some (defaultModel anthropic)).
Proof.
  unfold generateAuthProfiles, getDefaultModelConfig, getAIProvider.
  destruct (String.eqb_spec providerId "openai") as [->|Ho].
  { eexists "openai", _. repeat split; try done; [left; by split; [|left]|].
    intros Hn. exfalso. apply Hn. set_solver. }
  destruct (String.eqb_spec providerId "kimi") as [->|Hk].
  { eexists "openai", _. repeat split; try done; [left; by split; [|right]|].
    intros Hn. exfalso. apply Hn. set_solver. }
  eexists "anthropic", _. repeat split; try done; [by right|].
  intros Hn. destruct (String.eqb_spec providerId "anthropic") as [->|Ha].
  { exfalso. apply Hn. set_solver. }
  by destruct (bool_decide _).
Qed.

(** The column read by the reprovision request is the one of
    [getApiKeyField]; its refusal names the provider as [getAIProvider]
    does, and reads undefined for an inherited name. *)
Lemma apiKeyColumn_getApiKeyField providerId :
  Reprovision.apiKeyColumn providerId = getApiKeyField providerId.
Proof. reflexivity. Qed.

Lemma displayName_inherited providerId :
  providerId ∈ inheritedNames → Reprovision.displayName providerId = "undefined".
Proof.
  intros Hin. unfold Reprovision.displayName, getAIProvider.
  rewrite bool_decide_eq_true_2 by done.
  repeat (apply elem_of_cons in Hin as [->|Hin]; [reflexivity|]).
  by apply elem_of_nil in Hin.
Qed.

End Providers.

(** * The end of an AWS run *)

Section AWSRuns.
Import AWS.
Variable sanitizeName : string → string.
Variable encrypt : string → string.
Variable decrypt : string → Outcome string.
Variable E : Env.
Variables (userId llmApiKey llmProvider llmModel : string).
Variables (awsRegion awsInstanceType : string).
Variables (telegramBotToken telegramUserId vmId : option string).

Local Abbreviation run :=
  (runAWSSetupProcess sanitizeName encrypt decrypt E userId llmApiKey
     llmProvider llmModel awsRegion awsInstanceType telegramBotToken
     telegramUserId vmId).
Local Abbreviation acquire' :=
  (acquire sanitizeName encrypt decrypt E userId awsRegion awsInstanceType vmId).
Local Abbreviation configure' :=
  (configure E userId llmApiKey llmProvider llmModel telegramBotToken
     telegramUserId vmId).
Local Abbreviation onError' := (onError userId awsInstanceType vmId).
Local Abbreviation status := (statusWrites vmColumns userId vmId).

Lemma noCleanup_calls evs :
  forallb noCleanup evs = true → calls "cleanup" evs = 0%nat.
Proof.
  apply calls_free. intros ev H. by apply negb_true_iff.
Qed.

(** X19. The SSH connection of an AWS run is cleaned up exactly when the
    instance was acquired: the run then ends with the one clean-up call,
    whether the configuration returns or throws; and when the acquisition
    throws there is no clean-up call. *)
Theorem aws_run_cleans_up w :
  ∃ evs, (run w).2 = ext w evs
         ∧ match (acquire' w).1 with
           | Returned _ =>
               ∃ pre, evs = pre ++ [Call "cleanup" []]
                      ∧ calls "cleanup" pre = 0%nat
           | Threw _ => calls "cleanup" evs = 0%nat
           end.
Proof.
  assert (evolves noCleanup acquire') as Ha by (unfold_aws; evolve).
  assert (evolves noCleanup (tryCatch configure' onError')) as Hc
    by (unfold_aws; evolve).
  assert (∀ e, evolves noCleanup (onError' e)) as He
    by (intros e; unfold_aws; evolve).
  unfold runAWSSetupProcess, bind, reify, tryFinally, cleanup, emit.
  destruct (Ha w) as (evs1 & Hw1 & H1).
  destruct (acquire' w) as [[a|e] w1]; cbn [fst snd] in *; subst w1.
  - destruct (Hc (ext w evs1)) as (evs2 & Hw2 & H2).
    destruct (tryCatch configure' onError' (ext w evs1)) as [o w2].
    cbn [fst snd] in *. subst w2.
    exists ((evs1 ++ evs2) ++ [Call "cleanup" []]). split.
    + change (ext (ext (ext w evs1) evs2) [Call "cleanup" []] = ext w ((evs1 ++ evs2) ++ [Call "cleanup" []])).
      by rewrite !ext_ext, app_assoc.
    + exists (evs1 ++ evs2). split; [done|].
      by rewrite calls_app, !noCleanup_calls.
  - destruct (He e (ext w evs1)) as (evs2 & Hw2 & H2).
    exists (evs1 ++ evs2). rewrite Hw2, ext_ext. split; [done|].
    by rewrite calls_app, !noCleanup_calls.
Qed.

Local Abbreviation tryBlock' :=
  (tryBlock sanitizeName encrypt decrypt E userId llmApiKey
     llmProvider llmModel awsRegion awsInstanceType telegramBotToken
     telegramUserId vmId).

(** The events of a successful creation (lines 120-154). *)
Local Abbreviation creation existingVM instance privateKey ip :=
  (status provisioningData
   ++ [Call "createInstance"
         [VStr (instanceName sanitizeName E existingVM); VStr awsInstanceType;
          VStr awsRegion]]
   ++ status (field "awsInstanceId" (VStr (instance_id instance))
              ++ field "awsInstanceName" (VStr (instance_name instance))
              ++ field_opt "awsPublicIp" (instance_publicIp instance)
              ++ field "awsPrivateKey" (VStr (encrypt privateKey))
              ++ field "vmStatus" (VStr "starting"))
   ++ [Sleep 30000; Call "getInstance" [VStr (instance_id instance)]]
   ++ status (field_opt "awsPublicIp" ip
              ++ field "vmCreated" (VBool true)
              ++ field "vmStatus" (VStr "running"))).

Lemma createNew_succeeds existingVM instance privateKey ip w :
  hasRecords userId vmId (db w) →
  createInstance E = Returned (instance, privateKey) →
  getInstance E 0 = Returned ip →
  present (CLAWDBODY_AWS_CUSTOM_AMI_ID E) = None →
  createNew sanitizeName encrypt E userId awsRegion awsInstanceType vmId
    existingVM w
  = (Returned (instance, privateKey),
     ext w (creation existingVM instance privateKey ip)).
Proof.
  intros Hrec Hc Hg Hami. apply wp_eq.
  unfold createNew, updateStatus, provisioningData, instanceName. rewrite Hami.
  wp_run. by rewrite !ext_ext.
Qed.

(** The events of the configuration phase without custom image and without
    Telegram token (lines 214-265). *)
Local Abbreviation installation :=
  ([Call "installPython" []; Call "installAnthropicSDK" [];
    Call "installClawdbot" []]
   ++ status (field "clawdbotInstalled" (VBool true))
   ++ status (field "status" (VStr "ready"))).

Lemma configure_installs ver w :
  hasRecords userId vmId (db w) →
  present (CLAWDBODY_AWS_CUSTOM_AMI_ID E) = None →
  installPython E = Returned true →
  installAnthropicSDK E = Returned tt →
  installClawdbot E = Returned (true, ver) →
  finalTelegramToken E telegramBotToken = None →
  configure' w = (Returned tt, ext w installation).
Proof.
  intros Hrec Hami Hpy Hsdk Hcl Htok. apply wp_eq.
  unfold configure, fullInstall, messaging, updateStatus. rewrite Hami, Htok.
  wp_run. by rewrite !ext_ext.
Qed.

Lemma fresh_run s instance privateKey ip ip' ver :
  hasRecords userId vmId s →
  reusable (existing vmId s) = false →
  createInstance E = Returned (instance, privateKey) →
  getInstance E 0 = Returned ip →
  getInstance E 1 = Returned ip' →
  present (CLAWDBODY_AWS_CUSTOM_AMI_ID E) = None →
  installPython E = Returned true →
  installAnthropicSDK E = Returned tt →
  installClawdbot E = Returned (true, ver) →
  finalTelegramToken E telegramBotToken = None →
  ∃ lookup,
    run (start s)
    = (Returned tt,
       ext (start s)
         (creation (existing vmId s) instance privateKey ip
          ++ status (field "status" (VStr "configuring_vm"))
          ++ lookup ++ installation ++ [Call "cleanup" []]))
    ∧ forallb quiet lookup = true
    ∧ forallb noInstance lookup = true.
Proof.
  intros Hrec Hreuse Hcreate Hget0 Hget1 Hami Hpy Hsdk Hcl Htok.
  assert (∃ lookup,
            tryBlock' (start s)
            = (Returned tt,
               ext (start s)
                 (creation (existing vmId s) instance privateKey ip
                  ++ status (field "status" (VStr "configuring_vm"))
                  ++ lookup ++ installation))
            ∧ forallb quiet lookup = true
            ∧ forallb noInstance lookup = true) as (lookup & Htry & Hq & Hn).
  { apply wp_ex. unfold tryBlock, acquire.
    apply wp_bind, wp_bind, wp_findUnique. cbv beta iota. apply wp_bind.
    assert (∀ existingVM,
              existingVM = existing vmId s →
              wp (let! acquired :=
                    createNew sanitizeName encrypt E userId awsRegion
                      awsInstanceType vmId existingVM in
                  updateStatus userId vmId (field "status" (VStr "configuring_vm")) ;;;
                  let! instancePublicIp :=
                    (match present (instance_publicIp acquired.1) with
                     | Some ip0 => ret (Some ip0)
                     | None => call "getInstance" [VStr (instance_id acquired.1)]
                                 (getInstance E 1)
                     end) in
                  ret (acquired, instancePublicIp))
                 (λ o w',
                    match o with
                    | Returned a =>
                        wp configure'
                          (λ o' w'',
                             ∃ lookup,
                               (o', w'')
                               = (Returned tt,
                                  ext (start s)
                                    (creation (existing vmId s) instance
                                       privateKey ip
                                     ++ status (field "status" (VStr "configuring_vm"))
                                     ++ lookup ++ installation))
                               ∧ forallb quiet lookup = true
                               ∧ forallb noInstance lookup = true) w'
                    | Threw e =>
                        ∃ lookup,
                          (Threw e, w')
                          = (Returned tt,
                             ext (start s)
                               (creation (existing vmId s) instance privateKey ip
                                ++ status (field "status" (VStr "configuring_vm"))
                                ++ lookup ++ installation))
                          ∧ forallb quiet lookup = true
                          ∧ forallb noInstance lookup = true
                    end) (start s)) as Hnew.
    { intros existingVM ->. apply wp_bind.
      eapply wp_of_eq; [by apply createNew_succeeds|]. cbv beta iota.
      apply wp_bind. unfold updateStatus.
      apply wp_updateStatusWith; [has_records|]. apply wp_bind.
      cbn [fst snd].
      destruct (present (instance_publicIp instance)) as [pub|].
      - apply wp_ret, wp_ret.
        eapply wp_of_eq; [by apply (configure_installs ver); [has_records|..]|].
        exists []. rewrite !ext_ext. by rewrite <- !app_assoc.
      - apply wp_call. rewrite Hget1. apply wp_ret.
        eapply wp_of_eq; [by apply (configure_installs ver); [has_records|..]|].
        exists [Call "getInstance" [VStr (instance_id instance)]].
        rewrite !ext_ext. by rewrite <- !app_assoc. }
    unfold existing in *.
    destruct (present vmId) as [v|] eqn:Hv.
    - apply wp_findUnique. cbv beta iota.
      change (table VMT (db (start s)) !! v) with (vM s !! v).
      destruct (vM s !! v) as [row|] eqn:Hrow.
      + rewrite Hreuse. by apply Hnew.
      + by apply Hnew.
    - apply wp_ret. cbv beta iota. by apply Hnew. }
  exists lookup. split; [|done]. rewrite (run_returns _ _ _ _ _ _ _ _ _ _ _ _ _ _ _ Htry).
  rewrite ext_ext. by rewrite <- !app_assoc.
Qed.

(** X20. A run on a record without reusable instance, in which the
    creation, the look-ups and the three installations succeed and no
    custom image and no Telegram token are set, creates one instance and
    ends, after the clean-up, with status ready, vmCreated and
    clawdbotInstalled true, and the id, the name and the encrypted private
    key of the new instance in the legacy record and in the sandbox record
    of the run. *)
Theorem aws_fresh_run_succeeds s instance privateKey ip ip' ver :
  hasRecords userId vmId s →
  reusable (existing vmId s) = false →
  createInstance E = Returned (instance, privateKey) →
  getInstance E 0 = Returned ip →
  getInstance E 1 = Returned ip' →
  present (CLAWDBODY_AWS_CUSTOM_AMI_ID E) = None →
  installPython E = Returned true →
  installAnthropicSDK E = Returned tt →
  installClawdbot E = Returned (true, ver) →
  finalTelegramToken E telegramBotToken = None →
  let r := run (start s) in
  r.1 = Returned tt
  ∧ calls "createInstance" (trace r.2) = 1%nat
  ∧ (∃ pre, trace r.2 = pre ++ [Call "cleanup" []])
  ∧ ∀ t key,
      (t = SetupStateT ∧ key = userId) ∨ (t = VMT ∧ present vmId = Some key) →
      colAt (db r.2) t key "status" = VStr "ready"
      ∧ colAt (db r.2) t key "vmCreated" = VBool true
      ∧ colAt (db r.2) t key "clawdbotInstalled" = VBool true
      ∧ colAt (db r.2) t key "awsInstanceId" = VStr (instance_id instance)
      ∧ colAt (db r.2) t key "awsInstanceName" = VStr (instance_name instance)
      ∧ colAt (db r.2) t key "awsPrivateKey" = VStr (encrypt privateKey).
Proof.
  intros Hrec Hreuse Hcreate Hget0 Hget1 Hami Hpy Hsdk Hcl Htok. cbv zeta.
  destruct (fresh_run s instance privateKey ip ip' ver)
    as (lookup & -> & Hq & Hn); try done.
  cbn [fst snd]. split; [done|]. pose proof Hrec as [Hs Hv].
  change (trace (ext (start s) ?l)) with l.
  change (db (ext (start s) ?l)) with (replay s l).
  split; [|split].
  - rewrite !calls_app, !calls_statusWrites, !calls_cons, !calls_nil.
    by rewrite (noInstance_calls lookup).
  - eexists. rewrite !app_assoc. reflexivity.
  - intros t key [[-> ->]|[-> Hkey]].
    + rewrite !colAt_replay by done.
      rewrite !lastSet_app, !lastSet_statusWrites_legacy.
      rewrite !(lastSet_quiet _ _ _ lookup) by done.
      destruct (instance_publicIp instance), ip; by repeat split.
    + rewrite Hkey in Hv.
      rewrite !colAt_replay by done.
      rewrite !lastSet_app, !(lastSet_statusWrites_vm _ _ _ key) by done.
      rewrite !(lastSet_quiet _ _ _ lookup) by done.
      destruct (instance_publicIp instance), ip; by repeat split.
Qed.

End AWSRuns.

(** * The further properties on worked inputs *)

(** User [U2] sends the body null: the answer is 500 with the message of
    the TypeError, and the store is as it was. *)
Lemma reprovision_post_outcomes_witness :
  let message := "Cannot read properties of null (reading 'vmId')" in
  ∃ m, ReprovisionRequest.POST Examples.decryptPlain message
         (Returned (Some "U2")) (Returned JNull) = Some m
       ∧ m (start Examples.orgoStore)
         = (Returned (jsonStatus (field "error" (VStr message)) 500, None),
            start Examples.orgoStore).
Proof.
  cbv zeta. eexists. split; [reflexivity|].
  destruct (reprovision_post_outcomes Examples.decryptPlain
              "Cannot read properties of null (reading 'vmId')"
              (Returned (Some "U2")) (Returned JNull) _
              (start Examples.orgoStore) eq_refl)
    as (resp & job & evs & Hrun & _ & _ & _ & _ & _ & Hnull & _).
  destruct (Hnull "U2" eq_refl) as (-> & -> & ->); [done|reflexivity|].
  rewrite Hrun. by rewrite ext_nil.
Defined.

(** User [U2] names the sandbox [vm9] of user [U7]: the request is accepted
    and the record of [vm9] is reset. *)
Lemma reprovision_post_sandbox_by_id_witness :
  let r := Reprovision.POST Examples.decryptPlain (Returned (Some "U2"))
             (Some "vm9") (start Examples.sharedStore) in
  ∃ resp j, r.1 = Returned (resp, Some j)
            ∧ httpStatus resp = 200
            ∧ Reprovision.job_vmId j = Some "vm9"
            ∧ Reprovision.job_userId j = "U2"
            ∧ resetState (db r.2) VMT "vm9".
Proof.
  refine (proj1 (reprovision_post_sandbox_by_id Examples.decryptPlain
                   "U2" "vm9" Examples.orgoRow "plain:enc-claude" "plain:enc-orgo"
                   (start Examples.sharedStore) _ _ _ _ _ _ _ _ _ _) _);
    try done.
Defined.

(** The request of user [U2] on a world where every step of the run
    succeeds. *)
Lemma reprovision_request_end_to_end_witness :
  let r := Reprovision.request (λ n, n) Examples.decryptPlain
             Examples.orgoDeleteFails (Returned (Some "U2")) None
             (start Examples.orgoStore) in
  ∃ resp, r.1 = Returned resp
          ∧ httpStatus resp = 200
          ∧ colAt (db r.2) SetupStateT "U2" "status" = VStr "ready"
          ∧ colAt (db r.2) SetupStateT "U2" "orgoComputerId" = VStr "r-new".
Proof.
  destruct (Reprovision.POST Examples.decryptPlain (Returned (Some "U2")) None
              (start Examples.orgoStore)) as [o w'] eqn:H.
  assert (∃ resp j, o = Returned (resp, Some j) ∧ Reprovision.job_userId j = "U2")
    as (resp & j & -> & Hu).
  { vm_compute in H. injection H as <- <-. eauto. }
  destruct (reprovision_request_end_to_end (λ n, n) Examples.decryptPlain
              Examples.orgoDeleteFails _ _ _ _ _ _
              [Reprovision.mkProject "p-1" "claude-brain"] Examples.newComputer
              (Some "1.0") H) as (H1 & H2 & H3); try reflexivity.
  destruct (H3 SetupStateT "U2") as (Hst & _ & _ & _ & _ & _ & Hid);
    [left; by rewrite Hu|].
  exists resp. by repeat split.
Defined.

(** Every creation attempt is refused: the run returns all the same. *)
Lemma reprovision_run_ends_ready_or_failed_witness :
  (Examples.reprovisionRun Examples.orgoRefuses (start Examples.orgoStore)).1
  = Returned tt.
Proof.
  exact (proj1 (reprovision_run_ends_ready_or_failed (λ n, n) Examples.orgoRefuses
                  "U2" "sk-ant-key" "claude-brain" (Some "r-old") None 4 2
                  "anthropic" Examples.orgoStore orgoStore_records)).
Defined.

(** The no-break space is white space for [trim], as the other six. *)
Lemma outputOr_no_break_space :
  let nbsp := String (ascii_of_nat 160) EmptyString in
  Reprovision.outputOr (Some (nbsp +:+ "Ubuntu" +:+ nbsp)) = "Ubuntu"
  ∧ Reprovision.outputOr (Some nbsp) = "unknown".
Proof. by vm_compute. Qed.

(** Python cannot be installed on an image without apt. *)
Lemma python_failure_is_reported_witness :
  let w' := (Examples.reprovisionRun Examples.orgoPythonFails
               (start Examples.orgoStore)).2 in
  colAt (db w') SetupStateT "U2" "status" = VStr "failed"
  ∧ colAt (db w') SetupStateT "U2" "errorMessage"
    = VStr ("Failed to install Python and essential tools on VM. Diagnostics: "
            +:+ "OS: Alpine Linux, apt: apt not found, python: unknown").
Proof.
  destruct (python_failure_is_reported (λ n, n) Examples.orgoPythonFails
              "U2" "sk-ant-key" "claude-brain" (Some "r-old") None 4 2
              "anthropic" Examples.orgoStore
              [Reprovision.mkProject "p-1" "claude-brain"] Examples.newComputer
              orgoStore_records eq_refl eq_refl eq_refl) as (Hst & Hmsg & _).
  split; [exact Hst|exact Hmsg].
Defined.

(** The Telegram set-up of the AWS run answers false. *)
Lemma aws_gateway_needs_telegram_witness :
  calls "startClawdbotGateway"
    (trace (Examples.awsRun Examples.awsTelegramFails
              (start Examples.configuredStore)).2) = 0%nat.
Proof.
  refine (proj1 (aws_gateway_needs_telegram (λ n, n) (λ k, k) (λ c, Returned c)
                   Examples.awsTelegramFails "u1" "sk-ant-key" "anthropic"
                   "claude" "us-east-1" "t3.micro" None None None
                   Examples.configuredStore _)).
  done.
Defined.

(** A run on the custom image. *)
Lemma aws_custom_image_installs_nothing_witness :
  let w' := (Examples.awsRun Examples.awsCustomImage
               (start Examples.awsFreshStore)).2 in
  calls "installPython" (trace w') = 0%nat
  ∧ calls "installAnthropicSDK" (trace w') = 0%nat
  ∧ calls "installClawdbot" (trace w') = 0%nat.
Proof.
  exact (aws_custom_image_installs_nothing (λ n, n) (λ k, k) (λ c, Returned c)
           Examples.awsCustomImage "u1" "sk-ant-key" "anthropic"
           "claude" "us-east-1" "t3.micro" None None None
           "ami-0123456789" Examples.awsFreshStore eq_refl).
Defined.

(** The Telegram set-up of the reprovisioning run answers false. *)
Lemma reprovision_gateway_needs_telegram_witness :
  calls "startClawdbotGateway"
    (trace (Examples.reprovisionRun Examples.orgoTelegramFails
              (start Examples.orgoStore)).2) = 0%nat.
Proof.
  refine (proj1 (reprovision_gateway_needs_telegram (λ n, n)
                   Examples.orgoTelegramFails "U2" "sk-ant-key" "claude-brain"
                   (Some "r-old") None 4 2 "anthropic" Examples.orgoStore _)).
  done.
Defined.

(** User [u1] deletes the sandbox [vm1] and asks for it again. *)
Lemma vm_delete_then_get_witness :
  VMs.GET (Returned (Some "u1")) "vm1"
    (VMs.DELETE (Returned (Some "u1")) "vm1" Examples.awsProvisionedStore).2
  = VMs.notFound.
Proof.
  refine (proj1 (vm_delete_then_get (Returned (Some "u1")) (Returned (Some "u1"))
                   "u1" "vm1" Examples.awsProvisionedStore _ _ _)).
  - vm_compute. reflexivity.
  - reflexivity.
  - done.
Defined.

(** The first run of user [u1]. *)
Lemma aws_fresh_run_succeeds_witness :
  let r := Examples.awsRun Examples.awsOk (start Examples.awsFreshStore) in
  r.1 = Returned tt
  ∧ colAt (db r.2) SetupStateT "u1" "status" = VStr "ready"
  ∧ colAt (db r.2) SetupStateT "u1" "awsInstanceId" = VStr "i-1"
  ∧ colAt (db r.2) SetupStateT "u1" "awsPrivateKey" = VStr "pem".
Proof.
  destruct (aws_fresh_run_succeeds (λ n, n) (λ k, k) (λ c, Returned c)
              Examples.awsOk "u1" "sk-ant-key" "anthropic" "claude" "us-east-1"
              "t3.micro" None None None Examples.awsFreshStore
              (AWS.mkInstance "i-1" "box" None) "pem" (Some "1.2.3.4")
              (Some "1.2.3.4") (Some "1.0") awsFreshStore_records)
    as (Hret & _ & _ & Hcols); try reflexivity.
  destruct (Hcols SetupStateT "u1") as (Hst & _ & _ & Hid & _ & Hkey);
    [by left|].
  by repeat split.
Defined.
